(** * Startup orchestration of Discord-System-V4

    A shallow embedding of the two startup scripts of the repository,
    [src/bot.js] and its near-duplicate [src/unnamed/part_000], and the
    properties of their startup sequence.

    Both scripts are glue: they [require] optional collaborators, build a
    client, install process-level handlers, call the collaborators one
    after the other and log in.  The embedding keeps the control flow of
    the scripts ([try]/[catch], guards on [typeof], short-circuit [&&] and
    [||], [process.exit]) and treats every collaborator as an opaque
    function that either returns or throws, which is the contract the
    scripts rely on.  What a run does is recorded as a trace of events.

    What the embedding takes for granted:
    - a collaborator returns or throws; it does not end the process
      itself and it does not hang; what it does inside a call (what it
      prints, what it stores) is not part of the trace;
    - [console.log], [console.warn] and [console.error] never throw;
    - [dotenv] is installed: the environment of a world is the one the
      script sees after [require('dotenv').config()];
    - the process runs on Node.js 15 or later, where a rejection nobody
      handles ends the process with status 1 (see [process_status]). *)

From Stdlib Require Import ZArith String Ascii List Bool Lia Sorted.
From stdpp Require Import base option list strings gmap sorting.

(** ** JavaScript values, as far as the scripts look at them *)

(** Values that are thrown and caught. *)
Inductive jserror :=
| TypeError (what : string)
| ModuleNotFound (path : string)
| Failure (msg : string).

(** What a call of an external function does: it returns a value, of
    which only the truthiness is ever inspected, or it throws.  An
    [async] function that resolves or rejects is the same thing under
    [await]. *)
Inductive behaviour :=
| Returns (truthy : bool)
| Throws (e : jserror).

(** A property that is expected to hold a function.  [Absent] is
    [undefined] or [null]; [NotCallable] is any other value that is not a
    function; [Callable f] is a function.  The scripts guard calls in two
    ways, by [typeof x === 'function'] and by truthiness ([x && x()]), and
    the two differ on [NotCallable]. *)
Inductive slot (A : Type) :=
| Absent
| NotCallable
| Callable (f : A).
Arguments Absent {A}.
Arguments NotCallable {A}.
Arguments Callable {A} f.

(** [typeof x === 'function'] *)
Definition is_function {A} (s : slot A) : bool :=
  match s with Callable _ => true | _ => false end.

(** Truthiness of the value held by a slot. *)
Definition slot_truthy {A} (s : slot A) : bool :=
  match s with Absent => false | _ => true end.

(** Truthiness of a string-valued property that may be unset
    ([process.env.X], [cmd.name]): unset and the empty string are falsy. *)
Definition truthy (v : option string) : bool :=
  match v with
  | Some s => negb (String.eqb s "")
  | None => false
  end.

(** [a || b] on such values. *)
Definition or_else (a b : option string) : option string :=
  if truthy a then a else b.

(** [typeof v === 'function'] for an export that may itself be a function. *)
Definition is_Some_bool {A} (o : option A) : bool :=
  match o with Some _ => true | None => false end.

(** [async () => {}] and [() => {}], the do-nothing fallbacks. *)
Definition noop : slot behaviour := Callable (Returns false).

(** ** The client *)

Inductive logger_method := LLog | LWarn | LError.

(** [client.logger] *)
Record logger := {
  lg_log : slot behaviour;
  lg_warn : slot behaviour;
  lg_error : slot behaviour
}.

Definition logger_slot (lg : logger) (m : logger_method) : slot behaviour :=
  match m with
  | LLog => lg_log lg
  | LWarn => lg_warn lg
  | LError => lg_error lg
  end.

(** The object that [new BotClient()] yields, as far as the scripts use
    it.  [cl_dashboard_enabled] is the truthiness of
    [client.config && client.config.DASHBOARD && client.config.DASHBOARD.enabled].
    [cl_commands] is the content of [client.commands] when that is a
    map with a [set] function, keyed by command name; a command is
    identified by the file it was required from.  [cl_on] tells whether
    the client has the event emitter's [on]. *)
Record client := {
  cl_dashboard_enabled : bool;
  cl_logger : option logger;
  cl_loadCommands : slot behaviour;
  cl_loadCommandTests : slot behaviour;
  cl_loadEvents : slot behaviour;
  cl_registerEvents : slot behaviour;
  cl_login : slot (string → behaviour);
  cl_commands : option (gmap string string);
  cl_on : bool
}.

(** What [new C()] does for a class [C]. *)
Inductive construction :=
| Constructs (c : client)
| ConstructorThrows (e : jserror).

(** ** Modules and the file system *)

(** The exports of a module, one field for each property some script
    reads from the result of a [require].  [ex_call] is set when the
    export itself is a function; [ex_name] is its [name] property. *)
Record exports := {
  ex_checkForUpdates : slot behaviour;
  ex_initializeMongoose : slot behaviour;
  ex_validateConfiguration : slot behaviour;
  ex_BotClient : slot construction;
  ex_launch : slot behaviour;
  ex_Client : slot construction;
  ex_Intents_FLAGS : bool;
  ex_textSync : slot behaviour;
  ex_call : option behaviour;
  ex_name : option string;
  ex_execute : slot behaviour
}.

(** The result of [require(path)]. *)
Inductive module :=
| NotFound
| Nullish
| Exports (x : exports).

Inductive readdir :=
| Entries (files : list string)
| ReaddirThrows (e : jserror).

(** The process environment a run starts in: the environment variables
    (after [dotenv] has merged the [.env] file into them), the module
    system and the file system. *)
Record world := {
  env : gmap string string;
  modules : string → module;
  existsSync : string → bool;
  readdirSync : string → readdir
}.

(** ** Events and the monad of a run *)

Inductive console_method := CLog | CWarn | CError.
Inductive signal := UnhandledRejection | UncaughtException.

(** An argument of a logging call. *)
Inductive arg :=
| Str (s : string)
| ErrArg (e : jserror).

Inductive callee :=
| ValidateConfiguration
| CheckForUpdates
| InitializeMongoose
| LoadCommands
| LoadCommandTests
| LoadEvents
| RegisterEvents
| Launch (path : string)
| FigletTextSync.

Inductive bind_kind := BindModule | BindExecute.

Inductive event :=
| EvEnvLoad
| EvRequire (path : string)
| EvConsole (m : console_method) (args : list arg)
| EvLogger (m : logger_method) (args : list arg)
| EvCall (f : callee)
| EvNew
| EvProcessOn (s : signal)
| EvCommandsSet (name file : string)
| EvOn (name file : string) (k : bind_kind)
| EvLogin (token : string).

(** How a computation ends: normally, by an exception, or by
    [process.exit], which never returns and which no [catch] sees. *)
Inductive outcome (A : Type) :=
| Done (a : A)
| Thrown (e : jserror)
| Exited (code : Z).
Arguments Done {A} a.
Arguments Thrown {A} e.
Arguments Exited {A} code.

Record prog (A : Type) := Prog {
  trace : list event;
  outcome_of : outcome A
}.
Arguments Prog {A} trace outcome_of.
Arguments trace {A} p.
Arguments outcome_of {A} p.

#[global] Instance prog_ret : MRet prog := λ A a, Prog [] (Done a).

#[global] Instance prog_bind : MBind prog := λ A B f m,
  match outcome_of m with
  | Done a => Prog (trace m ++ trace (f a)) (outcome_of (f a))
  | Thrown e => Prog (trace m) (Thrown e)
  | Exited c => Prog (trace m) (Exited c)
  end.

#[global] Arguments prog_ret : simpl never.
#[global] Arguments prog_bind : simpl never.

Definition throw {A} (e : jserror) : prog A := Prog [] (Thrown e).

(** [process.exit(code)] *)
Definition exit {A} (code : Z) : prog A := Prog [] (Exited code).

Definition emit (ev : event) : prog unit := Prog [ev] (Done ()).

(** [try { m } catch (e) { h e }] *)
Definition try_catch {A} (m : prog A) (h : jserror → prog A) : prog A :=
  match outcome_of m with
  | Thrown e => Prog (trace m ++ trace (h e)) (outcome_of (h e))
  | _ => m
  end.

(** Running an external function: the value it returns or the exception
    it throws. *)
Definition perform (b : behaviour) : prog bool :=
  match b with
  | Returns v => mret v
  | Throws e => throw e
  end.

(** [f()] for a variable [f] that was never checked: the event records
    that the call is evaluated, which fails when [f] is not a function. *)
Definition call (what : callee) (name : string) (f : slot behaviour) : prog bool :=
  emit (EvCall what);;
  match f with
  | Callable b => perform b
  | _ => throw (TypeError (name +:+ " is not a function"))
  end.

Definition console (m : console_method) (args : list arg) : prog unit :=
  emit (EvConsole m args).

(** [require(path)] *)
Definition require (w : world) (path : string) : prog module :=
  emit (EvRequire path);;
  match modules w path with
  | NotFound => throw (ModuleNotFound path)
  | x => mret x
  end.

(** [x.field] on the result of a [require]. *)
Definition prop {A} (field : exports → A) (what : string) (x : module) : prog A :=
  match x with
  | Exports e => mret (field e)
  | _ => throw (TypeError ("Cannot read properties of undefined (reading '" +:+ what +:+ "')"))
  end.

(** [new C()] *)
Definition new (name : string) (C : slot construction) : prog client :=
  match C with
  | Callable (Constructs c) => emit EvNew;; mret c
  | Callable (ConstructorThrows e) => emit EvNew;; throw e
  | _ => throw (TypeError (name +:+ " is not a constructor"))
  end.

(** [client.logger && client.logger.m && client.logger.m(args)] *)
Definition logger_call (c : client) (m : logger_method) (args : list arg) : prog unit :=
  match cl_logger c with
  | None => mret ()
  | Some lg =>
      match logger_slot lg m with
      | Absent => mret ()
      | NotCallable => throw (TypeError "client.logger method is not a function")
      | Callable b => emit (EvLogger m args);; perform b;; mret ()
      end
  end.

(** [process.env.NAME] *)
Definition getenv (w : world) (name : string) : option string := env w !! name.

(** A [for (const x of l)] loop whose body neither breaks nor returns. *)
Fixpoint for_each {A} (body : A → prog unit) (l : list A) : prog unit :=
  match l with
  | [] => mret ()
  | x :: l' => body x;; for_each body l'
  end.

(** ** Strings and paths *)

(** [s.endsWith(suffix)] *)
Definition endsWith (s suffix : string) : bool :=
  let n := String.length s in
  let k := String.length suffix in
  (k <=? n)%nat && String.eqb (substring (n - k) k s) suffix.

(** [path.basename(file, ext)] for a [file] without directory part. *)
Definition basename (file ext : string) : string :=
  if endsWith file ext
  then substring 0 (String.length file - String.length ext) file
  else file.

(** [path.join(dir, file)] *)
Definition path_join (dir file : string) : string := dir +:+ "/" +:+ file.

(** [path.resolve(__dirname, ...segments)], written relative to the
    directory of the script. *)
Definition path_resolve (segments : list string) : string :=
  String.concat "/" segments.

(** ** [src/bot.js] *)

Module BotJs.

Definition USE_FIGLET : bool := false.

(** The static banner; the block-letter art above the frame is left out,
    the three lines of text inside the frame are kept. *)
Definition STATIC_ASCII_BANNER : string :=
  "Developer: Shaad You / Support: https://discord.gg/mFEehCPKEW / Made By: Code Nexus".

Definition rule70 : string := String.concat "" (repeat "=" 70%nat).

(** Lines 81-113: the class used when [BotClient] cannot be required.
    Its [login] rejects an empty token and otherwise prints a line
    through its logger, inside the call. *)
Definition MinimalBotClient : client := {|
  cl_dashboard_enabled := false;
  cl_logger := Some {| lg_log := Callable (Returns false);
                       lg_warn := Absent;
                       lg_error := Callable (Returns false) |};
  cl_loadCommands := noop;
  cl_loadCommandTests := noop;
  cl_loadEvents := noop;
  cl_registerEvents := Absent;
  cl_login := Callable (λ token,
    if truthy (Some token) then Returns false else Throws (Failure "Missing token"));
  cl_commands := None;
  cl_on := false
|}.

(** Lines 41-129: the collaborators, each with a fallback for a module
    that cannot be required. *)
Definition resolve_checkForUpdates (w : world) : prog (slot behaviour) :=
  try_catch
    (x ← require w "@root/utils/botUtils"; prop ex_checkForUpdates "checkForUpdates" x)
    (λ _, mret noop).

Definition resolve_initializeMongoose (w : world) : prog (slot behaviour) :=
  try_catch
    (x ← require w "@root/utils/database/mongoose";
     prop ex_initializeMongoose "initializeMongoose" x)
    (λ _, mret noop).

(** Line 75, the body of the [try]. *)
Definition require_BotClient (w : world) : prog (slot construction) :=
  x ← require w "@src/core/BotClient"; prop ex_BotClient "BotClient" x.

Definition resolve_BotClient (w : world) : prog (slot construction) :=
  try_catch (require_BotClient w)
    (λ _, mret (Callable (Constructs MinimalBotClient))).

Definition resolve_validateConfiguration (w : world) : prog (slot behaviour) :=
  try_catch
    (x ← require w "@root/utils/validateConfiguration";
     prop ex_validateConfiguration "validateConfiguration" x)
    (λ _, mret noop).

(** Lines 167-209. *)
Definition printStartupBanner (w : world) : prog unit :=
  if USE_FIGLET then
    try_catch
      (figlet ← require w "figlet";
       textSync ← prop ex_textSync "textSync" figlet;
       call FigletTextSync "figlet.textSync" textSync;;
       console CLog [Str rule70];;
       console CLog [Str "MAD NEXUS"];;
       console CLog [Str "Developer: Shaad You"];;
       console CLog [Str "Support: https://discord.gg/mFEehCPKEW"];;
       console CLog [Str "Made By Code Nexus"];;
       console CLog [Str rule70])
      (λ _,
       console CWarn [Str "figlet not installed or failed to run, using static banner. Install figlet with `npm i figlet` to enable it."];;
       console CLog [Str STATIC_ASCII_BANNER])
  else console CLog [Str STATIC_ASCII_BANNER].

(** Lines 239-279: [if (typeof client.m === 'function') try { client.m(dir) }
    catch (err) { client.logger && client.logger.error && client.logger.error(msg, err) }] *)
Definition load_with (c : client) (what : callee) (m : slot behaviour) (msg : string)
    : prog unit :=
  if is_function m then
    try_catch (call what "client method" m;; mret ())
              (λ err, logger_call c LError [Str msg; ErrArg err])
  else mret ().

(** Lines 283-303: the listener given to [process.on('unhandledRejection', ...)].
    It closes over [client]; the guard [client && ...] is kept. *)
Definition unhandledRejection_handler (client : option client) (err : jserror)
    : prog unit :=
  try_catch
    (match client with
     | Some c =>
         match cl_logger c with
         | Some lg =>
             match lg_error lg with
             | Callable b =>
                 emit (EvLogger LError [Str "unhandledRejection"; ErrArg err]);;
                 perform b;; mret ()
             | _ => console CError [Str "unhandledRejection"; ErrArg err]
             end
         | None => console CError [Str "unhandledRejection"; ErrArg err]
         end
     | None => console CError [Str "unhandledRejection"; ErrArg err]
     end)
    (λ e, console CError [Str "Error logging unhandledRejection:"; ErrArg e]).

(** Lines 315-363: the dashboard when it is enabled, the database
    otherwise. *)
Definition launch_dashboard (w : world) (c : client) : prog unit :=
  try_catch
    (dashboardLauncher ← require w "@root/dashboard/launch";
     match dashboardLauncher with
     | Exports x =>
         if is_function (ex_launch x) then
           logger_call c LLog [Str "Launching dashboard..."];;
           call (Launch "@root/dashboard/launch") "dashboardLauncher.launch" (ex_launch x);;
           mret ()
         else logger_call c LWarn [Str "Dashboard launch module not found or invalid."]
     | _ => logger_call c LWarn [Str "Dashboard launch module not found or invalid."]
     end)
    (λ err, logger_call c LError [Str "Failed to launch dashboard"; ErrArg err]).

Definition initialize_database (c : client) (initializeMongoose : slot behaviour)
    : prog unit :=
  try_catch
    (call InitializeMongoose "initializeMongoose" initializeMongoose;; mret ())
    (λ err, logger_call c LError [Str "Failed to initialize database:"; ErrArg err]).

Definition dashboard_or_database (w : world) (c : client)
    (initializeMongoose : slot behaviour) : prog unit :=
  let hasDashboard := cl_dashboard_enabled c in
  if hasDashboard then launch_dashboard w c
  else initialize_database c initializeMongoose.

(** Lines 367-379.  [client.login] is called without a guard. *)
Definition login (w : world) (c : client) : prog unit :=
  let token := getenv w "BOT_TOKEN" in
  (if truthy token then mret ()
   else logger_call c LError [Str "BOT_TOKEN not set in environment. Exiting."];;
        exit 1);;
  match cl_login c with
  | Callable f => emit (EvLogin (default "" token));; perform (f (default "" token));; mret ()
  | _ => throw (TypeError "client.login is not a function")
  end;;
  logger_call c LLog [Str "Bot started successfully."].

(** Lines 307-397: the startup flow and its handler. *)
Definition startup_flow (w : world) (c : client)
    (checkForUpdates initializeMongoose : slot behaviour) : prog unit :=
  try_catch
    (call CheckForUpdates "checkForUpdates" checkForUpdates;;
     dashboard_or_database w c initializeMongoose;;
     login w c)
    (λ err,
     try_catch (logger_call c LError [Str "Startup error"; ErrArg err])
               (λ _, console CError [Str "Startup error"; ErrArg err]);;
     exit 1).

(** Lines 213-399: the body of the asynchronous function. *)
Definition main (w : world)
    (checkForUpdates initializeMongoose : slot behaviour)
    (BotClient : slot construction)
    (validateConfiguration : slot behaviour) : prog unit :=
  printStartupBanner w;;
  try_catch
    (call ValidateConfiguration "validateConfiguration" validateConfiguration;; mret ())
    (λ err, console CError [Str "Configuration validation failed:"; ErrArg err];; exit 1);;
  client ← new "BotClient" BotClient;
  load_with client LoadCommands (cl_loadCommands client) "Failed to load commands:";;
  load_with client LoadCommandTests (cl_loadCommandTests client)
    "Failed to load command tests:";;
  load_with client LoadEvents (cl_loadEvents client) "Failed to load events:";;
  emit (EvProcessOn UnhandledRejection);;
  startup_flow w client checkForUpdates initializeMongoose.

(** The whole script: the lines at the top level, then the function. *)
Definition script (w : world) : prog unit :=
  emit EvEnvLoad;;
  checkForUpdates ← resolve_checkForUpdates w;
  initializeMongoose ← resolve_initializeMongoose w;
  BotClient ← resolve_BotClient w;
  validateConfiguration ← resolve_validateConfiguration w;
  main w checkForUpdates initializeMongoose BotClient validateConfiguration.

End BotJs.

(** ** [src/unnamed/part_000] *)

Module Part000.

(** The banner; the block-letter art is left out, its caption is kept. *)
Definition ASCII_BANNER : string := "Discord System V4 - Dashboard Enabled".

(** Lines 39-43: the [log] object. *)
Definition log_info (args : list arg) : prog unit := console CLog (Str "[INFO]" :: args).
Definition log_warn (args : list arg) : prog unit := console CWarn (Str "[WARN]" :: args).
Definition log_error (args : list arg) : prog unit := console CError (Str "[ERROR]" :: args).

(** [require(p).field || rest]: the next module is only required when the
    field of this one is falsy, and a [require] that throws ends the whole
    expression. *)
Fixpoint first_truthy {A} (w : world) (field : exports → slot A) (what : string)
    (paths : list string) : prog (slot A) :=
  match paths with
  | [] => mret Absent
  | [p] => x ← require w p; prop field what x
  | p :: rest =>
      x ← require w p;
      a ← prop field what x;
      if slot_truthy a then mret a else first_truthy w field what rest
  end.

(** Lines 49-73: optional collaborators, [null] when a [require] throws. *)
Definition resolve_checkForUpdates (w : world) : prog (slot behaviour) :=
  try_catch
    (first_truthy w ex_checkForUpdates "checkForUpdates"
       ["./dashboard/utils/checkForUpdates"; "@root/utils/botUtils"])
    (λ _, mret Absent).

Definition resolve_initializeMongoose (w : world) : prog (slot behaviour) :=
  try_catch
    (first_truthy w ex_initializeMongoose "initializeMongoose"
       ["./src/database/mongoose"; "@root/database/mongoose"])
    (λ _, mret Absent).

Definition resolve_validateConfiguration (w : world) : prog (slot behaviour) :=
  try_catch
    (first_truthy w ex_validateConfiguration "validateConfiguration"
       ["./config"; "./src/config/validateConfiguration";
        "@root/validation/validateConfiguration"])
    (λ _, mret Absent).

(** Lines 85-89: [new FallbackClient()] evaluates [Intents.FLAGS], then
    runs the constructor of [Client]; [loadCommands] and [loadEvents] are
    the do-nothing methods of the subclass. *)
Definition FallbackClient (Client : construction) (Intents_FLAGS : bool) : construction :=
  if Intents_FLAGS then
    match Client with
    | Constructs c =>
        Constructs {|
          cl_dashboard_enabled := cl_dashboard_enabled c;
          cl_logger := cl_logger c;
          cl_loadCommands := noop;
          cl_loadCommandTests := cl_loadCommandTests c;
          cl_loadEvents := noop;
          cl_registerEvents := cl_registerEvents c;
          cl_login := cl_login c;
          cl_commands := cl_commands c;
          cl_on := cl_on c
        |}
    | ConstructorThrows e => ConstructorThrows e
    end
  else ConstructorThrows (TypeError "Cannot read properties of undefined (reading 'FLAGS')").

(** Lines 83-95: the fallback on [discord.js].  The class declaration
    itself throws when [Client] is not a constructor ([ex_Client] absent
    stands for [undefined] here). *)
Definition discordjs_fallback (w : world) : prog (slot construction) :=
  try_catch
    (djs ← require w "discord.js";
     match djs with
     | Exports x =>
         match ex_Client x with
         | Callable k =>
             log_warn [Str "Using fallback BotClient (discord.js Client). Replace with your actual BotClient implementation."];;
             mret (Callable (FallbackClient k (ex_Intents_FLAGS x)))
         | _ => throw (TypeError "Class extends value is not a constructor or null")
         end
     | _ => throw (TypeError "Cannot destructure property 'Client'")
     end)
    (λ _,
     log_error [Str "discord.js not installed. Install discord.js or provide your BotClient implementation."];;
     exit 1).

(** Lines 78-79, the body of the [try]. *)
Definition require_BotClient (w : world) : prog (slot construction) :=
  first_truthy w ex_BotClient "BotClient"
    ["./src/client/BotClient"; "@src/client/BotClient"].

(** Lines 76-96. *)
Definition resolve_BotClient (w : world) : prog (slot construction) :=
  try_catch (require_BotClient w)
    (λ _,
     log_error [Str "Could not require BotClient from src/client/BotClient. Make sure the file exists and exports { BotClient }."];;
     discordjs_fallback w).

(** Lines 99-110. *)
Definition validate_step (validateConfiguration : slot behaviour) : prog unit :=
  try_catch
    (if is_function validateConfiguration then
       call ValidateConfiguration "validateConfiguration" validateConfiguration;;
       log_info [Str "Configuration validated."]
     else log_info [Str "No configuration validator found (optional)."])
    (λ err, log_error [Str "Configuration validation failed:"; ErrArg err]).

(** Lines 113-122. *)
Definition update_step (checkForUpdates : slot behaviour) : prog unit :=
  try_catch
    (if is_function checkForUpdates then
       call CheckForUpdates "checkForUpdates" checkForUpdates;;
       log_info [Str "Update check complete."]
     else log_info [Str "No update checker found (optional)."])
    (λ err, log_warn [Str "Error while checking for updates (continuing):"; ErrArg err]).

(** Lines 125-134. *)
Definition mongoose_step (initializeMongoose : slot behaviour) : prog unit :=
  try_catch
    (if is_function initializeMongoose then
       call InitializeMongoose "initializeMongoose" initializeMongoose;;
       log_info [Str "Mongoose initialized."]
     else log_info [Str "No mongoose initializer found (skipping DB init)."])
    (λ err, log_warn [Str "Failed to initialize mongoose (continuing):"; ErrArg err]).

(** [client?.logger?.error?.(args)]: the truthiness of its value. *)
Definition optional_logger_error (client : option client) (args : list arg) : prog bool :=
  match client with
  | None => mret false
  | Some c =>
      match cl_logger c with
      | None => mret false
      | Some lg =>
          match lg_error lg with
          | Absent => mret false
          | NotCallable => throw (TypeError "client?.logger?.error is not a function")
          | Callable b => emit (EvLogger LError args);; perform b
          end
      end
  end.

(** Lines 140-145: the two listeners. *)
Definition unhandledRejection_handler (client : option client) (reason : jserror)
    : prog unit :=
  logged ← optional_logger_error client [Str "Unhandled Rejection:"; ErrArg reason];
  if (logged : bool) then mret () else log_error [Str "Unhandled Rejection:"; ErrArg reason].

Definition uncaughtException_handler (client : option client) (err : jserror)
    : prog unit :=
  logged ← optional_logger_error client [Str "Uncaught Exception:"; ErrArg err];
  if (logged : bool) then mret () else log_error [Str "Uncaught Exception:"; ErrArg err].

(** [fs.readdirSync(dir).filter(f => f.endsWith('.js'))] *)
Definition js_files (w : world) (dir : string) : prog (list string) :=
  match readdirSync w dir with
  | Entries files => mret (List.filter (λ f, endsWith f ".js") files)
  | ReaddirThrows e => throw e
  end.

(** Lines 165-173: the body of the loop over the command files. *)
Definition load_command (w : world) (c : client) (commandsPath file : string) : prog unit :=
  try_catch
    (cmd ← require w (path_join commandsPath file);
     match cl_commands c with
     | Some _ =>
         name ← prop ex_name "name" cmd;
         if truthy name
         then emit (EvCommandsSet (default "" name) (path_join commandsPath file))
         else mret ()
     | None => mret ()
     end)
    (λ err, log_warn [Str "Failed to load command"; Str file; ErrArg err]).

(** Lines 148-180. *)
Definition tryLoadCommands (w : world) (c : client) : prog unit :=
  loaded ←
    (if is_function (cl_loadCommands c) then
       try_catch
         (call LoadCommands "clientInstance.loadCommands" (cl_loadCommands c);;
          log_info [Str "Commands loaded via client.loadCommands()."];;
          mret true)
         (λ err, log_warn [Str "client.loadCommands() threw an error:"; ErrArg err];;
                 mret false)
     else mret false);
  if (loaded : bool) then mret ()
  else
    let commandsPath := path_resolve ["src"; "commands"] in
    if existsSync w commandsPath then
      files ← js_files w commandsPath;
      for_each (load_command w c commandsPath) files;;
      log_info [Str "Commands loaded from src/commands (fallback)."]
    else
      log_info [Str "No commands loader found or commands folder not present; skipping commands load."].

(** [clientInstance.on(eventName, handler)] *)
Definition client_on (c : client) (eventName file : string) (k : bind_kind) : prog unit :=
  if cl_on c then emit (EvOn eventName file k)
  else throw (TypeError "clientInstance.on is not a function").

(** Lines 199-210: the body of the loop over the event files. *)
Definition load_event (w : world) (c : client) (eventsPath file : string) : prog unit :=
  try_catch
    (ev ← require w (path_join eventsPath file);
     name ← prop ex_name "name" ev;
     let eventName := if truthy name then default "" name else basename file ".js" in
     match ev with
     | Exports x =>
         if is_Some_bool (ex_call x)
         then client_on c eventName (path_join eventsPath file) BindModule
         else if is_function (ex_execute x)
         then client_on c eventName (path_join eventsPath file) BindExecute
         else mret ()
     | _ => mret ()
     end)
    (λ err, log_warn [Str "Failed to load event"; Str file; ErrArg err]).
(** Lines 182-217. *)
Definition tryLoadEvents (w : world) (c : client) : prog unit :=
  loaded ←
    (if is_function (cl_loadEvents c) then
       try_catch
         (call LoadEvents "clientInstance.loadEvents" (cl_loadEvents c);;
          log_info [Str "Events loaded via client.loadEvents()."];;
          mret true)
         (λ err, log_warn [Str "client.loadEvents() threw an error:"; ErrArg err];;
                 mret false)
     else mret false);
  if (loaded : bool) then mret ()
  else
    let eventsPath := path_resolve ["src"; "events"] in
    if existsSync w eventsPath then
      files ← js_files w eventsPath;
      for_each (load_event w c eventsPath) files;;
      log_info [Str "Events loaded from src/events (fallback)."]
    else
      log_info [Str "No events loader found or events folder not present; skipping events load."].

(** Lines 233-242. *)
Definition registerEvents_step (w : world) (c : client) : prog unit :=
  try_catch
    (let eventsDir := path_resolve ["src"; "events"] in
     if slot_truthy (cl_registerEvents c) && existsSync w eventsDir then
       call RegisterEvents "client.registerEvents" (cl_registerEvents c);;
       log_info [Str "client.registerEvents(eventsDir) invoked."]
     else mret ())
    (λ _, mret ()).

Definition dashboardLauncherPaths : list string :=
  [ path_resolve ["dashboard"; "launcher.js"];
    path_resolve ["dashboard"; "index.js"];
    path_resolve ["dashboard"; "server.js"];
    path_resolve ["src"; "dashboard"; "index.js"] ].

(** Lines 254-272: one round of the loop over the launcher paths; the
    result tells whether the function returned [true] from inside it. *)
Definition launch_from (w : world) (p : string) : prog bool :=
  if existsSync w p then
    try_catch
      (launcher ← require w p;
       match launcher with
       | Exports x =>
           if is_function (ex_launch x) then
             call (Launch p) "launcher.launch" (ex_launch x);;
             log_info [Str "Dashboard launched via"; Str p];;
             mret true
           else
             match ex_call x with
             | Some b =>
                 emit (EvCall (Launch p));; perform b;;
                 log_info [Str "Dashboard launched via"; Str p];;
                 mret true
             | None =>
                 log_warn [Str "Dashboard file found but no launch function in"; Str p];;
                 mret false
             end
       | _ =>
           log_warn [Str "Dashboard file found but no launch function in"; Str p];;
           mret false
       end)
      (λ err, log_warn [Str "Dashboard launcher at"; Str p; Str "failed:"; ErrArg err];;
              mret false)
  else mret false.

Fixpoint launch_first (w : world) (paths : list string) : prog bool :=
  match paths with
  | [] => mret false
  | p :: rest =>
      launched ← launch_from w p;
      if (launched : bool) then mret true else launch_first w rest
  end.

(** Lines 245-289. *)
Definition tryLaunchDashboard (w : world) (c : client) : prog bool :=
  launched ← launch_first w dashboardLauncherPaths;
  if (launched : bool) then mret true
  else
    launched ←
      try_catch
        (maybe ← require w "./dashboard";
         match maybe with
         | Exports x =>
             if is_function (ex_launch x) then
               call (Launch "./dashboard") "maybe.launch" (ex_launch x);;
               log_info [Str "Dashboard launched via ./dashboard export."];;
               mret true
             else mret false
         | _ => mret false
         end)
        (λ _, mret false);
    if (launched : bool) then mret true
    else
      log_info [Str "No dashboard detected or launcher failed; skipping dashboard start."];;
      mret false.

(** Lines 298-314. *)
Definition login (w : world) (c : client) : prog unit :=
  let token := or_else (getenv w "BOT_TOKEN") (getenv w "TOKEN") in
  (if truthy token then mret ()
   else log_error [Str "No BOT_TOKEN found in environment. Set BOT_TOKEN in .env or in environment variables."];;
        exit 1);;
  try_catch
    (match cl_login c with
     | Callable f =>
         emit (EvLogin (default "" token));; perform (f (default "" token));;
         log_info [Str "Bot logged in successfully."]
     | _ =>
         log_error [Str "client.login is not a function. Ensure your BotClient extends discord.js Client or provides login(token)."]
     end)
    (λ err, log_error [Str "Failed to login:"; ErrArg err];; exit 1).

(** Lines 140-314: what the function does once the client exists. *)
Definition after_construction (w : world) (client : client) : prog unit :=
  emit (EvProcessOn UnhandledRejection);;
  emit (EvProcessOn UncaughtException);;
  try_catch (tryLoadCommands w client)
            (λ err, log_warn [Str "Error while trying to load commands:"; ErrArg err]);;
  try_catch (tryLoadEvents w client)
            (λ err, log_warn [Str "Error while trying to load events:"; ErrArg err]);;
  registerEvents_step w client;;
  try_catch (tryLaunchDashboard w client;; mret ())
            (λ err, log_warn [Str "Error while attempting to launch dashboard (continuing):";
                              ErrArg err]);;
  login w client.

(** Lines 45-316: the body of the asynchronous function. *)
Definition main (w : world) : prog unit :=
  console CLog [Str ASCII_BANNER];;
  checkForUpdates ← resolve_checkForUpdates w;
  initializeMongoose ← resolve_initializeMongoose w;
  validateConfiguration ← resolve_validateConfiguration w;
  BotClient ← resolve_BotClient w;
  validate_step validateConfiguration;;
  update_step checkForUpdates;;
  mongoose_step initializeMongoose;;
  client ← new "BotClient" BotClient;
  after_construction w client.

(** The whole script: the lines at the top level, then the function. *)
Definition script (w : world) : prog unit :=
  emit EvEnvLoad;;
  try_catch (require w "module-alias/register";; mret ()) (λ _, mret ());;
  main w.

End Part000.

(** ** Runs of the two variants *)

Inductive variant := bot_js | part_000.

Definition run (v : variant) (w : world) : prog unit :=
  match v with
  | bot_js => BotJs.script w
  | part_000 => Part000.script w
  end.

(** The token as the login step of each variant reads it:
    [process.env.BOT_TOKEN] in [bot.js],
    [process.env.BOT_TOKEN || process.env.TOKEN] in [part_000]. *)
Definition bot_token (v : variant) (w : world) : option string :=
  match v with
  | bot_js => getenv w "BOT_TOKEN"
  | part_000 => or_else (getenv w "BOT_TOKEN") (getenv w "TOKEN")
  end.

(** The value a computation yields when it completes. *)
Definition value_of {A} (m : prog A) : option A :=
  match outcome_of m with
  | Done a => Some a
  | _ => None
  end.

Definition is_login (ev : event) : bool :=
  match ev with EvLogin _ => true | _ => false end.

Definition is_process_on (s : signal) (ev : event) : bool :=
  match ev, s with
  | EvProcessOn UnhandledRejection, UnhandledRejection => true
  | EvProcessOn UncaughtException, UncaughtException => true
  | _, _ => false
  end.

(** Whether a listener for [s] was installed by [process.on]. *)
Definition listens (s : signal) (t : list event) : bool :=
  existsb (is_process_on s) t.

(** Whether [client.login] was invoked. *)
Definition login_invoked (t : list event) : bool := existsb is_login t.

(** What becomes of the process once the script has run.  [process.exit]
    ends it with the given status.  Both scripts run inside an [async]
    function whose promise nobody awaits: an exception that escapes it is
    an unhandled rejection, which Node.js (since version 15) turns into
    an uncaught exception that ends the process with status 1, unless a
    listener for ['unhandledRejection'] is installed, in which case the
    listener runs instead (neither script lets an exception escape once
    it has installed its listener: [no_exception_after_listener]).  A
    script that completes leaves the process alive, waiting for events. *)
Inductive status :=
| Alive
| Terminated (code : Z).

Definition process_status (r : prog unit) : status :=
  match outcome_of r with
  | Exited c => Terminated c
  | Thrown _ => if listens UnhandledRejection (trace r) then Alive else Terminated 1
  | Done _ => Alive
  end.

(** ** How a computation ends and what it leaves behind *)

(** How a computation ends, whatever value it yields. *)
Inductive ending :=
| ENormal
| EThrow
| EExit (code : Z).

Definition ending_of {A} (m : prog A) : ending :=
  match outcome_of m with
  | Done _ => ENormal
  | Thrown _ => EThrow
  | Exited c => EExit c
  end.

(** [m] can only end in one of the ways [S] allows. *)
Definition may_end {A} (S : ending → Prop) (m : prog A) : Prop := S (ending_of m).

(** The trace ends with the event [ev]. *)
Definition ends_with {A} (ev : event) (r : prog A) : Prop := last (trace r) = Some ev.

(** The first event of a computation. *)
Definition first_event {A} (m : prog A) : option event := head (trace m).

(** [r] is [r'] run after a prefix of events that all satisfy [φ]. *)
Definition extends {A} (φ : event → Prop) (r r' : prog A) : Prop :=
  ∃ pre, Forall φ pre ∧ trace r = pre ++ trace r' ∧ outcome_of r = outcome_of r'.

Definition not_login (ev : event) : Prop := is_login ev = false.

(** An event that is neither a login nor the installation of a listener
    for unhandled rejections. *)
Definition quiet (ev : event) : Prop :=
  is_login ev = false ∧ is_process_on UnhandledRejection ev = false.

(** The run never invoked [client.login] and the process ended with
    status 1. *)
Definition fatal_before_login (r : prog unit) : Prop :=
  login_invoked (trace r) = false ∧ process_status r = Terminated 1.

(** The events of the scripts before the validation. *)
Definition before_validation (ev : event) : Prop :=
  match ev with
  | EvEnvLoad | EvRequire _ | EvConsole _ _ => True
  | _ => False
  end.

(** The events of [part_000] before the client is constructed. *)
Definition before_construction (ev : event) : Prop :=
  match ev with
  | EvEnvLoad | EvRequire _ | EvConsole _ _ => True
  | EvCall ValidateConfiguration | EvCall CheckForUpdates | EvCall InitializeMongoose => True
  | _ => False
  end.

Definition is_validation (ev : event) : bool :=
  match ev with EvCall ValidateConfiguration => true | _ => false end.

Definition is_update_check (ev : event) : bool :=
  match ev with EvCall CheckForUpdates => true | _ => false end.

(** ** The collaborators a script ends up with *)

(** The validator a script ends up with, once its [require]s are done. *)
Definition validator (v : variant) (w : world) : option (slot behaviour) :=
  match v with
  | bot_js => value_of (BotJs.resolve_validateConfiguration w)
  | part_000 => value_of (Part000.resolve_validateConfiguration w)
  end.

(** The expression by which a script looks for its [BotClient]. *)
Definition BotClient_lookup (v : variant) (w : world) : prog (slot construction) :=
  match v with
  | bot_js => BotJs.require_BotClient w
  | part_000 => Part000.require_BotClient w
  end.

(** What the fallback of [part_000] gets out of [discord.js]: the class
    [Client], when it is one, and whether [Intents.FLAGS] exists. *)
Definition discordjs_Client (w : world) : option (construction * bool) :=
  match modules w "discord.js" with
  | Exports x =>
      match ex_Client x with
      | Callable k => Some (k, ex_Intents_FLAGS x)
      | _ => None
      end
  | _ => None
  end.

(** The function that the listener of [bot.js] logs through:
    [client && client.logger && typeof client.logger.error === 'function']. *)
Definition logger_error_function (client : option client) : option behaviour :=
  match client with
  | Some c =>
      match cl_logger c with
      | Some lg => match lg_error lg with Callable b => Some b | _ => None end
      | None => None
      end
  | None => None
  end.

(** [client.logger.error] as a listener finds it: absent when there is
    no client or no logger. *)
Definition logger_error_slot (client : option client) : slot behaviour :=
  match client with
  | Some c =>
      match cl_logger c with
      | Some lg => lg_error lg
      | None => Absent
      end
  | None => Absent
  end.

(** ** The steps of the startup sequence *)

Inductive step :=
| SEnvironment
| SBanner
| SValidation
| SUpdateCheck
| SDatabase
| SDashboard
| SConstruction
| SHandlers
| SCommands
| SEvents
| SLogin.

(** The step an event belongs to, for the events that are the visible
    actions of a step: a call of a collaborator, a registration, the
    banner (the one [console.log] of a single string), and for the
    dashboard the [require] of its launcher (['@root/dashboard/launch']
    in [bot.js], ['./dashboard'] in [part_000]). *)
Definition step_of (ev : event) : option step :=
  match ev with
  | EvEnvLoad => Some SEnvironment
  | EvConsole CLog [Str _] => Some SBanner
  | EvCall ValidateConfiguration => Some SValidation
  | EvCall CheckForUpdates => Some SUpdateCheck
  | EvCall InitializeMongoose => Some SDatabase
  | EvCall (Launch _) => Some SDashboard
  | EvRequire p =>
      if String.eqb p "@root/dashboard/launch" || String.eqb p "./dashboard"
      then Some SDashboard else None
  | EvNew => Some SConstruction
  | EvProcessOn _ => Some SHandlers
  | EvCall LoadCommands | EvCall LoadCommandTests | EvCommandsSet _ _ => Some SCommands
  | EvCall LoadEvents | EvCall RegisterEvents | EvOn _ _ _ => Some SEvents
  | EvLogin _ => Some SLogin
  | _ => None
  end.

Definition steps (t : list event) : list step := omap step_of t.

(** The position of each step in the sequence of each script. *)
Definition rank (v : variant) (s : step) : nat :=
  match v with
  | bot_js =>
      match s with
      | SEnvironment => 0 | SBanner => 1 | SValidation => 2 | SConstruction => 3
      | SCommands => 4 | SEvents => 5 | SHandlers => 6 | SUpdateCheck => 7
      | SDashboard => 8 | SDatabase => 8 | SLogin => 9
      end
  | part_000 =>
      match s with
      | SEnvironment => 0 | SBanner => 1 | SValidation => 2 | SUpdateCheck => 3
      | SDatabase => 4 | SConstruction => 5 | SHandlers => 6 | SCommands => 7
      | SEvents => 8 | SDashboard => 9 | SLogin => 10
      end
  end%nat.


(** The steps an event can stand for all have a rank between [lo] and
    [hi] in the sequence of [v]. *)
Definition within (v : variant) (lo hi : nat) (ev : event) : Prop :=
  ∀ s, step_of ev = Some s → (lo ≤ rank v s ≤ hi)%nat.





(** ** The order of the steps as the specification gives it *)



(** ** What a trace says about the loading of handlers *)

Definition is_warning (ev : event) : bool :=
  match ev with EvConsole CWarn _ => true | _ => false end.

(** The number of warnings logged. *)
Definition warnings (t : list event) : nat := length (filter is_warning t).

(** The modules required, in order. *)
Definition required (t : list event) : list string :=
  omap (λ ev, match ev with EvRequire p => Some p | _ => None end) t.

(** The calls of [client.commands.set], in order: name and file. *)
Definition registrations (t : list event) : list (string * string) :=
  omap (λ ev, match ev with EvCommandsSet n f => Some (n, f) | _ => None end) t.

(** The calls of [client.on], in order: event name, file and what was
    bound. *)
Definition bindings (t : list event) : list (string * string * bind_kind) :=
  omap (λ ev, match ev with EvOn n f k => Some (n, f, k) | _ => None end) t.

(** [client.commands] after the registrations of [t]; [Map.set] replaces
    an entry of the same name. *)
Definition commands_after (c : client) (t : list event) : option (gmap string string) :=
  (λ m, foldl (λ m nf, <[nf.1 := nf.2]> m) m (registrations t)) <$> cl_commands c.

(** A command file whose round of the loop ends in the [catch]: its
    [require] throws, or it exports [null] and the client has a map of
    commands, so that [cmd.name] is evaluated. *)
Definition command_fails (w : world) (c : client) (dir file : string) : bool :=
  match modules w (path_join dir file) with
  | NotFound => true
  | Nullish => is_Some_bool (cl_commands c)
  | Exports _ => false
  end.

(** The registration a command file leads to: it must load, have a
    truthy [name], and the client must have a map of commands. *)
Definition command_registered (w : world) (c : client) (dir file : string)
    : option (string * string) :=
  match cl_commands c, modules w (path_join dir file) with
  | Some _, Exports x =>
      if truthy (ex_name x) then Some (default "" (ex_name x), path_join dir file)
      else None
  | _, _ => None
  end.

(** An event file whose round of the loop ends in the [catch]: its
    [require] throws, it exports [null], or it has a handler but the
    client has no [on]. *)
Definition event_fails (w : world) (c : client) (dir file : string) : bool :=
  match modules w (path_join dir file) with
  | NotFound | Nullish => true
  | Exports x => (is_Some_bool (ex_call x) || is_function (ex_execute x)) && negb (cl_on c)
  end.

(** The binding an event file leads to: the module itself when it is a
    function, else its [execute] when that is one; under the module's
    [name], else under the name of the file. *)
Definition event_bound (w : world) (c : client) (dir file : string)
    : option (string * string * bind_kind) :=
  match modules w (path_join dir file) with
  | Exports x =>
      let eventName :=
        if truthy (ex_name x) then default "" (ex_name x) else basename file ".js" in
      if cl_on c then
        if is_Some_bool (ex_call x) then Some (eventName, path_join dir file, BindModule)
        else if is_function (ex_execute x)
        then Some (eventName, path_join dir file, BindExecute)
        else None
      else None
  | _ => None
  end.

(** [require] of the file throws. *)
Definition require_fails (w : world) (dir file : string) : bool :=
  match modules w (path_join dir file) with NotFound => true | _ => false end.

(** ** The dashboard and the database *)

(** An attempt to launch the dashboard: the [require] of its launcher
    (['@root/dashboard/launch'] in [bot.js], ['./dashboard'] at the end
    of [tryLaunchDashboard] in [part_000]) or the call of a launcher. *)
Definition is_dashboard (ev : event) : bool :=
  match ev with
  | EvCall (Launch _) => true
  | EvRequire p => String.eqb p "@root/dashboard/launch" || String.eqb p "./dashboard"
  | _ => false
  end.

(** An attempt to initialise the database: the call of
    [initializeMongoose]. *)
Definition is_database (ev : event) : bool :=
  match ev with EvCall InitializeMongoose => true | _ => false end.

Definition dashboard_attempted (t : list event) : bool := existsb is_dashboard t.
Definition database_attempted (t : list event) : bool := existsb is_database t.

(** Not both were attempted. *)
Definition exclusive (t : list event) : Prop :=
  dashboard_attempted t && database_attempted t = false.

(** Neither an attempt at the dashboard nor one at the database. *)
Definition neither (ev : event) : Prop :=
  is_dashboard ev = false ∧ is_database ev = false.

(** If [t] contains a login, then of the dashboard and the database
    exactly the one that [flag] selects was attempted. *)
Definition login_after_branch (flag : bool) (t : list event) : Prop :=
  login_invoked t = true →
  dashboard_attempted t = flag ∧ database_attempted t = negb flag.

(** ** Concrete worlds *)

(** An environment in which a token is set. *)
Definition token_env : gmap string string := {[ "BOT_TOKEN" := "abc123" ]}.

(** A client with nothing but a working [login]. *)
Definition plain_client : client := {|
  cl_dashboard_enabled := false;
  cl_logger := None;
  cl_loadCommands := Absent;
  cl_loadCommandTests := Absent;
  cl_loadEvents := Absent;
  cl_registerEvents := Absent;
  cl_login := Callable (λ _, Returns false);
  cl_commands := None;
  cl_on := false
|}.

(** The same client without [login]. *)
Definition client_without_login : client := {|
  cl_dashboard_enabled := false;
  cl_logger := None;
  cl_loadCommands := Absent;
  cl_loadCommandTests := Absent;
  cl_loadEvents := Absent;
  cl_registerEvents := Absent;
  cl_login := Absent;
  cl_commands := None;
  cl_on := false
|}.

(** A client whose logger has a working [error]. *)
Definition logging_client : client := {|
  cl_dashboard_enabled := false;
  cl_logger := Some {| lg_log := Absent; lg_warn := Absent;
                       lg_error := Callable (Returns false) |};
  cl_loadCommands := Absent;
  cl_loadCommandTests := Absent;
  cl_loadEvents := Absent;
  cl_registerEvents := Absent;
  cl_login := Callable (λ _, Returns false);
  cl_commands := None;
  cl_on := false
|}.

(** A client that loads its commands and events itself. *)
Definition loading_client : client := {|
  cl_dashboard_enabled := false;
  cl_logger := None;
  cl_loadCommands := noop;
  cl_loadCommandTests := Absent;
  cl_loadEvents := noop;
  cl_registerEvents := Absent;
  cl_login := Callable (λ _, Returns false);
  cl_commands := None;
  cl_on := false
|}.

(** A client whose configuration enables the dashboard. *)
Definition dashboard_client : client := {|
  cl_dashboard_enabled := true;
  cl_logger := None;
  cl_loadCommands := Absent;
  cl_loadCommandTests := Absent;
  cl_loadEvents := Absent;
  cl_registerEvents := Absent;
  cl_login := Callable (λ _, Returns false);
  cl_commands := None;
  cl_on := false
|}.

(** A client with an empty map of commands and an event emitter, but no
    loader of its own. *)
Definition scanning_client : client := {|
  cl_dashboard_enabled := false;
  cl_logger := None;
  cl_loadCommands := Absent;
  cl_loadCommandTests := Absent;
  cl_loadEvents := Absent;
  cl_registerEvents := Absent;
  cl_login := Callable (λ _, Returns false);
  cl_commands := Some ∅;
  cl_on := true
|}.

(** A module that exports the class [BotClient] and nothing else. *)
Definition exports_BotClient (C : construction) : exports := {|
  ex_checkForUpdates := Absent;
  ex_initializeMongoose := Absent;
  ex_validateConfiguration := Absent;
  ex_BotClient := Callable C;
  ex_launch := Absent;
  ex_Client := Absent;
  ex_Intents_FLAGS := false;
  ex_textSync := Absent;
  ex_call := None;
  ex_name := None;
  ex_execute := Absent
|}.

(** A module that exports [validateConfiguration] and nothing else. *)
Definition exports_validateConfiguration (f : behaviour) : exports := {|
  ex_checkForUpdates := Absent;
  ex_initializeMongoose := Absent;
  ex_validateConfiguration := Callable f;
  ex_BotClient := Absent;
  ex_launch := Absent;
  ex_Client := Absent;
  ex_Intents_FLAGS := false;
  ex_textSync := Absent;
  ex_call := None;
  ex_name := None;
  ex_execute := Absent
|}.

(** A module that exports [checkForUpdates] and nothing else. *)
Definition exports_checkForUpdates (f : behaviour) : exports := {|
  ex_checkForUpdates := Callable f;
  ex_initializeMongoose := Absent;
  ex_validateConfiguration := Absent;
  ex_BotClient := Absent;
  ex_launch := Absent;
  ex_Client := Absent;
  ex_Intents_FLAGS := false;
  ex_textSync := Absent;
  ex_call := None;
  ex_name := None;
  ex_execute := Absent
|}.

(** A module that exports [initializeMongoose] and nothing else. *)
Definition exports_initializeMongoose (f : behaviour) : exports := {|
  ex_checkForUpdates := Absent;
  ex_initializeMongoose := Callable f;
  ex_validateConfiguration := Absent;
  ex_BotClient := Absent;
  ex_launch := Absent;
  ex_Client := Absent;
  ex_Intents_FLAGS := false;
  ex_textSync := Absent;
  ex_call := None;
  ex_name := None;
  ex_execute := Absent
|}.

(** A module like [discord.js]: it exports [Client] and [Intents.FLAGS]. *)
Definition exports_discordjs (Client : construction) : exports := {|
  ex_checkForUpdates := Absent;
  ex_initializeMongoose := Absent;
  ex_validateConfiguration := Absent;
  ex_BotClient := Absent;
  ex_launch := Absent;
  ex_Client := Callable Client;
  ex_Intents_FLAGS := true;
  ex_textSync := Absent;
  ex_call := None;
  ex_name := None;
  ex_execute := Absent
|}.

(** A handler module: an object with a [name] and an [execute]. *)
Definition exports_handler (name : option string) (execute : slot behaviour) : exports := {|
  ex_checkForUpdates := Absent;
  ex_initializeMongoose := Absent;
  ex_validateConfiguration := Absent;
  ex_BotClient := Absent;
  ex_launch := Absent;
  ex_Client := Absent;
  ex_Intents_FLAGS := false;
  ex_textSync := Absent;
  ex_call := None;
  ex_name := name;
  ex_execute := execute
|}.

(** No optional module is installed; a token is set. *)
Definition world_with_token : world := {|
  env := token_env;
  modules := λ _, NotFound;
  existsSync := λ _, false;
  readdirSync := λ _, ReaddirThrows (Failure "ENOENT")
|}.

(** Both scripts find their [BotClient], but the environment has no
    token. *)
Definition world_without_token : world := {|
  env := ∅;
  modules := λ p,
    if String.eqb p "./src/client/BotClient" || String.eqb p "@src/core/BotClient"
    then Exports (exports_BotClient (Constructs plain_client))
    else NotFound;
  existsSync := λ _, false;
  readdirSync := λ _, ReaddirThrows (Failure "ENOENT")
|}.

(** [part_000] with a token and a [BotClient] whose instances have no
    [login]. *)
Definition world_without_login : world := {|
  env := {[ "BOT_TOKEN" := "abc123" ]};
  modules := λ p,
    if String.eqb p "./src/client/BotClient"
    then Exports (exports_BotClient (Constructs client_without_login))
    else NotFound;
  existsSync := λ _, false;
  readdirSync := λ _, ReaddirThrows (Failure "ENOENT")
|}.

(** Both scripts find their [BotClient] and a validator that rejects the
    configuration; a token is set. *)
Definition world_invalid_configuration : world := {|
  env := token_env;
  modules := λ p,
    if String.eqb p "./src/client/BotClient" || String.eqb p "@src/core/BotClient"
    then Exports (exports_BotClient (Constructs plain_client))
    else if String.eqb p "./config" || String.eqb p "@root/utils/validateConfiguration"
    then Exports (exports_validateConfiguration (Throws (Failure "invalid configuration")))
    else NotFound;
  existsSync := λ _, false;
  readdirSync := λ _, ReaddirThrows (Failure "ENOENT")
|}.

(** Both scripts find an update checker whose request fails; [part_000]
    finds its [BotClient], [bot.js] falls back on [MinimalBotClient]; a
    token is set. *)
Definition world_update_check_fails : world := {|
  env := token_env;
  modules := λ p,
    if String.eqb p "./src/client/BotClient"
    then Exports (exports_BotClient (Constructs plain_client))
    else if String.eqb p "./dashboard/utils/checkForUpdates"
            || String.eqb p "@root/utils/botUtils"
    then Exports (exports_checkForUpdates (Throws (Failure "network unreachable")))
    else NotFound;
  existsSync := λ _, false;
  readdirSync := λ _, ReaddirThrows (Failure "ENOENT")
|}.

(** Only [discord.js] is installed; a token is set. *)
Definition world_with_discordjs : world := {|
  env := token_env;
  modules := λ p,
    if String.eqb p "discord.js"
    then Exports (exports_discordjs (Constructs plain_client))
    else NotFound;
  existsSync := λ _, false;
  readdirSync := λ _, ReaddirThrows (Failure "ENOENT")
|}.

(** Both scripts find a [BotClient] with the dashboard enabled and a
    database initialiser; no dashboard is installed; a token is set. *)
Definition world_dashboard_enabled : world := {|
  env := token_env;
  modules := λ p,
    if String.eqb p "./src/client/BotClient" || String.eqb p "@src/core/BotClient"
    then Exports (exports_BotClient (Constructs dashboard_client))
    else if String.eqb p "./src/database/mongoose"
            || String.eqb p "@root/utils/database/mongoose"
    then Exports (exports_initializeMongoose (Returns false))
    else NotFound;
  existsSync := λ _, false;
  readdirSync := λ _, ReaddirThrows (Failure "ENOENT")
|}.


(** [src/commands] holds three [.js] files and a text file: [ping.js]
    exports a named command, [broken.js] cannot be required,
    [anonymous.js] exports a command without a name. *)
Definition world_commands : world := {|
  env := token_env;
  modules := λ p,
    if String.eqb p "src/commands/ping.js"
    then Exports (exports_handler (Some "ping") noop)
    else if String.eqb p "src/commands/anonymous.js"
    then Exports (exports_handler None noop)
    else NotFound;
  existsSync := λ p, String.eqb p "src/commands";
  readdirSync := λ p,
    if String.eqb p "src/commands"
    then Entries ["ping.js"; "README.md"; "broken.js"; "anonymous.js"]
    else ReaddirThrows (Failure "ENOENT")
|}.

(** ** The class a script ends up with *)

(** The class that [new BotClient()] is applied to, once the [require]s
    and their fallbacks are done. *)
Definition client_class (v : variant) (w : world) : option (slot construction) :=
  match v with
  | bot_js => value_of (BotJs.resolve_BotClient w)
  | part_000 => value_of (Part000.resolve_BotClient w)
  end.

(** An event that is neither a login nor the installation of a
    listener. *)
Definition silent (ev : event) : Prop :=
  is_login ev = false ∧ ∀ s, is_process_on s ev = false.

(** The logins of a trace. *)
Definition logins (t : list event) : list event := filter is_login t.

(** [t] holds no login, or exactly one, with the non-empty value of
    [tok]. *)
Definition logs_in_with (tok : option string) (t : list event) : Prop :=
  logins t = [] ∨ ∃ s, tok = Some s ∧ s ≠ "" ∧ logins t = [EvLogin s].

(** [discord.js] from version 14 on: it exports [Client] but no
    [Intents]. *)
Definition exports_discordjs_without_Intents (Client : construction) : exports := {|
  ex_checkForUpdates := Absent;
  ex_initializeMongoose := Absent;
  ex_validateConfiguration := Absent;
  ex_BotClient := Absent;
  ex_launch := Absent;
  ex_Client := Callable Client;
  ex_Intents_FLAGS := false;
  ex_textSync := Absent;
  ex_call := None;
  ex_name := None;
  ex_execute := Absent
|}.

(** The module that [bot.js] requires its [BotClient] from exists but
    exports no such class; [part_000] finds no [BotClient] module and
    falls back on a [discord.js] without [Intents]; a token is set. *)
Definition world_without_client_class : world := {|
  env := token_env;
  modules := λ p,
    if String.eqb p "@src/core/BotClient"
    then Exports (exports_handler None Absent)
    else if String.eqb p "discord.js"
    then Exports (exports_discordjs_without_Intents (Constructs plain_client))
    else NotFound;
  existsSync := λ _, false;
  readdirSync := λ _, ReaddirThrows (Failure "ENOENT")
|}.

(** A computation that completes only after a login. *)
Definition completes_logged_in {A} (r : prog A) : Prop :=
  ∀ a, outcome_of r = Done a → login_invoked (trace r) = true.

(** ** Loggers, calls and output *)

(** A logger method that cannot make a guarded call
    [client.logger && client.logger.m && client.logger.m(...)] fail: it
    is missing, or it is a function that returns. *)
Definition slot_returns (s : slot behaviour) : bool :=
  match s with
  | Absent | Callable (Returns _) => true
  | NotCallable | Callable (Throws _) => false
  end.

Definition logger_method_returns (c : client) (m : logger_method) : bool :=
  match cl_logger c with
  | None => true
  | Some lg => slot_returns (logger_slot lg m)
  end.

(** No method of the client's logger throws. *)
Definition logger_returns (c : client) : bool :=
  logger_method_returns c LLog && logger_method_returns c LWarn
  && logger_method_returns c LError.

(** The functions called, in order. *)
Definition calls (t : list event) : list callee :=
  omap (λ ev, match ev with EvCall f => Some f | _ => None end) t.

(** The loaders that [bot.js] calls for a client: those that are
    functions. *)
Definition loaders (c : client) : list callee :=
  (if is_function (cl_loadCommands c) then [LoadCommands] else []) ++
  (if is_function (cl_loadCommandTests c) then [LoadCommandTests] else []) ++
  (if is_function (cl_loadEvents c) then [LoadEvents] else []).

(** Something written to the console or handed to the client's logger. *)
Definition is_output (ev : event) : bool :=
  match ev with
  | EvConsole _ _ | EvLogger _ _ => true
  | _ => false
  end.

(** A client whose loaders all throw and whose logger works. *)
Definition client_with_failing_loaders : client := {|
  cl_dashboard_enabled := false;
  cl_logger := Some {| lg_log := Callable (Returns false); lg_warn := Absent;
                       lg_error := Callable (Returns false) |};
  cl_loadCommands := Callable (Throws (Failure "no commands"));
  cl_loadCommandTests := Callable (Throws (Failure "no tests"));
  cl_loadEvents := Callable (Throws (Failure "no events"));
  cl_registerEvents := Absent;
  cl_login := Callable (λ _, Returns false);
  cl_commands := None;
  cl_on := false
|}.

(** A client whose [loadCommands] throws and whose logger throws when
    asked to report it. *)
Definition client_with_failing_logger : client := {|
  cl_dashboard_enabled := false;
  cl_logger := Some {| lg_log := Absent; lg_warn := Absent;
                       lg_error := Callable (Throws (Failure "log file is read-only")) |};
  cl_loadCommands := Callable (Throws (Failure "no commands"));
  cl_loadCommandTests := Absent;
  cl_loadEvents := Absent;
  cl_registerEvents := Absent;
  cl_login := Callable (λ _, Returns false);
  cl_commands := None;
  cl_on := false
|}.

(** The validator module of [bot.js] exists but exports something else;
    a token is set. *)
Definition world_validator_not_exported : world := {|
  env := token_env;
  modules := λ p,
    if String.eqb p "@root/utils/validateConfiguration"
    then Exports (exports_handler (Some "validate") noop)
    else NotFound;
  existsSync := λ _, false;
  readdirSync := λ _, ReaddirThrows (Failure "ENOENT")
|}.

(** Every collaborator of [part_000] is installed under the second path
    of its chain only, the one that goes through the [module-alias]
    prefixes; a token is set. *)
Definition world_aliases_only : world := {|
  env := token_env;
  modules := λ p,
    if String.eqb p "@root/utils/botUtils"
    then Exports (exports_checkForUpdates (Returns false))
    else if String.eqb p "@root/database/mongoose"
    then Exports (exports_initializeMongoose (Returns false))
    else if String.eqb p "@root/validation/validateConfiguration"
    then Exports (exports_validateConfiguration (Returns false))
    else if String.eqb p "@src/client/BotClient"
    then Exports (exports_BotClient (Constructs plain_client))
    else if String.eqb p "discord.js"
    then Exports (exports_discordjs (Constructs plain_client))
    else NotFound;
  existsSync := λ _, false;
  readdirSync := λ _, ReaddirThrows (Failure "ENOENT")
|}.

(** ** Clients and directories for the loading of handlers *)

(** The same client without loaders of its own. *)
Definition without_loaders (c : client) : client := {|
  cl_dashboard_enabled := cl_dashboard_enabled c;
  cl_logger := cl_logger c;
  cl_loadCommands := Absent;
  cl_loadCommandTests := cl_loadCommandTests c;
  cl_loadEvents := Absent;
  cl_registerEvents := cl_registerEvents c;
  cl_login := cl_login c;
  cl_commands := cl_commands c;
  cl_on := cl_on c
|}.

(** A client whose loaders throw, with a map of commands and an event
    emitter. *)
Definition client_with_failing_scan_loaders : client := {|
  cl_dashboard_enabled := false;
  cl_logger := None;
  cl_loadCommands := Callable (Throws (Failure "no commands"));
  cl_loadCommandTests := Absent;
  cl_loadEvents := Callable (Throws (Failure "no events"));
  cl_registerEvents := Absent;
  cl_login := Callable (λ _, Returns false);
  cl_commands := Some ∅;
  cl_on := true
|}.

(** A path of the form [dir/stem.js]. *)
Definition js_file_in (dir p : string) : Prop :=
  ∃ stem, p = path_join dir (stem +:+ ".js").

(** The world of [world_commands] for events: [ready.js] exports an
    [execute] and no name, [message.js] exports an [execute] under the
    name [messageCreate]. *)
Definition world_events : world := {|
  env := token_env;
  modules := λ p,
    if String.eqb p "src/events/ready.js"
    then Exports (exports_handler None noop)
    else if String.eqb p "src/events/message.js"
    then Exports (exports_handler (Some "messageCreate") noop)
    else NotFound;
  existsSync := λ p, String.eqb p "src/events";
  readdirSync := λ p,
    if String.eqb p "src/events"
    then Entries ["ready.js"; "message.js"]
    else ReaddirThrows (Failure "ENOENT")
|}.

(** ** The launch of the dashboard in [part_000] *)

(** The two messages by which [tryLaunchDashboard] reports a launch. *)
Definition is_launched_log (ev : event) : bool :=
  match ev with
  | EvConsole CLog (Str tag :: Str msg :: _) =>
      String.eqb tag "[INFO]" &&
      (String.eqb msg "Dashboard launched via"
       || String.eqb msg "Dashboard launched via ./dashboard export.")
  | _ => false
  end.

(** The number of launches reported. *)
Definition launches (t : list event) : nat := length (filter is_launched_log t).

(** The modules that [tryLaunchDashboard] requires when no launcher
    succeeds: the candidate files that exist, in the order of the list,
    then ['./dashboard']. *)
Definition dashboard_candidates (w : world) : list string :=
  List.filter (existsSync w) Part000.dashboardLauncherPaths ++ ["./dashboard"].

(** A dashboard launcher: a module that exports [launch]. *)
Definition exports_launcher (launch : slot behaviour) : exports := {|
  ex_checkForUpdates := Absent;
  ex_initializeMongoose := Absent;
  ex_validateConfiguration := Absent;
  ex_BotClient := Absent;
  ex_launch := launch;
  ex_Client := Absent;
  ex_Intents_FLAGS := false;
  ex_textSync := Absent;
  ex_call := None;
  ex_name := None;
  ex_execute := Absent
|}.

(** Two launcher files exist: [dashboard/index.js], whose [launch]
    throws, and [dashboard/server.js], whose [launch] returns. *)
Definition world_two_launchers : world := {|
  env := token_env;
  modules := λ p,
    if String.eqb p "dashboard/index.js"
    then Exports (exports_launcher (Callable (Throws (Failure "port in use"))))
    else if String.eqb p "dashboard/server.js"
    then Exports (exports_launcher (Callable (Returns false)))
    else NotFound;
  existsSync := λ p, String.eqb p "dashboard/index.js" || String.eqb p "dashboard/server.js";
  readdirSync := λ _, ReaddirThrows (Failure "ENOENT")
|}.

(** ** The map of commands after a scan *)

(** The file that the last registration under [name] came from. *)
Definition last_file_named (name : string) (regs : list (string * string))
    : option string :=
  last (omap (λ nf : string * string,
                if String.eqb nf.1 name then Some nf.2 else None) regs).

(** [src/commands] holds two files that export a command of the same
    name. *)
Definition world_duplicate_commands : world := {|
  env := token_env;
  modules := λ p,
    if String.eqb p "src/commands/ping.js"
    then Exports (exports_handler (Some "ping") noop)
    else if String.eqb p "src/commands/ping2.js"
    then Exports (exports_handler (Some "ping") noop)
    else NotFound;
  existsSync := λ p, String.eqb p "src/commands";
  readdirSync := λ p,
    if String.eqb p "src/commands"
    then Entries ["ping.js"; "ping2.js"]
    else ReaddirThrows (Failure "ENOENT")
|}.

(** ** The [login] of [MinimalBotClient] *)

(** [bot.js], lines 103-111: the body of [MinimalBotClient.login], of
    which [cl_login MinimalBotClient] only keeps whether it returns.
    The token is a string, so [token.slice] exists; [this.logger.log] is
    [console.log]. *)
Definition MinimalBotClient_login (token : string) : prog unit :=
  if truthy (Some token) then
    console CLog [Str "Pretend login with token:"; Str (substring 0 6 token +:+ "...")]
  else throw (Failure "Missing token").


(** ** The modules a script may require *)

(** The modules that [bot.js] requires inside a [try] at its top level,
    lines 49-129: its optional collaborators.  ([dotenv] and the
    built-in [path], lines 33 and 37, are required outside any [try];
    the scripts record the first as [EvEnvLoad] and not the second.) *)
Definition bot_js_modules : list string :=
  ["@root/utils/botUtils"; "@root/utils/database/mongoose"; "@src/core/BotClient";
   "@root/utils/validateConfiguration"].

(** [t] requires nothing, or the dashboard launcher of [bot.js] and
    nothing else. *)
Definition at_most_the_launcher (t : list event) : Prop :=
  required t = [] ∨ required t = ["@root/dashboard/launch"].

Definition no_require (ev : event) : Prop :=
  match ev with EvRequire _ => False | _ => True end.

(** The modules that [part_000] names in the [require]s it guards by a
    [try] or by [fs.existsSync].  ([dotenv], [fs] and [path], lines 12,
    36 and 37, are required without a guard; the scripts record the
    first as [EvEnvLoad] and not the other two.) *)
Definition part_000_modules : list string :=
  ["module-alias/register";
   "./dashboard/utils/checkForUpdates"; "@root/utils/botUtils";
   "./src/database/mongoose"; "@root/database/mongoose";
   "./config"; "./src/config/validateConfiguration";
   "@root/validation/validateConfiguration";
   "./src/client/BotClient"; "@src/client/BotClient"; "discord.js"]
  ++ Part000.dashboardLauncherPaths ++ ["./dashboard"].

(** A module that [part_000] may require: one it names, or a [.js] file
    of one of the two directories it scans. *)
Definition part_000_may_require (p : string) : Prop :=
  p ∈ part_000_modules ∨ js_file_in "src/commands" p ∨ js_file_in "src/events" p.
(** ** The passage of a run through the steps *)



(** A piece of a script with the step of the sequence it is; the
    [require]s by which a script looks for its collaborators are pieces
    of no step. *)
Inductive segment :=
| Segment {A : Type} (label : option step) (code : prog A).




(** [bot.js], lines 33-363: the pieces that come before the login, in
    the order of the file, for the collaborators, the class and the
    client that the run has got. *)
Definition bot_js_segments (w : world)
    (checkForUpdates initializeMongoose validateConfiguration : slot behaviour)
    (BotClient : slot construction) (client : client) : list segment :=
  [ Segment (Some SEnvironment) (emit EvEnvLoad);
    Segment None (BotJs.resolve_checkForUpdates w);
    Segment None (BotJs.resolve_initializeMongoose w);
    Segment None (BotJs.resolve_BotClient w);
    Segment None (BotJs.resolve_validateConfiguration w);
    Segment (Some SBanner) (BotJs.printStartupBanner w);
    Segment (Some SValidation)
      (try_catch
         (call ValidateConfiguration "validateConfiguration" validateConfiguration;;
          mret ())
         (λ err, console CError [Str "Configuration validation failed:"; ErrArg err];;
                 exit 1));
    Segment (Some SConstruction) (new "BotClient" BotClient);
    Segment (Some SCommands)
      (BotJs.load_with client LoadCommands (cl_loadCommands client)
         "Failed to load commands:");
    Segment (Some SCommands)
      (BotJs.load_with client LoadCommandTests (cl_loadCommandTests client)
         "Failed to load command tests:");
    Segment (Some SEvents)
      (BotJs.load_with client LoadEvents (cl_loadEvents client) "Failed to load events:");
    Segment (Some SHandlers) (emit (EvProcessOn UnhandledRejection));
    Segment (Some SUpdateCheck) (call CheckForUpdates "checkForUpdates" checkForUpdates);
    Segment (Some (if cl_dashboard_enabled client then SDashboard else SDatabase))
      (BotJs.dashboard_or_database w client initializeMongoose) ].

(** [part_000], lines 12-295: the same for the other script. *)
Definition part_000_segments (w : world)
    (checkForUpdates initializeMongoose validateConfiguration : slot behaviour)
    (BotClient : slot construction) (client : client) : list segment :=
  [ Segment (Some SEnvironment) (emit EvEnvLoad);
    Segment None (try_catch (require w "module-alias/register";; mret ()) (λ _, mret ()));
    Segment (Some SBanner) (console CLog [Str Part000.ASCII_BANNER]);
    Segment None (Part000.resolve_checkForUpdates w);
    Segment None (Part000.resolve_initializeMongoose w);
    Segment None (Part000.resolve_validateConfiguration w);
    Segment None (Part000.resolve_BotClient w);
    Segment (Some SValidation) (Part000.validate_step validateConfiguration);
    Segment (Some SUpdateCheck) (Part000.update_step checkForUpdates);
    Segment (Some SDatabase) (Part000.mongoose_step initializeMongoose);
    Segment (Some SConstruction) (new "BotClient" BotClient);
    Segment (Some SHandlers) (emit (EvProcessOn UnhandledRejection));
    Segment (Some SHandlers) (emit (EvProcessOn UncaughtException));
    Segment (Some SCommands)
      (try_catch (Part000.tryLoadCommands w client)
         (λ err, Part000.log_warn [Str "Error while trying to load commands:"; ErrArg err]));
    Segment (Some SEvents)
      (try_catch (Part000.tryLoadEvents w client)
         (λ err, Part000.log_warn [Str "Error while trying to load events:"; ErrArg err]));
    Segment (Some SEvents) (Part000.registerEvents_step w client);
    Segment (Some SDashboard)
      (try_catch (Part000.tryLaunchDashboard w client;; mret ())
         (λ err, Part000.log_warn
            [Str "Error while attempting to launch dashboard (continuing):";
             ErrArg err])) ].

Definition segments (v : variant) (w : world)
    (checkForUpdates initializeMongoose validateConfiguration : slot behaviour)
    (BotClient : slot construction) (client : client) : list segment :=
  match v with
  | bot_js =>
      bot_js_segments w checkForUpdates initializeMongoose validateConfiguration
        BotClient client
  | part_000 =>
      part_000_segments w checkForUpdates initializeMongoose validateConfiguration
        BotClient client
  end.




(** * Properties *)

(** ** The monad *)

Section monad.
Context {A B : Type}.
Implicit Types (m : prog A) (f : A → prog B) (h : jserror → prog A).

Lemma trace_bind m f :
trace (m ≫= f) =
trace m ++ match outcome_of m with Done a => trace (f a) | _ => [] end.
Proof.
unfold mbind, prog_bind. destruct (outcome_of m); simpl; by rewrite ?app_nil_r.
Qed.

Lemma outcome_bind m f :
outcome_of (m ≫= f) =
match outcome_of m with
| Done a => outcome_of (f a)
| Thrown e => Thrown e
| Exited c => Exited c
end.
Proof. unfold mbind, prog_bind. by destruct (outcome_of m). Qed.

Lemma trace_try_catch m h :
trace (try_catch m h) =
trace m ++ match outcome_of m with Thrown e => trace (h e) | _ => [] end.
Proof. unfold try_catch. destruct (outcome_of m); simpl; by rewrite ?app_nil_r. Qed.

Lemma outcome_try_catch m h :
outcome_of (try_catch m h) =
match outcome_of m with
| Thrown e => outcome_of (h e)
| o => o
end.
Proof. unfold try_catch. by destruct (outcome_of m) eqn:E; simpl; rewrite ?E. Qed.

(** A property of every event passes through sequencing and handlers. *)
Lemma Forall_trace_bind (φ : event → Prop) m f :
Forall φ (trace m) → (∀ a, Forall φ (trace (f a))) → Forall φ (trace (m ≫= f)).
Proof.
intros Hm Hf. rewrite trace_bind. apply Forall_app. split; [done|].
destruct (outcome_of m); auto.
Qed.

Lemma Forall_trace_try_catch (φ : event → Prop) m h :
Forall φ (trace m) → (∀ e, Forall φ (trace (h e))) → Forall φ (trace (try_catch m h)).
Proof.
intros Hm Hh. rewrite trace_try_catch. apply Forall_app. split; [done|].
destruct (outcome_of m); auto.
Qed.
End monad.

Lemma Forall_trace_for_each {A} (φ : event → Prop) (body : A → prog unit) l :
  (∀ x, Forall φ (trace (body x))) → Forall φ (trace (for_each body l)).
Proof.
  intros Hb. induction l as [|x l IH]; simpl; [constructor|].
  apply Forall_trace_bind; auto.
Qed.

Lemma Forall_trace_perform (φ : event → Prop) b : Forall φ (trace (perform b)).
Proof. destruct b; constructor. Qed.

(** Splits a goal [Forall φ (trace m)] along the structure of [m]; what
    is left are the events [m] can emit. *)
Ltac trace_forall_step :=
  first
    [ progress cbv match beta zeta
    | apply Forall_trace_bind; [|intros ?]
    | apply Forall_trace_try_catch; [|intros ?]
    | apply Forall_trace_for_each; intros ?
    | apply Forall_trace_perform
    | apply Forall_nil_2
    | apply Forall_cons_2
    | progress cbn [trace]
    | match goal with
      | |- Forall _ (trace (match ?x with _ => _ end)) => destruct x
      end ].

(** ** How computations end *)

Section endings.
Context {A B : Type}.
Implicit Types (m : prog A) (f : A → prog B) (h : jserror → prog A).
Implicit Types (S : ending → Prop).

Lemma may_end_weaken {S S' : ending → Prop} m :
may_end S m → (∀ x, S x → S' x) → may_end S' m.
Proof. unfold may_end; auto. Qed.

Lemma may_end_bind S m f :
may_end (λ x, x = ENormal ∨ S x) m → (∀ a, may_end S (f a)) →
may_end S (m ≫= f).
Proof.
unfold may_end, ending_of. rewrite outcome_bind. intros Hm Hf.
destruct (outcome_of m) as [a| |]; [apply Hf| |]; by destruct Hm.
Qed.

Lemma may_end_try_catch S m h :
may_end (λ x, x = EThrow ∨ S x) m → (∀ e, may_end S (h e)) →
may_end S (try_catch m h).
Proof.
unfold may_end, ending_of. rewrite outcome_try_catch. intros Hm Hh.
destruct (outcome_of m) as [|e|]; [|apply Hh|]; by destruct Hm.
Qed.

Lemma may_end_ret S (a : A) : S ENormal → may_end S (mret a : prog A).
Proof. done. Qed.

Lemma may_end_throw S e : S EThrow → may_end S (throw e : prog A).
Proof. done. Qed.

Lemma may_end_exit S c : S (EExit c) → may_end S (exit c : prog A).
Proof. done. Qed.
End endings.

Lemma may_end_emit S ev : S ENormal → may_end S (emit ev).
Proof. done. Qed.

Lemma may_end_perform (S : ending → Prop) b :
  S ENormal → S EThrow → may_end S (perform b).
Proof. by destruct b. Qed.

Lemma may_end_for_each {A} (S : ending → Prop) (body : A → prog unit) l :
  S ENormal → (∀ x, may_end (λ x, x = ENormal ∨ S x) (body x)) →
  may_end S (for_each body l).
Proof.
  intros HS Hb. induction l as [|x l IH]; simpl; [done|].
  apply may_end_bind; auto.
Qed.

(** Splits a goal [may_end S m] along the structure of [m]; what is left
    are conditions on [S]. *)
Ltac may_end_step :=
  first
    [ progress cbv match beta zeta
    | apply may_end_bind; [|intros ?]
    | apply may_end_try_catch; [|intros ?]
    | apply may_end_for_each; [|intros ?]
    | apply may_end_perform
    | apply may_end_ret
    | apply may_end_throw
    | apply may_end_exit
    | apply may_end_emit
    | match goal with
      | |- may_end _ (match ?x with _ => _ end) => destruct x
      end ].

Lemma completes_value {A} (m : prog A) :
  may_end (λ x, x = ENormal) m → ∃ a, outcome_of m = Done a.
Proof. unfold may_end, ending_of. destruct (outcome_of m); naive_solver. Qed.

(** Sequencing after a computation whose value is known. *)
Lemma bind_value {A B} (m : prog A) (f : A → prog B) a :
  value_of m = Some a →
  m ≫= f = Prog (trace m ++ trace (f a)) (outcome_of (f a)).
Proof.
  unfold value_of, mbind, prog_bind. destruct (outcome_of m); naive_solver.
Qed.

(** ** Unfolding the scripts *)

Create HintDb startup discriminated.

#[global] Hint Unfold require prop call console new logger_call
  Part000.log_info Part000.log_warn Part000.log_error
  Part000.resolve_checkForUpdates Part000.resolve_initializeMongoose
  Part000.resolve_validateConfiguration Part000.discordjs_fallback
  Part000.require_BotClient Part000.resolve_BotClient
  Part000.validate_step Part000.update_step Part000.mongoose_step
  Part000.optional_logger_error
  Part000.js_files Part000.load_command Part000.tryLoadCommands
  Part000.client_on Part000.load_event Part000.tryLoadEvents
  Part000.registerEvents_step Part000.launch_from Part000.tryLaunchDashboard
  Part000.after_construction
  BotJs.resolve_checkForUpdates BotJs.resolve_initializeMongoose
  BotJs.require_BotClient BotJs.resolve_BotClient BotJs.resolve_validateConfiguration
  BotJs.printStartupBanner BotJs.load_with
  BotJs.launch_dashboard BotJs.initialize_database BotJs.dashboard_or_database
  BotJs.startup_flow : startup.

Ltac unfold_startup := autounfold with startup.

Lemma first_truthy_one {A} w (field : exports → slot A) what p :
  Part000.first_truthy w field what [p] = (x ← require w p; prop field what x).
Proof. done. Qed.

Lemma first_truthy_more {A} w (field : exports → slot A) what p q rest :
  Part000.first_truthy w field what (p :: q :: rest) =
  (x ← require w p; a ← prop field what x;
   if slot_truthy a then mret a else Part000.first_truthy w field what (q :: rest)).
Proof. done. Qed.

Lemma launch_first_cons w p rest :
  Part000.launch_first w (p :: rest) =
  (launched ← Part000.launch_from w p;
   if (launched : bool) then mret true else Part000.launch_first w rest).
Proof. done. Qed.

Ltac may_end_go := repeat first [may_end_step | progress unfold_startup]; try naive_solver.

Lemma may_end_first_truthy {A} (S : ending → Prop) w (field : exports → slot A) what paths :
  S ENormal → S EThrow → may_end S (Part000.first_truthy w field what paths).
Proof.
  intros HN HT. induction paths as [|p [|q rest] IH]; [done| |].
  - rewrite first_truthy_one. may_end_go.
  - rewrite first_truthy_more. may_end_go.
Qed.

(** No launcher path makes the loop throw or exit. *)
Lemma may_end_launch_first (S : ending → Prop) w paths :
  S ENormal → may_end S (Part000.launch_first w paths).
Proof.
  intros HN. induction paths as [|p rest IH]; [done|].
  rewrite launch_first_cons. may_end_go.
Qed.

Ltac trace_forall_go := repeat first [trace_forall_step | progress unfold_startup].

Lemma Forall_trace_first_truthy {A} (φ : event → Prop) w (field : exports → slot A)
    what paths :
  (∀ p, φ (EvRequire p)) → Forall φ (trace (Part000.first_truthy w field what paths)).
Proof.
  intros Hφ. induction paths as [|p [|q rest] IH]; [constructor| |].
  - rewrite first_truthy_one. trace_forall_go; auto.
  - rewrite first_truthy_more. trace_forall_go; auto.
Qed.

Lemma Forall_trace_launch_first (φ : event → Prop) w paths :
  (∀ p, Forall φ (trace (Part000.launch_from w p))) →
  Forall φ (trace (Part000.launch_first w paths)).
Proof.
  intros Hφ. induction paths as [|p rest IH]; [constructor|].
  rewrite launch_first_cons. apply Forall_trace_bind; [apply Hφ|].
  intros []; [constructor|done].
Qed.

(** The complete automation: the structural steps, and the loops. *)
Ltac ends :=
  repeat first
    [ may_end_step
    | apply may_end_first_truthy
    | apply may_end_launch_first
    | progress unfold_startup ];
  try naive_solver.

Ltac events :=
  repeat first
    [ trace_forall_step
    | apply Forall_trace_first_truthy; intros ?
    | apply Forall_trace_launch_first; intros ?
    | progress unfold_startup ].

(** ** Prefixes *)

Section extends.
Context {A B : Type}.
Implicit Types (m : prog A) (f : A → prog B) (r : prog B) (φ : event → Prop).

Lemma extends_refl φ r : extends φ r r.
Proof. by exists []. Qed.

Lemma extends_trans φ (r1 r2 r3 : prog B) :
extends φ r1 r2 → extends φ r2 r3 → extends φ r1 r3.
Proof.
intros (p1 & H1 & E1 & O1) (p2 & H2 & E2 & O2). exists (p1 ++ p2).
split; [by apply Forall_app|]. rewrite E1, E2, O1, O2. by rewrite app_assoc.
Qed.

(** A computation that always completes is a prefix of what follows. *)
Lemma extends_bind φ m f r :
may_end (λ x, x = ENormal) m → Forall φ (trace m) →
(∀ a, value_of m = Some a → extends φ (f a) r) →
extends φ (m ≫= f) r.
Proof.
intros Hm Hφ Hf. apply completes_value in Hm as [a Ha].
destruct (Hf a) as (pre & Hpre & E & O); [unfold value_of; by rewrite Ha|].
exists (trace m ++ pre). split; [by apply Forall_app|].
rewrite trace_bind, outcome_bind, Ha, E, O. by rewrite app_assoc.
Qed.

Lemma extends_bind_value φ m f r a :
value_of m = Some a → Forall φ (trace m) → extends φ (f a) r →
extends φ (m ≫= f) r.
Proof.
intros Ha Hφ (pre & Hpre & E & O). exists (trace m ++ pre).
split; [by apply Forall_app|]. unfold value_of in Ha.
rewrite trace_bind, outcome_bind. destruct (outcome_of m); simplify_eq.
rewrite E, O. by rewrite app_assoc.
Qed.
End extends.

Lemma extends_weaken {A} (φ ψ : event → Prop) (r r' : prog A) :
  (∀ ev, φ ev → ψ ev) → extends φ r r' → extends ψ r r'.
Proof. intros H (pre & Hpre & ?). exists pre. split; [|done]. eapply Forall_impl; eauto. Qed.

(** ** The listener of [bot.js] *)

(** C10.  In [bot.js] the listener for unhandled rejections is total: for
    every error and every client (absent, without logger, with a logger
    whose [error] is missing, not a function, returns or throws) it ends
    normally, never by an exception and never by [process.exit].  It logs
    through [client.logger.error] when that is a function, through
    [console.error] otherwise, and when the logger throws it catches the
    exception and reports it on the console. *)
Theorem bot_js_unhandledRejection_handler_total (client : option client) (err : jserror) :
  outcome_of (BotJs.unhandledRejection_handler client err) = Done () ∧
  trace (BotJs.unhandledRejection_handler client err) =
    match logger_error_function client with
    | Some (Returns _) => [EvLogger LError [Str "unhandledRejection"; ErrArg err]]
    | Some (Throws e) =>
        [EvLogger LError [Str "unhandledRejection"; ErrArg err];
         EvConsole CError [Str "Error logging unhandledRejection:"; ErrArg e]]
    | None => [EvConsole CError [Str "unhandledRejection"; ErrArg err]]
    end.
Proof.
  destruct client as [[? [[? ? [| |[|]]]|]]|]; done.
Qed.

Lemma existsb_false_Forall {A} (p : A → bool) (l : list A) :
  existsb p l = false ↔ Forall (λ x, p x = false) l.
Proof.
  induction l as [|x l IH]; simpl; [by split; [constructor|]|].
  rewrite orb_false_iff, IH, Forall_cons. done.
Qed.

Lemma before_construction_not_login ev : before_construction ev → not_login ev.
Proof. by destruct ev. Qed.

Lemma new_constructs {B} name c (f : client → prog B) :
  (client ← new name (Callable (Constructs c)); f client) =
  Prog (EvNew :: trace (f c)) (outcome_of (f c)).
Proof. done. Qed.

(** ** [part_000]: reaching the construction of the client and the login *)

Lemma part_000_reaches_construction w BotClient :
  value_of (Part000.resolve_BotClient w) = Some BotClient →
  extends before_construction (Part000.script w)
    (client ← new "BotClient" BotClient; Part000.after_construction w client).
Proof.
  intros HB. unfold Part000.script, Part000.main.
  repeat (apply extends_bind; [by ends | by events | intros ? _]).
  eapply extends_bind_value; [exact HB | by events |].
  repeat (apply extends_bind; [by ends | by events | intros ? _]).
  apply extends_refl.
Qed.

Lemma part_000_reaches_login w c :
  extends not_login (Part000.after_construction w c) (Part000.login w c).
Proof.
  unfold Part000.after_construction.
  repeat (apply extends_bind; [by ends | by events | intros ? _]).
  apply extends_refl.
Qed.

(** C9.  In [part_000], when a token is present and the client that was
    constructed has no [login] function, the script logs an error and
    completes: [process.exit] is not called, the process stays alive, and
    [login] was never invoked. *)
Theorem part_000_client_without_login (w : world) (c : client) :
  value_of (Part000.resolve_BotClient w) = Some (Callable (Constructs c)) →
  is_function (cl_login c) = false →
  truthy (bot_token part_000 w) = true →
  outcome_of (run part_000 w) = Done () ∧
  process_status (run part_000 w) = Alive ∧
  login_invoked (trace (run part_000 w)) = false ∧
  last (trace (run part_000 w)) =
    Some (EvConsole CError
            [Str "[ERROR]";
             Str "client.login is not a function. Ensure your BotClient extends discord.js Client or provides login(token)."]).
Proof.
  intros HB Hlogin Htoken. change (run part_000 w) with (Part000.script w).
  unfold bot_token in Htoken.
  destruct (part_000_reaches_construction w _ HB) as (pre & Hpre & E & O).
  destruct (part_000_reaches_login w c) as (pre' & Hpre' & E' & O').
  assert (Hl : Part000.login w c =
    Prog [EvConsole CError
            [Str "[ERROR]";
             Str "client.login is not a function. Ensure your BotClient extends discord.js Client or provides login(token)."]]
         (Done ())).
  { unfold Part000.login. rewrite Htoken. by destruct (cl_login c). }
  rewrite Hl in E', O'. rewrite new_constructs in E, O.
  cbn [trace outcome_of] in E, O, E', O'. rewrite E' in E. rewrite O' in O.
  split_and!.
  - done.
  - unfold process_status. by rewrite O.
  - rewrite E. apply existsb_false_Forall. rewrite Forall_app, Forall_cons, Forall_app.
    split_and!; [|done| |by repeat constructor].
    + eapply Forall_impl; [done|]. apply before_construction_not_login.
    + done.
  - rewrite E, app_comm_cons, app_assoc. apply last_snoc.
Qed.

Lemma part_000_client_without_login_witness :
  outcome_of (run part_000 world_without_login) = Done () ∧
  process_status (run part_000 world_without_login) = Alive ∧
  login_invoked (trace (run part_000 world_without_login)) = false ∧
  last (trace (run part_000 world_without_login)) =
    Some (EvConsole CError
            [Str "[ERROR]";
             Str "client.login is not a function. Ensure your BotClient extends discord.js Client or provides login(token)."]).
Proof.
  apply (part_000_client_without_login world_without_login client_without_login);
    reflexivity.
Defined.

(** ** A missing token *)

Lemma listens_app s t1 t2 : listens s (t1 ++ t2) = listens s t1 || listens s t2.
Proof. apply existsb_app. Qed.

Lemma quiet_not_login ev : quiet ev → not_login ev.
Proof. by intros [? _]. Qed.

Lemma Forall_quiet t :
  Forall quiet t → login_invoked t = false ∧ listens UnhandledRejection t = false.
Proof.
  intros H. split; apply existsb_false_Forall; eapply Forall_impl; try done;
    by intros ? [? ?].
Qed.

(** A computation that cannot complete normally ends what follows it. *)
Lemma may_end_bind_stop {A B} (S : ending → Prop) (m : prog A) (f : A → prog B) :
  may_end (λ x, x ≠ ENormal ∧ S x) m → may_end S (m ≫= f).
Proof.
  unfold may_end, ending_of. rewrite outcome_bind.
  by destruct (outcome_of m); intros [? ?].
Qed.

Lemma fatal_exited (r : prog unit) :
  Forall not_login (trace r) → outcome_of r = Exited 1 → fatal_before_login r.
Proof.
  intros Ht Ho. split; [by apply existsb_false_Forall|].
  unfold process_status. by rewrite Ho.
Qed.

(** Before a listener is installed every way to stop is fatal, as long
    as [process.exit] is only called with status 1. *)
Lemma fatal_bind {A} (m : prog A) (f : A → prog unit) :
  Forall quiet (trace m) →
  may_end (λ x, ∀ c, x = EExit c → c = 1%Z) m →
  (∀ a, fatal_before_login (f a)) →
  fatal_before_login (m ≫= f).
Proof.
  intros [Hl Hn]%Forall_quiet Hm Hf.
  unfold fatal_before_login, process_status, login_invoked, may_end, ending_of in *.
  rewrite trace_bind, outcome_bind.
  destruct (outcome_of m) as [a|e|c] eqn:E.
  - destruct (Hf a) as [Hla Hsa]. fold (login_invoked) in *.
    unfold login_invoked in *. rewrite existsb_app, Hl, Hla, listens_app, Hn. done.
  - rewrite app_nil_r, Hl, Hn. done.
  - rewrite app_nil_r, Hl. by rewrite (Hm c).
Qed.

Lemma bot_js_login_without_token w c :
  truthy (getenv w "BOT_TOKEN") = false →
  may_end (λ x, x = EThrow ∨ x = EExit 1) (BotJs.login w c) ∧
  Forall not_login (trace (BotJs.login w c)).
Proof.
  intros H. unfold BotJs.login. cbv zeta. rewrite H. split.
  - apply may_end_bind_stop. ends.
  - rewrite trace_bind. apply Forall_app. split; [by events|].
    assert (Hstop : may_end (λ x, x ≠ ENormal)
      (logger_call c LError [Str "BOT_TOKEN not set in environment. Exiting."];;
       (exit 1 : prog unit))) by ends.
    unfold may_end, ending_of in Hstop. by destruct (outcome_of _).
Qed.

Lemma bot_js_startup_flow_without_token w c checkForUpdates initializeMongoose :
  truthy (getenv w "BOT_TOKEN") = false →
  outcome_of (BotJs.startup_flow w c checkForUpdates initializeMongoose) = Exited 1 ∧
  Forall not_login (trace (BotJs.startup_flow w c checkForUpdates initializeMongoose)).
Proof.
  intros H. destruct (bot_js_login_without_token w c H) as [Hend Hev]. split.
  - assert (Hflow : may_end (λ x, x = EExit 1)
      (BotJs.startup_flow w c checkForUpdates initializeMongoose)).
    { unfold BotJs.startup_flow. apply may_end_try_catch; [|intros ?; by ends].
      apply may_end_bind; [by ends|intros ?].
      apply may_end_bind; [by ends|intros ?].
      eapply may_end_weaken; [exact Hend|naive_solver]. }
    unfold may_end, ending_of in Hflow. destruct (outcome_of _); by simplify_eq.
  - unfold BotJs.startup_flow. apply Forall_trace_try_catch; [|intros ?; by events].
    apply Forall_trace_bind; [by events|intros ?].
    apply Forall_trace_bind; [by events|intros ?]. done.
Qed.

Lemma part_000_login_without_token w c :
  truthy (or_else (getenv w "BOT_TOKEN") (getenv w "TOKEN")) = false →
  outcome_of (Part000.login w c) = Exited 1 ∧
  Forall not_login (trace (Part000.login w c)).
Proof.
  intros H. unfold Part000.login. cbv zeta. rewrite H. split; [done|].
  by repeat constructor.
Qed.

(** C1.  When no bot token is set in the environment ([BOT_TOKEN] for
    [bot.js]; [BOT_TOKEN] and its fallback [TOKEN] for [part_000]), every
    run of either script ends the process with status 1 and never invokes
    [client.login].  The run ends by [process.exit(1)], or by an exception
    that leaves the asynchronous function while no listener is
    installed. *)
Theorem missing_token_is_fatal (v : variant) (w : world) :
  truthy (bot_token v w) = false →
  login_invoked (trace (run v w)) = false ∧
  process_status (run v w) = Terminated 1 ∧
  (outcome_of (run v w) = Exited 1 ∨
   ∃ e, outcome_of (run v w) = Thrown e ∧
        listens UnhandledRejection (trace (run v w)) = false).
Proof.
  intros H.
  cut (fatal_before_login (run v w)).
  { intros [Hl Hs]. split_and!; [done..|]. unfold process_status in Hs.
    destruct (outcome_of (run v w)) as [|e|c]; [done| |by simplify_eq; left].
    right. exists e. by destruct (listens _ _). }
  destruct v; simpl in H |- *.
  - unfold BotJs.script, BotJs.main.
    repeat (apply fatal_bind; [by events | by ends | intros ?]).
    lazymatch goal with
    | |- fatal_before_login (_ ≫= λ _, BotJs.startup_flow _ ?c ?f ?g) =>
        destruct (bot_js_startup_flow_without_token w c f g H) as [Ho Ht]
    end.
    apply fatal_exited.
    + apply Forall_trace_bind; [by events|done].
    + by rewrite outcome_bind.
  - unfold Part000.script, Part000.main.
    repeat (apply fatal_bind; [by events | by ends | intros ?]).
    lazymatch goal with
    | |- fatal_before_login (Part000.after_construction _ ?c) =>
        destruct (part_000_login_without_token w c H) as [Ho Ht];
        destruct (part_000_reaches_login w c) as (pre & Hpre & E & O)
    end.
    apply fatal_exited.
    + rewrite E. by apply Forall_app.
    + by rewrite O.
Qed.

Lemma missing_token_is_fatal_witness :
  (login_invoked (trace (run bot_js world_without_token)) = false ∧
   process_status (run bot_js world_without_token) = Terminated 1) ∧
  (login_invoked (trace (run part_000 world_without_token)) = false ∧
   process_status (run part_000 world_without_token) = Terminated 1).
Proof.
  destruct (missing_token_is_fatal bot_js world_without_token eq_refl) as (Hb & Hb' & _).
  destruct (missing_token_is_fatal part_000 world_without_token eq_refl) as (Hp & Hp' & _).
  by split.
Defined.

(** ** The order of the steps *)

Section order.
Context (v : variant).
Implicit Types (t : list event) (lo mid hi k : nat).



Lemma elem_of_steps s t : s ∈ steps t ↔ ∃ ev, ev ∈ t ∧ step_of ev = Some s.
Proof. apply list_elem_of_omap. Qed.








End order.

(** The events left by [events] are concrete up to the name of a file. *)
Ltac within_leaf :=
  lazymatch goal with
  | |- within _ _ _ ?ev =>
      let s := fresh "s" in let Hs := fresh "Hs" in
      intros s Hs; cbn in Hs;
      repeat (case_match; simplify_eq);
      simplify_eq; cbn; lia
  end.





(** ** A validator that rejects the configuration *)

Lemma trace_bind_stop {A B} (m : prog A) (f : A → prog B) :
  value_of m = None → trace (m ≫= f) = trace m.
Proof.
  unfold value_of. rewrite trace_bind.
  destruct (outcome_of m); [done|by rewrite app_nil_r..].
Qed.

Lemma bind_done {A B} (m : prog A) (f : A → prog B) a :
  outcome_of m = Done a →
  trace (m ≫= f) = trace m ++ trace (f a) ∧ outcome_of (m ≫= f) = outcome_of (f a).
Proof. intros H. by rewrite trace_bind, outcome_bind, H. Qed.

(** In [part_000] the validator is only called once a client class has
    been found. *)
Lemma part_000_validation_reached w :
  existsb is_validation (trace (Part000.script w)) = true →
  is_Some (value_of (Part000.resolve_BotClient w)).
Proof.
  intros H. destruct (value_of (Part000.resolve_BotClient w)) eqn:HB; [by eexists|].
  exfalso. apply not_false_iff_true in H. apply H. apply existsb_false_Forall.
  unfold Part000.script, Part000.main.
  do 6 (apply Forall_trace_bind; [by events|intros ?]).
  rewrite trace_bind_stop by done. by events.
Qed.

Lemma part_000_reaches_validation w BotClient :
  value_of (Part000.resolve_BotClient w) = Some BotClient →
  ∃ checkForUpdates initializeMongoose validateConfiguration,
    value_of (Part000.resolve_checkForUpdates w) = Some checkForUpdates ∧
    value_of (Part000.resolve_initializeMongoose w) = Some initializeMongoose ∧
    value_of (Part000.resolve_validateConfiguration w) = Some validateConfiguration ∧
    extends before_validation (Part000.script w)
      (Part000.validate_step validateConfiguration;;
       Part000.update_step checkForUpdates;;
       Part000.mongoose_step initializeMongoose;;
       client ← new "BotClient" BotClient;
       Part000.after_construction w client).
Proof.
  intros HB.
  destruct (completes_value (Part000.resolve_checkForUpdates w)) as [cfu Hcfu]; [by ends|].
  destruct (completes_value (Part000.resolve_initializeMongoose w)) as [im Him]; [by ends|].
  destruct (completes_value (Part000.resolve_validateConfiguration w)) as [vc Hvc];
    [by ends|].
  exists cfu, im, vc. unfold value_of. rewrite Hcfu, Him, Hvc. split_and!; [done..|].
  unfold Part000.script, Part000.main.
  do 3 (apply extends_bind; [by ends | by events | intros ? _]).
  eapply extends_bind_value; [unfold value_of; by rewrite Hcfu | by events |].
  eapply extends_bind_value; [unfold value_of; by rewrite Him | by events |].
  eapply extends_bind_value; [unfold value_of; by rewrite Hvc | by events |].
  eapply extends_bind_value; [exact HB | by events |].
  apply extends_refl.
Qed.

Lemma bot_js_reaches_main w :
  ∃ checkForUpdates initializeMongoose BotClient validateConfiguration,
    value_of (BotJs.resolve_checkForUpdates w) = Some checkForUpdates ∧
    value_of (BotJs.resolve_initializeMongoose w) = Some initializeMongoose ∧
    value_of (BotJs.resolve_BotClient w) = Some BotClient ∧
    value_of (BotJs.resolve_validateConfiguration w) = Some validateConfiguration ∧
    extends before_validation (BotJs.script w)
      (BotJs.main w checkForUpdates initializeMongoose BotClient validateConfiguration).
Proof.
  destruct (completes_value (BotJs.resolve_checkForUpdates w)) as [cfu Hcfu]; [by ends|].
  destruct (completes_value (BotJs.resolve_initializeMongoose w)) as [im Him]; [by ends|].
  destruct (completes_value (BotJs.resolve_BotClient w)) as [B HB]; [by ends|].
  destruct (completes_value (BotJs.resolve_validateConfiguration w)) as [vc Hvc];
    [by ends|].
  exists cfu, im, B, vc. unfold value_of. rewrite Hcfu, Him, HB, Hvc.
  split_and!; [done..|].
  unfold BotJs.script.
  apply extends_bind; [by ends | by events | intros ? _].
  eapply extends_bind_value; [unfold value_of; by rewrite Hcfu | by events |].
  eapply extends_bind_value; [unfold value_of; by rewrite Him | by events |].
  eapply extends_bind_value; [unfold value_of; by rewrite HB | by events |].
  eapply extends_bind_value; [unfold value_of; by rewrite Hvc | by events |].
  apply extends_refl.
Qed.

(** C3, as the scripts have it.  When the validator is called and throws,
    both scripts catch and log the error.  [part_000] then continues
    with the update check; [bot.js] ends the process with status 1. *)
Theorem validation_failure (v : variant) (w : world) (e : jserror) :
  validator v w = Some (Callable (Throws e)) →
  existsb is_validation (trace (run v w)) = true →
  match v with
  | part_000 =>
      ∃ pre post checkForUpdates,
        value_of (Part000.resolve_checkForUpdates w) = Some checkForUpdates ∧
        trace (run v w) =
          pre ++
          [EvCall ValidateConfiguration;
           EvConsole CError
             [Str "[ERROR]"; Str "Configuration validation failed:"; ErrArg e]] ++
          trace (Part000.update_step checkForUpdates) ++ post ∧
        trace (Part000.update_step checkForUpdates) ≠ []
  | bot_js =>
      ∃ pre,
        trace (run v w) =
          pre ++
          [EvCall ValidateConfiguration;
           EvConsole CError [Str "Configuration validation failed:"; ErrArg e]] ∧
        outcome_of (run v w) = Exited 1
  end.
Proof.
  intros Hv Hcall. destruct v; unfold validator in Hv.
  - change (run bot_js w) with (BotJs.script w).
    destruct (bot_js_reaches_main w)
      as (cfu & im & B & vc & _ & _ & _ & Hvc & pre & _ & E & O).
    rewrite Hv in Hvc. injection Hvc as <-.
    exists (pre ++ [EvConsole CLog [Str BotJs.STATIC_ASCII_BANNER]]).
    rewrite E, O, <-app_assoc. done.
  - change (run part_000 w) with (Part000.script w) in *.
    destruct (part_000_validation_reached w Hcall) as [B HB].
    destruct (part_000_reaches_validation w B HB)
      as (cfu & im & vc & Hcfu & _ & Hvc & pre & _ & E & O).
    rewrite Hv in Hvc. injection Hvc as <-.
    exists pre.
    eexists. exists cfu. split; [done|]. split.
    + rewrite E.
      change (Part000.validate_step (Callable (Throws e))) with
        (Prog [EvCall ValidateConfiguration;
               EvConsole CError
                 [Str "[ERROR]"; Str "Configuration validation failed:"; ErrArg e]]
              (Done ())).
      rewrite (trace_bind (Prog _ _)). cbn [trace outcome_of].
      rewrite (trace_bind (Part000.update_step cfu)). done.
    + unfold Part000.update_step. by destruct cfu as [| |[]].
Qed.

Lemma validation_failure_witness :
  (∃ pre post checkForUpdates,
     value_of (Part000.resolve_checkForUpdates world_invalid_configuration)
       = Some checkForUpdates ∧
     trace (run part_000 world_invalid_configuration) =
       pre ++
       [EvCall ValidateConfiguration;
        EvConsole CError
          [Str "[ERROR]"; Str "Configuration validation failed:";
           ErrArg (Failure "invalid configuration")]] ++
       trace (Part000.update_step checkForUpdates) ++ post ∧
     trace (Part000.update_step checkForUpdates) ≠ []) ∧
  (∃ pre,
     trace (run bot_js world_invalid_configuration) =
       pre ++
       [EvCall ValidateConfiguration;
        EvConsole CError
          [Str "Configuration validation failed:";
           ErrArg (Failure "invalid configuration")]] ∧
     outcome_of (run bot_js world_invalid_configuration) = Exited 1).
Proof.
  split.
  - apply (validation_failure part_000 world_invalid_configuration
             (Failure "invalid configuration")); reflexivity.
  - apply (validation_failure bot_js world_invalid_configuration
             (Failure "invalid configuration")); reflexivity.
Defined.

(** The claim C3 fails on [bot.js]: the validator throws, the error is
    logged, and the process exits with status 1 before the client is even
    constructed. *)
Lemma bot_js_validation_failure_exits :
  validator bot_js world_invalid_configuration =
    Some (Callable (Throws (Failure "invalid configuration"))) ∧
  run bot_js world_invalid_configuration =
    Prog [EvEnvLoad;
          EvRequire "@root/utils/botUtils";
          EvRequire "@root/utils/database/mongoose";
          EvRequire "@src/core/BotClient";
          EvRequire "@root/utils/validateConfiguration";
          EvConsole CLog [Str BotJs.STATIC_ASCII_BANNER];
          EvCall ValidateConfiguration;
          EvConsole CError [Str "Configuration validation failed:";
                            ErrArg (Failure "invalid configuration")]]
         (Exited 1) ∧
  process_status (run bot_js world_invalid_configuration) = Terminated 1.
Proof. by vm_compute. Qed.

(** ** A [BotClient] that cannot be required *)

Lemma ends_with_bind {A B} ev (m : prog A) (f : A → prog B) :
  may_end (λ x, x = ENormal) m → (∀ a, ends_with ev (f a)) → ends_with ev (m ≫= f).
Proof.
  intros [a Ha]%completes_value Hf. unfold ends_with in *. rewrite trace_bind, Ha.
  specialize (Hf a). destruct (trace (f a)) as [|x t] using rev_ind; [done|].
  rewrite app_assoc, last_snoc. by rewrite last_snoc in Hf.
Qed.

Lemma ends_with_bind_stop {A B} ev (m : prog A) (f : A → prog B) :
  value_of m = None → ends_with ev m → ends_with ev (m ≫= f).
Proof. intros Hm H. unfold ends_with. by rewrite trace_bind_stop. Qed.

Lemma thrown_of_ending {A} (m : prog A) :
  ending_of m = EThrow → ∃ e, outcome_of m = Thrown e.
Proof. unfold ending_of. destruct (outcome_of m); naive_solver. Qed.

(** Evaluates the monad's operations where their arguments are known. *)
Ltac run_prog :=
  unfold mbind, mret, prog_bind, prog_ret, try_catch, throw, exit, emit, console,
    perform, call, Part000.log_info, Part000.log_warn, Part000.log_error;
  cbn.

Lemma discordjs_fallback_none w :
  discordjs_Client w = None →
  Part000.discordjs_fallback w =
  Prog [EvRequire "discord.js";
        EvConsole CError
          [Str "[ERROR]";
           Str "discord.js not installed. Install discord.js or provide your BotClient implementation."]]
       (Exited 1).
Proof.
  unfold discordjs_Client, Part000.discordjs_fallback, require.
  destruct (modules w "discord.js") as [| |x]; [done..|].
  intros H. destruct (ex_Client x) eqn:Hc; [| |done]; run_prog; by rewrite Hc.
Qed.

Lemma discordjs_fallback_some w k flags :
  discordjs_Client w = Some (k, flags) →
  Part000.discordjs_fallback w =
  Prog [EvRequire "discord.js";
        EvConsole CWarn
          [Str "[WARN]";
           Str "Using fallback BotClient (discord.js Client). Replace with your actual BotClient implementation."]]
       (Done (Callable (Part000.FallbackClient k flags))).
Proof.
  unfold discordjs_Client, Part000.discordjs_fallback, require.
  destruct (modules w "discord.js") as [| |x]; [done..|].
  intros H. destruct (ex_Client x) eqn:Hc; simplify_eq.
  run_prog. by rewrite Hc.
Qed.

(** What [part_000] does when [BotClient] cannot be required and
    [discord.js] is of no help. *)
Lemma part_000_no_client_class w :
  ending_of (Part000.require_BotClient w) = EThrow →
  discordjs_Client w = None →
  outcome_of (Part000.resolve_BotClient w) = Exited 1 ∧
  ends_with
    (EvConsole CError
       [Str "[ERROR]";
        Str "discord.js not installed. Install discord.js or provide your BotClient implementation."])
    (Part000.resolve_BotClient w) ∧
  Forall (within part_000 0 1) (trace (Part000.resolve_BotClient w)).
Proof.
  intros [e He]%thrown_of_ending Hd. unfold Part000.resolve_BotClient, ends_with.
  rewrite trace_try_catch, outcome_try_catch, He, (discordjs_fallback_none w Hd).
  split_and!.
  - done.
  - by rewrite last_app.
  - apply Forall_app. split; events; within_leaf.
Qed.

Lemma part_000_fallback_class w k flags :
  ending_of (Part000.require_BotClient w) = EThrow →
  discordjs_Client w = Some (k, flags) →
  value_of (Part000.resolve_BotClient w) = Some (Callable (Part000.FallbackClient k flags)).
Proof.
  intros [e He]%thrown_of_ending Hd. unfold value_of, Part000.resolve_BotClient.
  by rewrite outcome_try_catch, He, (discordjs_fallback_some w k flags Hd).
Qed.

(** C4, as the scripts have it.  When [BotClient] cannot be required,
    [bot.js] goes on with its own [MinimalBotClient] and [part_000] goes
    on with a [FallbackClient] built on the [Client] of [discord.js].
    Only [part_000], and only when [discord.js] cannot be used either,
    logs an error and ends the process with status 1; it has then done
    nothing but load the environment and print the banner. *)
Theorem unresolved_BotClient (v : variant) (w : world) :
  ending_of (BotClient_lookup v w) = EThrow →
  match v with
  | bot_js =>
      value_of (BotJs.resolve_BotClient w) =
        Some (Callable (Constructs BotJs.MinimalBotClient))
  | part_000 =>
      match discordjs_Client w with
      | Some (Client, flags) =>
          value_of (Part000.resolve_BotClient w) =
            Some (Callable (Part000.FallbackClient Client flags))
      | None =>
          outcome_of (run v w) = Exited 1 ∧
          ends_with
            (EvConsole CError
               [Str "[ERROR]";
                Str "discord.js not installed. Install discord.js or provide your BotClient implementation."])
            (run v w) ∧
          ∀ s, s ∈ steps (trace (run v w)) → s = SEnvironment ∨ s = SBanner
      end
  end.
Proof.
  intros H. destruct v; unfold BotClient_lookup in H.
  - apply thrown_of_ending in H as [e He].
    unfold value_of, BotJs.resolve_BotClient. by rewrite outcome_try_catch, He.
  - destruct (discordjs_Client w) as [[k flags]|] eqn:Hd.
    { by apply part_000_fallback_class. }
    destruct (part_000_no_client_class w H Hd) as (Ho & Hlast & Hsteps).
    assert (Hv : value_of (Part000.resolve_BotClient w) = None).
    { unfold value_of. by rewrite Ho. }
    change (run part_000 w) with (Part000.script w). split_and!.
    + assert (Hend : may_end (λ x, x = EExit 1) (Part000.script w)).
      { unfold Part000.script, Part000.main.
        do 6 (apply may_end_bind; [by ends|intros ?]).
        apply may_end_bind_stop. unfold may_end, ending_of. by rewrite Ho. }
      unfold may_end, ending_of in Hend.
      destruct (outcome_of (Part000.script w)); by simplify_eq.
    + unfold Part000.script, Part000.main.
      do 6 (apply ends_with_bind; [by ends|intros ?]).
      by apply ends_with_bind_stop.
    + assert (Hall : Forall (within part_000 0 1) (trace (Part000.script w))).
      { unfold Part000.script, Part000.main.
        do 6 (apply Forall_trace_bind; [events; within_leaf|intros ?]).
        by rewrite trace_bind_stop. }
      intros s (ev & Hin & Hs)%elem_of_steps.
      rewrite Forall_forall in Hall. specialize (Hall ev Hin s Hs).
      destruct s; simpl in Hall; auto; lia.
Qed.

Lemma unresolved_BotClient_witness :
  value_of (BotJs.resolve_BotClient world_with_token) =
    Some (Callable (Constructs BotJs.MinimalBotClient)) ∧
  value_of (Part000.resolve_BotClient world_with_discordjs) =
    Some (Callable (Part000.FallbackClient (Constructs plain_client) true)) ∧
  (outcome_of (run part_000 world_with_token) = Exited 1 ∧
   ends_with
     (EvConsole CError
        [Str "[ERROR]";
         Str "discord.js not installed. Install discord.js or provide your BotClient implementation."])
     (run part_000 world_with_token) ∧
   ∀ s, s ∈ steps (trace (run part_000 world_with_token)) →
        s = SEnvironment ∨ s = SBanner).
Proof.
  split; [|split].
  - exact (unresolved_BotClient bot_js world_with_token eq_refl).
  - exact (unresolved_BotClient part_000 world_with_discordjs eq_refl).
  - exact (unresolved_BotClient part_000 world_with_token eq_refl).
Defined.

(** The claim C4 fails on [bot.js]: [BotClient] cannot be required, and
    the run goes on with the fallback class, logs in and leaves the
    process alive. *)
Lemma bot_js_missing_BotClient_continues :
  ending_of (BotClient_lookup bot_js world_with_token) = EThrow ∧
  run bot_js world_with_token =
    Prog [EvEnvLoad;
          EvRequire "@root/utils/botUtils";
          EvRequire "@root/utils/database/mongoose";
          EvRequire "@src/core/BotClient";
          EvRequire "@root/utils/validateConfiguration";
          EvConsole CLog [Str BotJs.STATIC_ASCII_BANNER];
          EvCall ValidateConfiguration;
          EvNew;
          EvCall LoadCommands;
          EvCall LoadCommandTests;
          EvCall LoadEvents;
          EvProcessOn UnhandledRejection;
          EvCall CheckForUpdates;
          EvCall InitializeMongoose;
          EvLogin "abc123";
          EvLogger LLog [Str "Bot started successfully."]]
         (Done ()) ∧
  process_status (run bot_js world_with_token) = Alive.
Proof. by vm_compute. Qed.

(** ** An update check that fails *)

(** In [part_000] a failing update check is caught where it is called:
    the step logs a warning and completes, whatever the checker does. *)
Lemma part_000_update_step_continues checkForUpdates :
  may_end (λ x, x = ENormal) (Part000.update_step checkForUpdates) ∧
  ∀ e, Part000.update_step (Callable (Throws e)) =
       Prog [EvCall CheckForUpdates;
             EvConsole CWarn
               [Str "[WARN]"; Str "Error while checking for updates (continuing):";
                ErrArg e]]
            (Done ()).
Proof. split; [by ends|done]. Qed.

(** In [bot.js] the call is not guarded: the exception reaches the
    handler of the whole startup flow, which exits. *)
Lemma bot_js_update_failure_exits w c e initializeMongoose :
  outcome_of (BotJs.startup_flow w c (Callable (Throws e)) initializeMongoose) = Exited 1 ∧
  login_invoked (trace (BotJs.startup_flow w c (Callable (Throws e)) initializeMongoose))
    = false.
Proof.
  split.
  - assert (H : may_end (λ x, x = EExit 1)
      (BotJs.startup_flow w c (Callable (Throws e)) initializeMongoose)).
    { unfold BotJs.startup_flow. apply may_end_try_catch; [|intros ?; by ends].
      apply may_end_bind_stop. unfold may_end. by split; [|left]. }
    unfold may_end, ending_of in H. destruct (outcome_of _); by simplify_eq.
  - apply existsb_false_Forall. unfold BotJs.startup_flow.
    apply Forall_trace_try_catch; [|intros ?; by events].
    rewrite trace_bind_stop by done. by events.
Qed.

(** C2 fails on [bot.js].  With an update checker that throws, [bot.js]
    logs a startup error and leaves with status 1 without logging in;
    [part_000], in the same world, logs a warning, goes on and logs in. *)
Theorem bot_js_update_check_failure_is_fatal :
  run bot_js world_update_check_fails =
    Prog [EvEnvLoad;
          EvRequire "@root/utils/botUtils";
          EvRequire "@root/utils/database/mongoose";
          EvRequire "@src/core/BotClient";
          EvRequire "@root/utils/validateConfiguration";
          EvConsole CLog [Str BotJs.STATIC_ASCII_BANNER];
          EvCall ValidateConfiguration;
          EvNew;
          EvCall LoadCommands;
          EvCall LoadCommandTests;
          EvCall LoadEvents;
          EvProcessOn UnhandledRejection;
          EvCall CheckForUpdates;
          EvLogger LError [Str "Startup error"; ErrArg (Failure "network unreachable")]]
         (Exited 1) ∧
  process_status (run bot_js world_update_check_fails) = Terminated 1 ∧
  login_invoked (trace (run bot_js world_update_check_fails)) = false ∧
  outcome_of (run part_000 world_update_check_fails) = Done () ∧
  login_invoked (trace (run part_000 world_update_check_fails)) = true.
Proof. by vm_compute. Qed.

(** ** The scan of the handler directories *)

Lemma warnings_app t1 t2 : warnings (t1 ++ t2) = (warnings t1 + warnings t2)%nat.
Proof. unfold warnings. by rewrite filter_app, length_app. Qed.

Lemma required_app t1 t2 : required (t1 ++ t2) = required t1 ++ required t2.
Proof. apply omap_app. Qed.

Lemma registrations_app t1 t2 : registrations (t1 ++ t2) = registrations t1 ++ registrations t2.
Proof. apply omap_app. Qed.

Lemma bindings_app t1 t2 : bindings (t1 ++ t2) = bindings t1 ++ bindings t2.
Proof. apply omap_app. Qed.

Lemma for_each_cons {A} (body : A → prog unit) x l :
  for_each body (x :: l) = (body x;; for_each body l).
Proof. done. Qed.

(** One round of the loop over the command files: it always completes,
    requires its file, warns exactly when it fails and registers exactly
    what [command_registered] says. *)
Lemma load_command_spec w c dir file :
  outcome_of (Part000.load_command w c dir file) = Done () ∧
  required (trace (Part000.load_command w c dir file)) = [path_join dir file] ∧
  warnings (trace (Part000.load_command w c dir file)) =
    (if command_fails w c dir file then 1 else 0)%nat ∧
  registrations (trace (Part000.load_command w c dir file)) =
    option_list (command_registered w c dir file).
Proof.
  unfold Part000.load_command, command_fails, command_registered, require.
  destruct (modules w (path_join dir file)) as [| |x], (cl_commands c) as [m|];
    try done.
  unfold prop. run_prog.
  destruct (ex_name x) as [n|]; cbn; [destruct (String.eqb n "")|]; done.
Qed.

Lemma load_event_spec w c dir file :
  outcome_of (Part000.load_event w c dir file) = Done () ∧
  required (trace (Part000.load_event w c dir file)) = [path_join dir file] ∧
  warnings (trace (Part000.load_event w c dir file)) =
    (if event_fails w c dir file then 1 else 0)%nat ∧
  bindings (trace (Part000.load_event w c dir file)) =
    option_list (event_bound w c dir file).
Proof.
  unfold Part000.load_event, event_fails, event_bound, require, Part000.client_on.
  destruct (modules w (path_join dir file)) as [| |x]; try done.
  unfold prop. run_prog.
  destruct (ex_call x), (ex_execute x), (cl_on c);
    destruct (truthy (ex_name x)); done.
Qed.

Lemma filter_length_cons {A} (p : A → bool) x l :
  length (filter p (x :: l)) = ((if p x then 1 else 0) + length (filter p l))%nat.
Proof. rewrite filter_cons. by destruct (p x). Qed.

Lemma omap_cons_list {A B} (f : A → option B) x l :
  omap f (x :: l) = option_list (f x) ++ omap f l.
Proof. simpl. by destruct (f x). Qed.

Lemma omap_length_filter {A B} (f : A → option B) (p : A → bool) l :
  (∀ x, p x = true → f x = None) →
  (length (omap f l) ≤ length l - length (filter p l))%nat.
Proof.
  intros H. induction l as [|x l IH]; [done|].
  rewrite omap_cons_list, filter_length_cons, length_app. pose proof (H x) as Hx.
  assert (length (filter p l) ≤ length l)%nat by apply length_filter.
  destruct (p x); [rewrite Hx by done|destruct (f x)]; simpl; lia.
Qed.

Lemma for_each_load_command w c dir files :
  outcome_of (for_each (Part000.load_command w c dir) files) = Done () ∧
  required (trace (for_each (Part000.load_command w c dir) files)) = path_join dir <$> files ∧
  warnings (trace (for_each (Part000.load_command w c dir) files)) =
    length (filter (command_fails w c dir) files) ∧
  registrations (trace (for_each (Part000.load_command w c dir) files)) =
    omap (command_registered w c dir) files.
Proof.
  induction files as [|file files (IHo & IHr & IHw & IHs)]; [done|].
  destruct (load_command_spec w c dir file) as (Ho & Hr & Hw & Hs).
  rewrite for_each_cons.
  destruct (bind_done _ (λ _, for_each (Part000.load_command w c dir) files) _ Ho)
    as [-> ->].
  rewrite required_app, warnings_app, registrations_app, Hr, Hw, Hs, IHr, IHw, IHs.
  rewrite filter_length_cons, omap_cons_list. done.
Qed.

Lemma for_each_load_event w c dir files :
  outcome_of (for_each (Part000.load_event w c dir) files) = Done () ∧
  required (trace (for_each (Part000.load_event w c dir) files)) = path_join dir <$> files ∧
  warnings (trace (for_each (Part000.load_event w c dir) files)) =
    length (filter (event_fails w c dir) files) ∧
  bindings (trace (for_each (Part000.load_event w c dir) files)) =
    omap (event_bound w c dir) files.
Proof.
  induction files as [|file files (IHo & IHr & IHw & IHs)]; [done|].
  destruct (load_event_spec w c dir file) as (Ho & Hr & Hw & Hs).
  rewrite for_each_cons.
  destruct (bind_done _ (λ _, for_each (Part000.load_event w c dir) files) _ Ho)
    as [-> ->].
  rewrite required_app, warnings_app, bindings_app, Hr, Hw, Hs, IHr, IHw, IHs.
  rewrite filter_length_cons, omap_cons_list. done.
Qed.

(** [Map.set] adds at most one entry. *)
Lemma commands_size (m : gmap string string) (l : list (string * string)) :
  (size (foldl (λ m nf, <[nf.1 := nf.2]> m) m l) ≤ size m + length l)%nat.
Proof.
  revert m. induction l as [|[n f] l IH]; intros m; simpl; [lia|].
  specialize (IH (<[n:=f]> m)). rewrite map_size_insert in IH.
  destruct (m !! n); simpl in IH; lia.
Qed.

(** C6, as [part_000] has it.  The scan of a directory of handler files
    goes through all of them, in order, whatever happens to one of them,
    and logs one warning for each file whose round fails.  It registers a
    command for each file that loads and has a name, provided the client
    has a map of commands, and binds an event for each file that loads
    and is a function or has an [execute] function, provided the client
    has [on]: at most as many handlers as files that did not fail, and
    the map of commands grows by at most that many entries. *)
Theorem directory_scan_isolates_failures
    (w : world) (c : client) (dir : string) (files : list string) :
  (outcome_of (for_each (Part000.load_command w c dir) files) = Done () ∧
   required (trace (for_each (Part000.load_command w c dir) files)) =
     path_join dir <$> files ∧
   warnings (trace (for_each (Part000.load_command w c dir) files)) =
     length (filter (command_fails w c dir) files) ∧
   registrations (trace (for_each (Part000.load_command w c dir) files)) =
     omap (command_registered w c dir) files ∧
   (length (registrations (trace (for_each (Part000.load_command w c dir) files)))
    ≤ length files - warnings (trace (for_each (Part000.load_command w c dir) files)))%nat ∧
   (∀ m, cl_commands c = Some m →
      ∃ m', commands_after c (trace (for_each (Part000.load_command w c dir) files))
              = Some m' ∧
            (size m' ≤ size m + (length files
               - warnings (trace (for_each (Part000.load_command w c dir) files))))%nat))
  ∧
  (outcome_of (for_each (Part000.load_event w c dir) files) = Done () ∧
   required (trace (for_each (Part000.load_event w c dir) files)) =
     path_join dir <$> files ∧
   warnings (trace (for_each (Part000.load_event w c dir) files)) =
     length (filter (event_fails w c dir) files) ∧
   bindings (trace (for_each (Part000.load_event w c dir) files)) =
     omap (event_bound w c dir) files ∧
   (length (bindings (trace (for_each (Part000.load_event w c dir) files)))
    ≤ length files - warnings (trace (for_each (Part000.load_event w c dir) files)))%nat).
Proof.
  destruct (for_each_load_command w c dir files) as (Ho & Hr & Hw & Hs).
  destruct (for_each_load_event w c dir files) as (Ho' & Hr' & Hw' & Hs').
  assert (Hle : (length (registrations
                     (trace (for_each (Part000.load_command w c dir) files)))
                 ≤ length files
                   - warnings (trace (for_each (Part000.load_command w c dir) files)))%nat).
  { rewrite Hs, Hw. apply omap_length_filter. intros file.
    unfold command_fails, command_registered.
    by destruct (modules w (path_join dir file)), (cl_commands c). }
  split; split_and!; try done.
  - intros m Hm. unfold commands_after. rewrite Hm. eexists. split; [done|].
    etrans; [apply commands_size|]. lia.
  - rewrite Hs', Hw'. apply omap_length_filter. intros file.
    unfold event_fails, event_bound.
    destruct (modules w (path_join dir file)) as [| |x]; [done..|].
    by destruct (cl_on c), (ex_call x), (ex_execute x).
Qed.

Lemma directory_scan_isolates_failures_witness :
  ∃ m',
    commands_after scanning_client
      (trace (for_each (Part000.load_command world_commands scanning_client "src/commands")
                ["ping.js"; "broken.js"; "anonymous.js"])) = Some m' ∧
    (size m' ≤ size (∅ : gmap string string) +
       (3 - warnings
              (trace (for_each
                        (Part000.load_command world_commands scanning_client "src/commands")
                        ["ping.js"; "broken.js"; "anonymous.js"]))))%nat.
Proof.
  destruct (directory_scan_isolates_failures world_commands scanning_client
              "src/commands" ["ping.js"; "broken.js"; "anonymous.js"])
    as [(_ & _ & _ & _ & _ & H) _].
  exact (H ∅ eq_refl).
Defined.

(** The scan is what [tryLoadCommands] and [tryLoadEvents] do when the
    client has no loader of its own and the directory exists. *)
Lemma tryLoadCommands_scans w c all :
  is_function (cl_loadCommands c) = false →
  existsSync w "src/commands" = true →
  readdirSync w "src/commands" = Entries all →
  Part000.tryLoadCommands w c =
  Prog (trace (for_each (Part000.load_command w c "src/commands")
                 (List.filter (λ f, endsWith f ".js") all)) ++
        [EvConsole CLog [Str "[INFO]"; Str "Commands loaded from src/commands (fallback)."]])
       (Done ()).
Proof.
  intros Hf He Hr. unfold Part000.tryLoadCommands, Part000.js_files.
  rewrite Hf. change (path_resolve ["src"; "commands"]) with "src/commands".
  cbv zeta. rewrite Hr.
  destruct (for_each_load_command w c "src/commands"
              (List.filter (λ f, endsWith f ".js") all)) as (Ho & _).
  run_prog. rewrite He, Ho. done.
Qed.

Lemma tryLoadEvents_scans w c all :
  is_function (cl_loadEvents c) = false →
  existsSync w "src/events" = true →
  readdirSync w "src/events" = Entries all →
  Part000.tryLoadEvents w c =
  Prog (trace (for_each (Part000.load_event w c "src/events")
                 (List.filter (λ f, endsWith f ".js") all)) ++
        [EvConsole CLog [Str "[INFO]"; Str "Events loaded from src/events (fallback)."]])
       (Done ()).
Proof.
  intros Hf He Hr. unfold Part000.tryLoadEvents, Part000.js_files.
  rewrite Hf. change (path_resolve ["src"; "events"]) with "src/events".
  cbv zeta. rewrite Hr.
  destruct (for_each_load_event w c "src/events"
              (List.filter (λ f, endsWith f ".js") all)) as (Ho & _).
  run_prog. rewrite He, Ho. done.
Qed.

(** The claim C6 fails on [part_000]: of three command files one cannot
    be required, one warning is logged, and yet only one command is
    registered, because the third file exports no name. *)
Lemma unnamed_command_is_not_registered :
  value_of (Part000.js_files world_commands "src/commands") =
    Some ["ping.js"; "broken.js"; "anonymous.js"] ∧
  filter (require_fails world_commands "src/commands")
    ["ping.js"; "broken.js"; "anonymous.js"] = ["broken.js"] ∧
  outcome_of (Part000.tryLoadCommands world_commands scanning_client) = Done () ∧
  warnings (trace (Part000.tryLoadCommands world_commands scanning_client)) = 1%nat ∧
  registrations (trace (Part000.tryLoadCommands world_commands scanning_client)) =
    [("ping", "src/commands/ping.js")] ∧
  commands_after scanning_client
    (trace (Part000.tryLoadCommands world_commands scanning_client)) =
    Some {[ "ping" := "src/commands/ping.js" ]} ∧
  length (registrations (trace (Part000.tryLoadCommands world_commands scanning_client)))
    ≠ (3 - 1)%nat.
Proof. split_and!; by vm_compute. Qed.

(** ** The dashboard and the database *)

Lemma Forall_neither t :
  Forall neither t ↔ dashboard_attempted t = false ∧ database_attempted t = false.
Proof.
  unfold dashboard_attempted, database_attempted. rewrite !existsb_false_Forall.
  unfold neither. rewrite Forall_and. done.
Qed.

Lemma exclusive_app_l t1 t2 : Forall neither t1 → exclusive t2 → exclusive (t1 ++ t2).
Proof.
  intros [H1 H2]%Forall_neither H. unfold exclusive, dashboard_attempted,
    database_attempted in *. by rewrite !existsb_app, H1, H2.
Qed.

Lemma exclusive_app_r t1 t2 : exclusive t1 → Forall neither t2 → exclusive (t1 ++ t2).
Proof.
  intros H [H1 H2]%Forall_neither. unfold exclusive, dashboard_attempted,
    database_attempted in *. by rewrite !existsb_app, H1, H2, !orb_false_r.
Qed.

Lemma exclusive_neither t : Forall neither t → exclusive t.
Proof. intros [H1 H2]%Forall_neither. unfold exclusive. by rewrite H1. Qed.

Lemma exclusive_bind_l {A B} (m : prog A) (f : A → prog B) :
  Forall neither (trace m) → (∀ a, exclusive (trace (f a))) →
  exclusive (trace (m ≫= f)).
Proof.
  intros Hm Hf. rewrite trace_bind. apply exclusive_app_l; [done|].
  destruct (outcome_of m); [apply Hf|done..].
Qed.

Lemma exclusive_bind_r {A B} (m : prog A) (f : A → prog B) :
  exclusive (trace m) → (∀ a, Forall neither (trace (f a))) →
  exclusive (trace (m ≫= f)).
Proof.
  intros Hm Hf. rewrite trace_bind. apply exclusive_app_r; [done|].
  destruct (outcome_of m); [apply Hf|constructor..].
Qed.

Lemma exclusive_try_catch {A} (m : prog A) (h : jserror → prog A) :
  exclusive (trace m) → (∀ e, Forall neither (trace (h e))) →
  exclusive (trace (try_catch m h)).
Proof.
  intros Hm Hh. rewrite trace_try_catch. apply exclusive_app_r; [done|].
  destruct (outcome_of m); [constructor|apply Hh|constructor].
Qed.

(** The branch of [bot.js]: the flag selects the one that is attempted. *)
Lemma bot_js_branch w c initializeMongoose :
  dashboard_attempted (trace (BotJs.dashboard_or_database w c initializeMongoose))
    = cl_dashboard_enabled c ∧
  database_attempted (trace (BotJs.dashboard_or_database w c initializeMongoose))
    = negb (cl_dashboard_enabled c).
Proof.
  unfold BotJs.dashboard_or_database. cbv zeta.
  destruct (cl_dashboard_enabled c); simpl negb; split.
  - unfold dashboard_attempted, BotJs.launch_dashboard, require.
    by rewrite trace_try_catch, !trace_bind.
  - apply existsb_false_Forall. by events.
  - apply existsb_false_Forall. by events.
  - unfold database_attempted, BotJs.initialize_database, call.
    by rewrite trace_try_catch, !trace_bind.
Qed.

Lemma bot_js_exclusive w : exclusive (trace (BotJs.script w)).
Proof.
  unfold BotJs.script, BotJs.main.
  repeat (apply exclusive_bind_l; [by events|intros ?]).
  unfold BotJs.startup_flow.
  apply exclusive_try_catch; [|intros ?; by events].
  apply exclusive_bind_l; [by events|intros ?].
  apply exclusive_bind_r; [|intros ?; unfold BotJs.login; by events].
  lazymatch goal with
  | |- exclusive (trace (BotJs.dashboard_or_database _ ?c ?im)) =>
      unfold exclusive; destruct (bot_js_branch w c im) as [-> ->];
      by destruct (cl_dashboard_enabled c)
  end.
Qed.

(** Sequencing after a computation that always completes. *)
Lemma existsb_bind {A B} (p : event → bool) (m : prog A) (f : A → prog B) :
  may_end (λ x, x = ENormal) m →
  ∃ a, value_of m = Some a ∧
       existsb p (trace (m ≫= f)) = existsb p (trace m) || existsb p (trace (f a)).
Proof.
  intros [a Ha]%completes_value. exists a. unfold value_of.
  by rewrite trace_bind, Ha, existsb_app.
Qed.

Lemma existsb_extends {A} (p : event → bool) (φ : event → Prop) (r r' : prog A) :
  (∀ ev, φ ev → p ev = false) → extends φ r r' →
  existsb p (trace r) = existsb p (trace r').
Proof.
  intros Hφ (pre & Hpre & -> & _). rewrite existsb_app.
  replace (existsb p pre) with false; [done|].
  symmetry. apply existsb_false_Forall. eapply Forall_impl; eauto.
Qed.

(** [tryLaunchDashboard] always makes an attempt: it calls a launcher, or
    at least requires ['./dashboard']. *)
Lemma launch_first_attempts w paths :
  value_of (Part000.launch_first w paths) = Some true →
  dashboard_attempted (trace (Part000.launch_first w paths)) = true.
Proof.
  induction paths as [|p rest IH]; [done|].
  rewrite launch_first_cons. unfold value_of, dashboard_attempted in *.
  rewrite outcome_bind, trace_bind, existsb_app.
  destruct (outcome_of (Part000.launch_from w p)) as [[]| |] eqn:E; [|by auto with bool|done..].
  intros _. apply orb_true_iff. left.
  revert E. unfold Part000.launch_from.
  destruct (existsSync w p); [|done]. unfold require.
  destruct (modules w p) as [| |x]; [done..|].
  repeat first [progress run_prog | case_match];
    first [done | by intros; simplify_eq/= | intros _; by rewrite ?orb_true_r].
Qed.

Lemma tryLaunchDashboard_attempts w c :
  dashboard_attempted (trace (Part000.tryLaunchDashboard w c)) = true.
Proof.
  unfold Part000.tryLaunchDashboard.
  destruct (existsb_bind is_dashboard (Part000.launch_first w Part000.dashboardLauncherPaths)
    (λ launched : bool, if launched then mret true else
       launched ←
         try_catch
           (maybe ← require w "./dashboard";
            match maybe with
            | Exports x =>
                if is_function (ex_launch x) then
                  call (Launch "./dashboard") "maybe.launch" (ex_launch x);;
                  Part000.log_info [Str "Dashboard launched via ./dashboard export."];;
                  mret true
                else mret false
            | _ => mret false
            end)
           (λ _, mret false);
       if (launched : bool) then mret true
       else
         Part000.log_info
           [Str "No dashboard detected or launcher failed; skipping dashboard start."];;
         mret false)) as (launched & Hv & E); [by ends|].
  unfold dashboard_attempted. rewrite E. apply orb_true_iff.
  destruct launched; [left; by apply launch_first_attempts|right].
  unfold require. by rewrite !trace_bind, trace_try_catch, !trace_bind.
Qed.

Lemma part_000_reaches_dashboard w c :
  extends (λ _, True) (Part000.after_construction w c)
    (try_catch (Part000.tryLaunchDashboard w c;; mret ())
       (λ err, Part000.log_warn
          [Str "Error while attempting to launch dashboard (continuing):"; ErrArg err]);;
     Part000.login w c).
Proof.
  unfold Part000.after_construction.
  do 5 (apply extends_bind; [by ends | by events | intros ? _]).
  apply extends_refl.
Qed.

Lemma before_validation_not_database ev : before_validation ev → is_database ev = false.
Proof. by destruct ev. Qed.

Lemma mongoose_step_attempts initializeMongoose :
  database_attempted (trace (Part000.mongoose_step initializeMongoose)) =
    is_function initializeMongoose.
Proof. by destruct initializeMongoose as [| |[]]. Qed.


(** ** The listeners *)

Lemma bot_js_never_listens_for_exceptions w :
  listens UncaughtException (trace (BotJs.script w)) = false.
Proof.
  apply existsb_false_Forall. unfold BotJs.script, BotJs.main, BotJs.login.
  by events.
Qed.

(** Once the update check of [bot.js] is reached the listener is
    installed. *)
Lemma listener_before_update_check_app t1 t2 :
  Forall (λ ev, is_update_check ev = false) t1 →
  (existsb is_update_check t2 = true → listens UnhandledRejection t2 = true) →
  existsb is_update_check (t1 ++ t2) = true → listens UnhandledRejection (t1 ++ t2) = true.
Proof.
  intros H1%existsb_false_Forall H2. rewrite listens_app, existsb_app, H1. simpl.
  intros ->%H2. apply orb_true_r.
Qed.

Lemma listener_before_update_check_bind {A B} (m : prog A) (f : A → prog B) :
  Forall (λ ev, is_update_check ev = false) (trace m) →
  (∀ a, existsb is_update_check (trace (f a)) = true →
        listens UnhandledRejection (trace (f a)) = true) →
  existsb is_update_check (trace (m ≫= f)) = true →
  listens UnhandledRejection (trace (m ≫= f)) = true.
Proof.
  intros Hm Hf. rewrite trace_bind. apply listener_before_update_check_app; [done|].
  destruct (outcome_of m); [apply Hf|done..].
Qed.

Lemma bot_js_listener_before_update_check w :
  existsb is_update_check (trace (BotJs.script w)) = true →
  listens UnhandledRejection (trace (BotJs.script w)) = true.
Proof.
  unfold BotJs.script, BotJs.main.
  do 11 (apply listener_before_update_check_bind; [by events|intros ?]).
  intros _. by rewrite trace_bind.
Qed.

Lemma part_000_listeners w c :
  value_of (Part000.resolve_BotClient w) = Some (Callable (Constructs c)) →
  listens UnhandledRejection (trace (Part000.script w)) = true ∧
  listens UncaughtException (trace (Part000.script w)) = true.
Proof.
  intros HB. destruct (part_000_reaches_construction w _ HB) as (pre & _ & E & _).
  rewrite new_constructs in E. cbn [trace] in E. rewrite E, !listens_app.
  unfold Part000.after_construction.
  split; apply orb_true_iff; right; by rewrite !trace_bind.
Qed.

Lemma never_exits_outcome {A} (m : prog A) :
  may_end (λ x, ∀ c, x ≠ EExit c) m → ∀ code, outcome_of m ≠ Exited code.
Proof.
  unfold may_end, ending_of. intros H code E. rewrite E in H. by apply (H code).
Qed.

(** C8, as the scripts have it.  [part_000] installs two listeners, for
    unhandled rejections and for uncaught exceptions, on every run that
    constructs its client.  [bot.js] installs one, for unhandled
    rejections, on every run that gets to the update check, and never one
    for uncaught exceptions.  A listener logs through
    [client.logger.error] when that is a function, and on the console
    when the client has no such method; no listener calls
    [process.exit]. *)
Theorem listeners_only_record :
  (∀ w, listens UncaughtException (trace (run bot_js w)) = false) ∧
  (∀ w, existsb is_update_check (trace (run bot_js w)) = true →
        listens UnhandledRejection (trace (run bot_js w)) = true) ∧
  (∀ w c, value_of (Part000.resolve_BotClient w) = Some (Callable (Constructs c)) →
          listens UnhandledRejection (trace (run part_000 w)) = true ∧
          listens UncaughtException (trace (run part_000 w)) = true) ∧
  (∀ client err code,
     outcome_of (BotJs.unhandledRejection_handler client err) ≠ Exited code ∧
     outcome_of (Part000.unhandledRejection_handler client err) ≠ Exited code ∧
     outcome_of (Part000.uncaughtException_handler client err) ≠ Exited code) ∧
  (∀ client err b, logger_error_slot client = Callable b →
     first_event (BotJs.unhandledRejection_handler client err) =
       Some (EvLogger LError [Str "unhandledRejection"; ErrArg err]) ∧
     first_event (Part000.unhandledRejection_handler client err) =
       Some (EvLogger LError [Str "Unhandled Rejection:"; ErrArg err]) ∧
     first_event (Part000.uncaughtException_handler client err) =
       Some (EvLogger LError [Str "Uncaught Exception:"; ErrArg err])) ∧
  (∀ client err, logger_error_slot client = Absent →
     BotJs.unhandledRejection_handler client err =
       Prog [EvConsole CError [Str "unhandledRejection"; ErrArg err]] (Done ()) ∧
     Part000.unhandledRejection_handler client err =
       Prog [EvConsole CError [Str "[ERROR]"; Str "Unhandled Rejection:"; ErrArg err]]
            (Done ()) ∧
     Part000.uncaughtException_handler client err =
       Prog [EvConsole CError [Str "[ERROR]"; Str "Uncaught Exception:"; ErrArg err]]
            (Done ())).
Proof.
  split_and!.
  - apply bot_js_never_listens_for_exceptions.
  - apply bot_js_listener_before_update_check.
  - apply part_000_listeners.
  - intros client err code. split_and!; apply never_exits_outcome.
    + unfold BotJs.unhandledRejection_handler. ends.
    + unfold Part000.unhandledRejection_handler. ends.
    + unfold Part000.uncaughtException_handler. ends.
  - intros client err b H.
    destruct client as [[? [[? ? [| |[|]]]|]]|]; by simplify_eq/=.
  - intros client err H.
    destruct client as [[? [[? ? [| |[|]]]|]]|]; by simplify_eq/=.
Qed.

Lemma listeners_only_record_witness :
  listens UnhandledRejection (trace (run bot_js world_with_token)) = true ∧
  (listens UnhandledRejection (trace (run part_000 world_without_login)) = true ∧
   listens UncaughtException (trace (run part_000 world_without_login)) = true) ∧
  first_event (Part000.uncaughtException_handler (Some logging_client) (Failure "boom")) =
    Some (EvLogger LError [Str "Uncaught Exception:"; ErrArg (Failure "boom")]) ∧
  BotJs.unhandledRejection_handler (Some plain_client) (Failure "boom") =
    Prog [EvConsole CError [Str "unhandledRejection"; ErrArg (Failure "boom")]] (Done ()).
Proof.
  destruct listeners_only_record as (_ & Hbot & Hpart & _ & Hlogger & Hconsole).
  split; [|split; [|split]].
  - exact (Hbot world_with_token eq_refl).
  - exact (Hpart world_without_login client_without_login eq_refl).
  - exact (proj2 (proj2 (Hlogger (Some logging_client) (Failure "boom") (Returns false)
                            eq_refl))).
  - exact (proj1 (Hconsole (Some plain_client) (Failure "boom") eq_refl)).
Defined.

(** The claim C8 fails on [bot.js]: a complete run has installed the
    listener for unhandled rejections but none for uncaught exceptions,
    and a run that ends in the validation has installed none at all. *)
Lemma bot_js_installs_one_listener :
  outcome_of (run bot_js world_with_token) = Done () ∧
  listens UnhandledRejection (trace (run bot_js world_with_token)) = true ∧
  listens UncaughtException (trace (run bot_js world_with_token)) = false ∧
  listens UnhandledRejection (trace (run bot_js world_invalid_configuration)) = false ∧
  listens UncaughtException (trace (run bot_js world_invalid_configuration)) = false.
Proof. by vm_compute. Qed.


(** ** The steps behind a login *)


























(** ** The branch behind a login *)

Lemma login_after_branch_bind {A B} flag (m : prog A) (f : A → prog B) :
  Forall not_login (trace m) → Forall neither (trace m) →
  (∀ a, outcome_of m = Done a → login_after_branch flag (trace (f a))) →
  login_after_branch flag (trace (m ≫= f)).
Proof.
  intros Hl%existsb_false_Forall [Hd Hb]%Forall_neither Hf.
  unfold login_after_branch, login_invoked, dashboard_attempted, database_attempted in *.
  rewrite trace_bind, !existsb_app, Hl, Hd, Hb. simpl.
  destruct (outcome_of m) as [a| |]; [by apply Hf|done..].
Qed.

Lemma login_after_branch_try_catch {A} flag (m : prog A) (h : jserror → prog A) :
  login_after_branch flag (trace m) →
  (∀ e, Forall not_login (trace (h e))) → (∀ e, Forall neither (trace (h e))) →
  login_after_branch flag (trace (try_catch m h)).
Proof.
  intros Hm Hl Hn.
  unfold login_after_branch, login_invoked, dashboard_attempted, database_attempted in *.
  rewrite trace_try_catch, !existsb_app.
  destruct (outcome_of m) as [|e|]; simpl; rewrite ?orb_false_r; try done.
  specialize (Hl e). specialize (Hn e).
  apply existsb_false_Forall in Hl. apply Forall_neither in Hn as [Hd Hb].
  unfold dashboard_attempted, database_attempted in *.
  by rewrite Hl, Hd, Hb, !orb_false_r.
Qed.

(** A run of [bot.js] that logs in has attempted exactly one of the
    two, the one that the flag of its client selects. *)
Lemma bot_js_login_after_branch w c :
  value_of (BotJs.resolve_BotClient w) = Some (Callable (Constructs c)) →
  login_after_branch (cl_dashboard_enabled c) (trace (BotJs.script w)).
Proof.
  intros HB. unfold BotJs.script.
  do 3 (apply login_after_branch_bind; [by events|by events|intros ? _]).
  apply login_after_branch_bind; [by events|by events|intros B HB'].
  unfold value_of in HB. rewrite HB' in HB. injection HB as ->.
  apply login_after_branch_bind; [by events|by events|intros ? _].
  unfold BotJs.main.
  do 2 (apply login_after_branch_bind; [by events|by events|intros ? _]).
  apply login_after_branch_bind; [by events|by events|intros c' Hc'].
  injection Hc' as <-.
  do 4 (apply login_after_branch_bind; [by events|by events|intros ? _]).
  unfold BotJs.startup_flow.
  apply login_after_branch_try_catch; [|intros ?; by events..].
  apply login_after_branch_bind; [by events|by events|intros ? _].
  lazymatch goal with
  | |- login_after_branch _ (trace (BotJs.dashboard_or_database _ _ ?im ≫= _)) =>
      destruct (bot_js_branch w c im) as [Hd Hb]
  end.
  assert (Hlogin : Forall neither (trace (BotJs.login w c))).
  { unfold BotJs.login. by events. }
  apply Forall_neither in Hlogin as [Hd' Hb'].
  lazymatch goal with
  | |- login_after_branch _ (trace (?m ≫= _)) =>
      assert (Hl : existsb is_login (trace m) = false)
        by (apply existsb_false_Forall; by events)
  end.
  unfold login_after_branch, login_invoked, dashboard_attempted, database_attempted in *.
  rewrite trace_bind, !existsb_app, Hd, Hb, Hl.
  destruct (outcome_of (BotJs.dashboard_or_database _ _ _)); [|done..].
  intros _. by rewrite Hd', Hb', !orb_false_r.
Qed.

(** C7, as the scripts have it.  In [bot.js] the launch of the dashboard
    and the initialisation of the database are the two branches of one
    step: the step attempts exactly one of them, the dashboard when the
    flag of the client's configuration is set and the database when it
    is not; no run attempts both, and a run that logs in has attempted
    exactly the one that the flag selects.  In [part_000] they are two
    separate steps that do not look at the flag: a run that finds a
    client class attempts the initialisation of the database exactly when
    it has found an initialiser, and a run that constructs the client
    attempts to launch the dashboard. *)
Theorem dashboard_and_database :
  (∀ w c initializeMongoose,
     dashboard_attempted (trace (BotJs.dashboard_or_database w c initializeMongoose))
       = cl_dashboard_enabled c ∧
     database_attempted (trace (BotJs.dashboard_or_database w c initializeMongoose))
       = negb (cl_dashboard_enabled c)) ∧
  (∀ w, exclusive (trace (run bot_js w))) ∧
  (∀ w c,
     value_of (BotJs.resolve_BotClient w) = Some (Callable (Constructs c)) →
     login_invoked (trace (run bot_js w)) = true →
     dashboard_attempted (trace (run bot_js w)) = cl_dashboard_enabled c ∧
     database_attempted (trace (run bot_js w)) = negb (cl_dashboard_enabled c)) ∧
  (∀ w BotClient initializeMongoose,
     value_of (Part000.resolve_BotClient w) = Some BotClient →
     value_of (Part000.resolve_initializeMongoose w) = Some initializeMongoose →
     database_attempted (trace (run part_000 w)) = is_function initializeMongoose) ∧
  (∀ w c,
     value_of (Part000.resolve_BotClient w) = Some (Callable (Constructs c)) →
     dashboard_attempted (trace (run part_000 w)) = true).
Proof.
  split_and!.
  - apply bot_js_branch.
  - apply bot_js_exclusive.
  - intros w c HB. apply (bot_js_login_after_branch w c HB).
  - intros w B im HB Him. change (run part_000 w) with (Part000.script w).
    destruct (part_000_reaches_validation w B HB)
      as (cfu & im' & vc & _ & Him' & _ & Hext).
    rewrite Him in Him'. injection Him' as <-.
    unfold database_attempted.
    rewrite (existsb_extends is_database _ _ _ before_validation_not_database Hext).
    destruct (existsb_bind is_database (Part000.validate_step vc)
      (λ _, Part000.update_step cfu;; Part000.mongoose_step im;;
            client ← new "BotClient" B; Part000.after_construction w client))
      as (? & _ & ->); [by ends|].
    destruct (existsb_bind is_database (Part000.update_step cfu)
      (λ _, Part000.mongoose_step im;;
            client ← new "BotClient" B; Part000.after_construction w client))
      as (? & _ & ->); [by ends|].
    destruct (existsb_bind is_database (Part000.mongoose_step im)
      (λ _, client ← new "BotClient" B; Part000.after_construction w client))
      as (? & _ & ->); [by ends|].
    fold (database_attempted (trace (Part000.mongoose_step im))).
    rewrite mongoose_step_attempts.
    replace (existsb is_database (trace (Part000.validate_step vc))) with false
      by (symmetry; apply existsb_false_Forall; by events).
    replace (existsb is_database (trace (Part000.update_step cfu))) with false
      by (symmetry; apply existsb_false_Forall; by events).
    replace (existsb is_database
      (trace (client ← new "BotClient" B; Part000.after_construction w client)))
      with false; [by rewrite orb_false_r|].
    symmetry. apply existsb_false_Forall. unfold Part000.login. by events.
  - intros w c HB. change (run part_000 w) with (Part000.script w).
    destruct (part_000_reaches_construction w _ HB) as (pre & _ & E & _).
    rewrite new_constructs in E. cbn [trace] in E.
    unfold dashboard_attempted. rewrite E, existsb_app. apply orb_true_iff. right.
    cbn [existsb]. apply orb_true_iff. right.
    pose proof (part_000_reaches_dashboard w c) as Hext.
    destruct Hext as (pre' & _ & -> & _). rewrite existsb_app.
    apply orb_true_iff. right.
    rewrite trace_bind, existsb_app. apply orb_true_iff. left.
    rewrite trace_try_catch, trace_bind, !existsb_app. apply orb_true_iff. left.
    apply orb_true_iff. left. apply tryLaunchDashboard_attempts.
Qed.

Lemma dashboard_and_database_witness :
  (dashboard_attempted (trace (run bot_js world_dashboard_enabled)) = true ∧
   database_attempted (trace (run bot_js world_dashboard_enabled)) = false) ∧
  database_attempted (trace (run part_000 world_dashboard_enabled)) = true ∧
  dashboard_attempted (trace (run part_000 world_dashboard_enabled)) = true.
Proof.
  destruct dashboard_and_database as (_ & _ & Hbot & Hdb & Hdash).
  split; [|split].
  - exact (Hbot world_dashboard_enabled dashboard_client eq_refl eq_refl).
  - exact (Hdb world_dashboard_enabled (Callable (Constructs dashboard_client))
             (Callable (Returns false)) eq_refl eq_refl).
  - exact (Hdash world_dashboard_enabled dashboard_client eq_refl).
Defined.

(** The claim C7 fails on runs that stop early or find no initialiser:
    a run of [bot.js] that ends in the validation attempts neither the
    dashboard nor the database, and a run of [part_000] that constructs
    its client but has found no initialiser does not attempt the
    database. *)
Lemma neither_dashboard_nor_database :
  dashboard_attempted (trace (run bot_js world_invalid_configuration)) = false ∧
  database_attempted (trace (run bot_js world_invalid_configuration)) = false ∧
  value_of (Part000.resolve_BotClient world_without_token) =
    Some (Callable (Constructs plain_client)) ∧
  database_attempted (trace (run part_000 world_without_token)) = false.
Proof. by vm_compute. Qed.

(** ** No exception once the listener is installed *)

Lemma never_throws_bind {A B} (m : prog A) (f : A → prog B) :
  Forall (λ ev, is_process_on UnhandledRejection ev = false) (trace m) →
  (∀ a, listens UnhandledRejection (trace (f a)) = true →
        may_end (λ x, x ≠ EThrow) (f a)) →
  listens UnhandledRejection (trace (m ≫= f)) = true →
  may_end (λ x, x ≠ EThrow) (m ≫= f).
Proof.
  intros Hm%existsb_false_Forall Hf. unfold may_end, ending_of.
  rewrite trace_bind, outcome_bind, listens_app. unfold listens at 1. rewrite Hm. simpl.
  destruct (outcome_of m) as [a| |]; [apply Hf|done..].
Qed.

(** The branch of [process_status] for an exception under an installed
    listener is never taken: in both scripts everything that follows the
    installation is inside a [try]. *)
Lemma no_exception_after_listener (v : variant) (w : world) (e : jserror) :
  listens UnhandledRejection (trace (run v w)) = true →
  outcome_of (run v w) ≠ Thrown e.
Proof.
  intros Hl. assert (H : may_end (λ x, x ≠ EThrow) (run v w)).
  { revert Hl. destruct v; simpl run.
    - unfold BotJs.script, BotJs.main.
      do 11 (apply never_throws_bind; [by events|intros ?]).
      intros _. unfold BotJs.login. by ends.
    - unfold Part000.script, Part000.main.
      do 11 (apply never_throws_bind; [by events|intros ?]).
      intros _. unfold Part000.login. by ends. }
  unfold may_end, ending_of in H. intros E. by rewrite E in H.
Qed.

(** * Further properties of the two scripts *)

(** ** The status a run can end with *)

Lemma run_exits_with_one (v : variant) (w : world) :
  may_end (λ x, ∀ c, x = EExit c → c = 1%Z) (run v w).
Proof.
  destruct v; simpl run.
  - unfold BotJs.script, BotJs.main, BotJs.login. by ends.
  - unfold Part000.script, Part000.main, Part000.login. by ends.
Qed.

(** X1.  [process.exit] is only ever called with status 1, and an
    exception leaves the asynchronous function only while no listener
    for unhandled rejections is installed, which is the other way a run
    can give the process the status 1.  Whatever the modules, the client
    and the file system do, a run of either script ends in one of three
    ways: the function completes, [process.exit(1)], or such an
    exception; no run gives the process another non-zero status. *)
Theorem process_exit_only_with_status_one (v : variant) (w : world) :
  match outcome_of (run v w) with
  | Done _ => True
  | Exited c => c = 1%Z
  | Thrown e => listens UnhandledRejection (trace (run v w)) = false
  end.
Proof.
  pose proof (run_exits_with_one v w) as H. unfold may_end, ending_of in H.
  destruct (outcome_of (run v w)) as [|e|c] eqn:E; [done| |by apply H].
  destruct (listens UnhandledRejection (trace (run v w))) eqn:Hl; [|done].
  by destruct (no_exception_after_listener v w e Hl).
Qed.

(** ** A client that cannot be constructed *)

Lemma extends_Forall {A} (φ ψ : event → Prop) (r r' : prog A) :
  extends φ r r' → (∀ ev, φ ev → ψ ev) → Forall ψ (trace r') → Forall ψ (trace r).
Proof.
  intros (pre & Hpre & E & _) Himp Hr'. rewrite E. apply Forall_app. split; [|done].
  eapply Forall_impl; eauto.
Qed.

Lemma extends_may_end {A} (φ : event → Prop) (S : ending → Prop) (r r' : prog A) :
  extends φ r r' → may_end S r' → may_end S r.
Proof. intros (pre & _ & _ & O). unfold may_end, ending_of. by rewrite O. Qed.

Ltac silent_leaf := split; [done|by intros []].

Lemma before_construction_silent ev : before_construction ev → silent ev.
Proof. destruct ev as [| | | |[]| | | | |]; try done; by split; [|intros []]. Qed.

Lemma before_validation_silent ev : before_validation ev → silent ev.
Proof. destruct ev; try done; by split; [|intros []]. Qed.

Lemma Forall_silent t :
  Forall silent t →
  login_invoked t = false ∧ ∀ s, listens s t = false.
Proof.
  intros H. split; [|intros s]; apply existsb_false_Forall;
    eapply Forall_impl; try done; intros ? [? ?]; auto.
Qed.

(** A run that installs no listener and does not complete ends the
    process with status 1, provided it exits with no other status. *)
Lemma silent_run_is_fatal (r : prog unit) :
  Forall silent (trace r) → may_end (λ x, x = EThrow ∨ x = EExit 1) r →
  process_status r = Terminated 1 ∧ login_invoked (trace r) = false ∧
  listens UnhandledRejection (trace r) = false ∧
  listens UncaughtException (trace r) = false.
Proof.
  intros [Hl Hs]%Forall_silent He. split; [|by auto].
  unfold process_status. rewrite Hs. unfold may_end, ending_of in He.
  destruct (outcome_of r); by destruct He; simplify_eq.
Qed.

Lemma new_fails {B} (s : slot construction) (f : client → prog B) :
  (∀ c, s ≠ Callable (Constructs c)) →
  Forall silent (trace (new "BotClient" s ≫= f)) ∧
  may_end (λ x, x = EThrow) (new "BotClient" s ≫= f).
Proof.
  intros Hs. destruct s as [| |[c|e]]; [| |by destruct (Hs c)|];
    (split; [run_prog; repeat constructor; by intros []|done]).
Qed.

(** X2.  In both scripts [new BotClient()] stands outside every [try]:
    when the class the script has ended up with is not a constructor or
    its constructor throws, the exception leaves the asynchronous
    function before any listener is installed.  The process ends with
    status 1 and [client.login] is never invoked. *)
Theorem failed_construction_is_fatal (v : variant) (w : world) (s : slot construction) :
  client_class v w = Some s →
  (∀ c, s ≠ Callable (Constructs c)) →
  process_status (run v w) = Terminated 1 ∧
  login_invoked (trace (run v w)) = false ∧
  listens UnhandledRejection (trace (run v w)) = false ∧
  listens UncaughtException (trace (run v w)) = false.
Proof.
  intros Hc Hs. apply silent_run_is_fatal; destruct v; unfold client_class in Hc; simpl run.
  - destruct (bot_js_reaches_main w) as (cfu & im & B & vc & _ & _ & HB & _ & Hext).
    rewrite Hc in HB. simplify_eq.
    eapply extends_Forall; [exact Hext|apply before_validation_silent|].
    unfold BotJs.main.
    apply Forall_trace_bind; [by events; silent_leaf|intros ?].
    apply Forall_trace_bind; [by events; silent_leaf|intros ?].
    by apply new_fails.
  - eapply extends_Forall;
      [exact (part_000_reaches_construction w s Hc)|apply before_construction_silent|].
    by apply new_fails.
  - destruct (bot_js_reaches_main w) as (cfu & im & B & vc & _ & _ & HB & _ & Hext).
    rewrite Hc in HB. simplify_eq.
    eapply extends_may_end; [exact Hext|]. unfold BotJs.main.
    apply may_end_bind; [by ends|intros ?].
    apply may_end_bind; [by ends|intros ?].
    eapply may_end_weaken; [by apply new_fails|naive_solver].
  - eapply extends_may_end; [exact (part_000_reaches_construction w s Hc)|].
    eapply may_end_weaken; [by apply new_fails|naive_solver].
Qed.

Lemma failed_construction_is_fatal_witness :
  (client_class bot_js world_without_client_class = Some Absent ∧
   process_status (run bot_js world_without_client_class) = Terminated 1) ∧
  (client_class part_000 world_without_client_class =
     Some (Callable (ConstructorThrows
       (TypeError "Cannot read properties of undefined (reading 'FLAGS')"))) ∧
   process_status (run part_000 world_without_client_class) = Terminated 1).
Proof.
  split; (split; [reflexivity|]).
  - eapply (failed_construction_is_fatal bot_js); [reflexivity|discriminate].
  - eapply (failed_construction_is_fatal part_000); [reflexivity|discriminate].
Defined.

(** ** What [client.login] is called with *)

Lemma logins_app t1 t2 : logins (t1 ++ t2) = logins t1 ++ logins t2.
Proof. apply filter_app. Qed.

Lemma logins_none t : Forall not_login t → logins t = [].
Proof.
  induction 1 as [|ev t Hev _ IH]; [done|]. unfold logins in *.
  rewrite filter_cons_False; [done|]. by apply Is_true_false_2.
Qed.

Lemma logs_in_with_bind {A B} tok (m : prog A) (f : A → prog B) :
  Forall not_login (trace m) →
  (∀ a, logs_in_with tok (trace (f a))) →
  logs_in_with tok (trace (m ≫= f)).
Proof.
  intros Hm%logins_none Hf. unfold logs_in_with in *.
  rewrite trace_bind, logins_app, Hm. simpl.
  destruct (outcome_of m); [apply Hf|by left..].
Qed.

Lemma logs_in_with_try_catch {A} tok (m : prog A) (h : jserror → prog A) :
  logs_in_with tok (trace m) →
  (∀ e, Forall not_login (trace (h e))) →
  logs_in_with tok (trace (try_catch m h)).
Proof.
  intros Hm Hh. unfold logs_in_with in *. rewrite trace_try_catch, logins_app.
  destruct (outcome_of m) as [|e|]; rewrite ?(logins_none _ (Hh _)), ?app_nil_r; done.
Qed.

Lemma trace_emit_bind {B} ev (m : prog B) : trace (emit ev;; m) = ev :: trace m.
Proof. done. Qed.

Lemma logins_cons_login tok t : logins (EvLogin tok :: t) = EvLogin tok :: logins t.
Proof. done. Qed.

Lemma truthy_Some (o : option string) :
  truthy o = true → ∃ s, o = Some s ∧ s ≠ "".
Proof.
  destruct o as [s|]; [|done]. simpl. intros H. exists s. split; [done|].
  intros ->. done.
Qed.

Lemma bot_js_login_logs_in_with w c :
  logs_in_with (getenv w "BOT_TOKEN") (trace (BotJs.login w c)).
Proof.
  destruct (truthy (getenv w "BOT_TOKEN")) eqn:Ht.
  - unfold BotJs.login. cbv zeta. rewrite Ht.
    apply truthy_Some in Ht as (s & -> & Hs).
    apply logs_in_with_bind; [by events|intros _].
    destruct (cl_login c) as [| |f]; [by left..|]. right. exists s. split_and!; [done..|].
    change (default "" (Some s)) with s.
    rewrite trace_bind, logins_app, trace_emit_bind, logins_cons_login.
    rewrite (logins_none (trace (perform (f s);; mret ()))) by events.
    rewrite (logins_none (match outcome_of _ with Done _ => _ | _ => [] end)); [done|].
    destruct (outcome_of _); by events.
  - left. apply logins_none. apply (bot_js_login_without_token w c Ht).
Qed.

Lemma part_000_login_logs_in_with w c :
  logs_in_with (or_else (getenv w "BOT_TOKEN") (getenv w "TOKEN"))
    (trace (Part000.login w c)).
Proof.
  destruct (truthy (or_else (getenv w "BOT_TOKEN") (getenv w "TOKEN"))) eqn:Ht.
  - unfold Part000.login. cbv zeta. rewrite Ht.
    apply truthy_Some in Ht as (s & -> & Hs).
    apply logs_in_with_bind; [by events|intros _].
    apply logs_in_with_try_catch; [|intros ?; by events].
    destruct (cl_login c) as [| |f]; [by left..|]. right. exists s. split_and!; [done..|].
    change (default "" (Some s)) with s.
    rewrite trace_emit_bind, logins_cons_login.
    by rewrite (logins_none (trace (_ ;; _))) by (by events).
  - left. apply logins_none. apply (part_000_login_without_token w c Ht).
Qed.

Lemma run_logs_in_with (v : variant) (w : world) :
  logs_in_with (bot_token v w) (trace (run v w)).
Proof.
  destruct v; simpl run; simpl bot_token.
  - unfold BotJs.script, BotJs.main.
    do 11 (apply logs_in_with_bind; [by events|intros ?]).
    unfold BotJs.startup_flow.
    apply logs_in_with_try_catch; [|intros ?; by events].
    do 2 (apply logs_in_with_bind; [by events|intros ?]).
    apply bot_js_login_logs_in_with.
  - unfold Part000.script, Part000.main, Part000.after_construction.
    do 17 (apply logs_in_with_bind; [by events|intros ?]).
    apply part_000_login_logs_in_with.
Qed.

(** X3.  [client.login] is invoked at most once in a run, and only with
    the token of the environment, which is then not empty:
    [BOT_TOKEN] in [bot.js], [BOT_TOKEN || TOKEN] in [part_000]. *)
Theorem login_only_with_the_token (v : variant) (w : world) (tok : string) :
  EvLogin tok ∈ trace (run v w) →
  bot_token v w = Some tok ∧ tok ≠ "" ∧ logins (trace (run v w)) = [EvLogin tok].
Proof.
  intros Hin. assert (Hl : EvLogin tok ∈ logins (trace (run v w))).
  { unfold logins. by apply list_elem_of_filter. }
  destruct (run_logs_in_with v w) as [E|(s & Hs & Hne & E)]; rewrite E in Hl.
  - by apply elem_of_nil in Hl.
  - apply list_elem_of_singleton in Hl. simplify_eq. by rewrite E.
Qed.

Lemma login_only_with_the_token_witness :
  (bot_token bot_js world_with_token = Some "abc123" ∧
   logins (trace (run bot_js world_with_token)) = [EvLogin "abc123"]) ∧
  (bot_token part_000 world_with_discordjs = Some "abc123" ∧
   logins (trace (run part_000 world_with_discordjs)) = [EvLogin "abc123"]).
Proof.
  split.
  - destruct (login_only_with_the_token bot_js world_with_token "abc123") as (H & _ & H');
      [apply list_elem_of_In; vm_compute; tauto|by split].
  - destruct (login_only_with_the_token part_000 world_with_discordjs "abc123")
      as (H & _ & H'); [apply list_elem_of_In; vm_compute; tauto|by split].
Defined.

(** ** A process that stays alive *)

Lemma bind_done_inv {A B} (m : prog A) (f : A → prog B) b :
  outcome_of (m ≫= f) = Done b →
  ∃ a, outcome_of m = Done a ∧ outcome_of (f a) = Done b.
Proof. rewrite outcome_bind. destruct (outcome_of m) as [a| |]; [by exists a|done..]. Qed.

Lemma try_catch_done_inv {A} (m : prog A) (h : jserror → prog A) a :
  outcome_of (try_catch m h) = Done a →
  outcome_of m = Done a ∨ ∃ e, outcome_of m = Thrown e ∧ outcome_of (h e) = Done a.
Proof.
  rewrite outcome_try_catch. destruct (outcome_of m) as [|e|]; [by left| |done].
  right. by exists e.
Qed.

Lemma new_done name B c :
  outcome_of (new name B) = Done c → B = Callable (Constructs c).
Proof. destruct B as [| |[c'|e]]; [done..| |done]. cbn. by intros [= ->]. Qed.

Lemma perform_done b v : outcome_of (perform b) = Done v → b = Returns v.
Proof. destruct b; [|done]. cbn. by intros [= ->]. Qed.

(** A process is alive after the startup only when the asynchronous
    function has completed. *)
Lemma alive_is_done (v : variant) (w : world) :
  process_status (run v w) = Alive → outcome_of (run v w) = Done ().
Proof.
  unfold process_status. destruct (outcome_of (run v w)) as [[]|e|c] eqn:E; [done| |done].
  destruct (listens _ _) eqn:Hl; [|done].
  by destruct (no_exception_after_listener v w e Hl).
Qed.

Lemma login_invoked_logins t : login_invoked t = true → logins t ≠ [].
Proof.
  unfold login_invoked, logins. intros (ev & Hin & Hev)%existsb_exists.
  apply list_elem_of_In in Hin. intros E.
  assert (H : ev ∈ filter is_login t) by (apply list_elem_of_filter; split; [by rewrite Hev|done]).
  rewrite E in H. by apply elem_of_nil in H.
Qed.

(** A run that completes after a login has logged in once, with the
    token. *)
Lemma logins_of_login (v : variant) (w : world) tok :
  bot_token v w = Some tok → login_invoked (trace (run v w)) = true →
  logins (trace (run v w)) = [EvLogin tok].
Proof.
  intros Ht Hl%login_invoked_logins.
  destruct (run_logs_in_with v w) as [E|(s & Hs & _ & E)]; [done|].
  rewrite Ht in Hs. by simplify_eq.
Qed.

Lemma login_invoked_extends {A} (φ : event → Prop) (r r' : prog A) :
  extends φ r r' → login_invoked (trace r') = true → login_invoked (trace r) = true.
Proof.
  intros (pre & _ & E & _) H. rewrite E. unfold login_invoked in *.
  rewrite existsb_app, H. apply orb_true_r.
Qed.

Lemma ends_with_extends {A} (φ : event → Prop) ev (r r' : prog A) :
  extends φ r r' → ends_with ev r' → ends_with ev r.
Proof.
  intros (pre & _ & E & _). unfold ends_with. rewrite E.
  destruct (trace r') as [|x t] using rev_ind; [done|].
  by rewrite app_assoc, !last_snoc.
Qed.

(** [bot.js]: the login step completes only when the token is set and
    [client.login] is a function that returns. *)
Lemma bot_js_login_done w c :
  outcome_of (BotJs.login w c) = Done () →
  ∃ tok f b, getenv w "BOT_TOKEN" = Some tok ∧ tok ≠ "" ∧
    cl_login c = Callable f ∧ f tok = Returns b ∧
    login_invoked (trace (BotJs.login w c)) = true.
Proof.
  intros Hd. destruct (truthy (getenv w "BOT_TOKEN")) eqn:Ht.
  - revert Hd. unfold BotJs.login. cbv zeta. rewrite Ht.
    apply truthy_Some in Ht as (tok & -> & Hne).
    change (default "" (Some tok)) with tok.
    destruct (cl_login c) as [| |f]; [done..|].
    destruct (f tok) as [b|e] eqn:Hf; [|done]. intros _.
    exists tok, f, b. by rewrite Hf.
  - destruct (bot_js_login_without_token w c Ht) as [He _].
    unfold may_end, ending_of in He. rewrite Hd in He. by destruct He.
Qed.

Lemma completes_logged_in_bind {A B} (m : prog A) (f : A → prog B) :
  (∀ a, completes_logged_in (f a)) → completes_logged_in (m ≫= f).
Proof.
  intros Hf b Hd. apply bind_done_inv in Hd as (a & Hm & Hd).
  pose proof (Hf a b Hd) as H. unfold login_invoked in *.
  rewrite trace_bind, Hm, existsb_app, H. apply orb_true_r.
Qed.

Lemma completes_logged_in_try_catch {A} (m : prog A) (h : jserror → prog A) :
  completes_logged_in m → (∀ e, completes_logged_in (h e)) →
  completes_logged_in (try_catch m h).
Proof.
  intros Hm Hh a Hd. apply try_catch_done_inv in Hd as [Hd|(e & He & Hd)].
  - pose proof (Hm a Hd) as H. unfold login_invoked in *.
    by rewrite trace_try_catch, existsb_app, H.
  - pose proof (Hh e a Hd) as H. unfold login_invoked in *.
    rewrite trace_try_catch, existsb_app, He, H. apply orb_true_r.
Qed.

Lemma completes_logged_in_exit {A} c : completes_logged_in (exit c : prog A).
Proof. by intros a. Qed.

Lemma bot_js_completes_logged_in w : completes_logged_in (run bot_js w).
Proof.
  simpl run. unfold BotJs.script, BotJs.main.
  do 11 (apply completes_logged_in_bind; intros ?).
  unfold BotJs.startup_flow. apply completes_logged_in_try_catch.
  - do 2 (apply completes_logged_in_bind; intros ?).
    intros [] Hd. by apply bot_js_login_done in Hd as (? & ? & ? & ? & ? & ? & ? & ?).
  - intros e. apply completes_logged_in_bind; intros ?. apply completes_logged_in_exit.
Qed.

(** X4.  [bot.js] leaves the process alive only after a successful
    login: the asynchronous function has completed, the client was
    constructed, [BOT_TOKEN] is set and not empty, and [client.login] is
    a function that was called once, with that token, and returned. *)
Theorem bot_js_alive_means_logged_in (w : world) :
  process_status (run bot_js w) = Alive →
  outcome_of (run bot_js w) = Done () ∧
  ∃ c f tok b,
    client_class bot_js w = Some (Callable (Constructs c)) ∧
    getenv w "BOT_TOKEN" = Some tok ∧ tok ≠ "" ∧
    cl_login c = Callable f ∧ f tok = Returns b ∧
    logins (trace (run bot_js w)) = [EvLogin tok].
Proof.
  intros Ha. pose proof (alive_is_done bot_js w Ha) as Hd. split; [done|].
  pose proof (bot_js_completes_logged_in w () Hd) as Hlog.
  destruct (bot_js_reaches_main w) as (cfu & im & B & vc & _ & _ & HB & _ & Hext).
  pose proof Hext as (pre & _ & _ & Ho).
  simpl run in Hd. rewrite Ho in Hd. unfold BotJs.main in Hd.
  do 2 (apply bind_done_inv in Hd as (? & _ & Hd)).
  apply bind_done_inv in Hd as (c & Hnew & Hd). apply new_done in Hnew as ->.
  do 4 (apply bind_done_inv in Hd as (? & _ & Hd)).
  unfold BotJs.startup_flow in Hd.
  apply try_catch_done_inv in Hd as [Hd|(e & _ & Hd)].
  2: { apply bind_done_inv in Hd as (? & _ & Hd). done. }
  do 2 (apply bind_done_inv in Hd as (? & _ & Hd)).
  apply bot_js_login_done in Hd as (tok & f & b & Ht & Hne & Hf & Hb & _).
  exists c, f, tok, b. split_and!; [done..|].
  by apply (logins_of_login bot_js).
Qed.

Lemma bot_js_alive_means_logged_in_witness :
  process_status (run bot_js world_with_token) = Alive ∧
  outcome_of (run bot_js world_with_token) = Done () ∧
  logins (trace (run bot_js world_with_token)) = [EvLogin "abc123"].
Proof.
  split; [reflexivity|].
  destruct (bot_js_alive_means_logged_in world_with_token eq_refl)
    as (Hd & c & f & tok & b & _ & Ht & _ & _ & _ & Hl).
  split; [exact Hd|]. vm_compute in Ht. by simplify_eq.
Defined.

Lemma extends_new {B} (φ : event → Prop) name c (f : client → prog B) :
  φ EvNew → extends φ (client ← new name (Callable (Constructs c)); f client) (f c).
Proof. intros H. exists [EvNew]. by split; [repeat constructor|]. Qed.

(** [part_000], once its client is constructed, gets to the login step
    without having logged in. *)
Lemma part_000_script_reaches_login w c :
  value_of (Part000.resolve_BotClient w) = Some (Callable (Constructs c)) →
  extends not_login (Part000.script w) (Part000.login w c).
Proof.
  intros HB. eapply extends_trans.
  { eapply extends_weaken; [apply before_construction_not_login|].
    by apply part_000_reaches_construction. }
  eapply extends_trans; [by apply extends_new|]. apply part_000_reaches_login.
Qed.

Lemma logins_extends {A} (r r' : prog A) :
  extends not_login r r' → logins (trace r) = logins (trace r').
Proof. intros (pre & Hpre & E & _). by rewrite E, logins_app, (logins_none pre). Qed.

(** [part_000]: the login step completes only when a token is set, and
    then either [client.login] was called and returned or it is not a
    function. *)
Lemma part_000_login_done w c :
  outcome_of (Part000.login w c) = Done () →
  ∃ tok, or_else (getenv w "BOT_TOKEN") (getenv w "TOKEN") = Some tok ∧ tok ≠ "" ∧
    match cl_login c with
    | Callable f =>
        (∃ b, f tok = Returns b) ∧
        logins (trace (Part000.login w c)) = [EvLogin tok] ∧
        ends_with (EvConsole CLog [Str "[INFO]"; Str "Bot logged in successfully."])
          (Part000.login w c)
    | _ =>
        logins (trace (Part000.login w c)) = [] ∧
        ends_with
          (EvConsole CError
             [Str "[ERROR]";
              Str "client.login is not a function. Ensure your BotClient extends discord.js Client or provides login(token)."])
          (Part000.login w c)
    end.
Proof.
  intros Hd. destruct (truthy (or_else (getenv w "BOT_TOKEN") (getenv w "TOKEN"))) eqn:Ht.
  - revert Hd. unfold Part000.login. cbv zeta. rewrite Ht.
    apply truthy_Some in Ht as (tok & -> & Hne).
    change (default "" (Some tok)) with tok. intros Hd. exists tok.
    split_and!; [done..|].
    destruct (cl_login c) as [| |f]; [done..|].
    destruct (f tok) as [b|e] eqn:Hf; [|done]. split; [by exists b|]. by split.
  - destruct (part_000_login_without_token w c Ht) as [He _]. by rewrite Hd in He.
Qed.

(** X5.  [part_000] leaves the process alive in two cases only.  In both
    the asynchronous function has completed, the client was constructed
    and a token is set.  Either [client.login] is a function, it was
    called once with the token and returned, and the last thing the
    script did is log the success; or [client.login] is not a function,
    nothing was called, and the last thing the script did is log that
    error. *)
Theorem part_000_alive_means_login_attempted (w : world) :
  process_status (run part_000 w) = Alive →
  outcome_of (run part_000 w) = Done () ∧
  ∃ c tok,
    client_class part_000 w = Some (Callable (Constructs c)) ∧
    bot_token part_000 w = Some tok ∧ tok ≠ "" ∧
    match cl_login c with
    | Callable f =>
        (∃ b, f tok = Returns b) ∧
        logins (trace (run part_000 w)) = [EvLogin tok] ∧
        ends_with (EvConsole CLog [Str "[INFO]"; Str "Bot logged in successfully."])
          (run part_000 w)
    | _ =>
        logins (trace (run part_000 w)) = [] ∧
        ends_with
          (EvConsole CError
             [Str "[ERROR]";
              Str "client.login is not a function. Ensure your BotClient extends discord.js Client or provides login(token)."])
          (run part_000 w)
    end.
Proof.
  intros Ha. pose proof (alive_is_done part_000 w Ha) as Hd. split; [done|].
  simpl run in *.
  assert (∃ B, value_of (Part000.resolve_BotClient w) = Some B) as [B HB].
  { revert Hd. unfold Part000.script, Part000.main. intros Hd.
    do 6 (apply bind_done_inv in Hd as (? & _ & Hd)).
    apply bind_done_inv in Hd as (B & HB & _). exists B. unfold value_of. by rewrite HB. }
  pose proof (part_000_reaches_construction w B HB) as (pre & _ & _ & Ho).
  rewrite Ho in Hd. apply bind_done_inv in Hd as (c & Hnew & _).
  apply new_done in Hnew as ->.
  pose proof (part_000_script_reaches_login w c HB) as Hext.
  pose proof Hext as (pre' & _ & _ & Ho').
  rewrite Ho in Ho'. 
  assert (Hlogin : outcome_of (Part000.login w c) = Done ()).
  { rewrite <- Ho', <- Ho. by apply (alive_is_done part_000). }
  apply part_000_login_done in Hlogin as (tok & Ht & Hne & Hc).
  exists c, tok. split_and!; [done..|].
  rewrite (logins_extends _ _ Hext).
  destruct (cl_login c) as [| |f].
  - destruct Hc as [Hl He]. split; [done|]. by eapply ends_with_extends.
  - destruct Hc as [Hl He]. split; [done|]. by eapply ends_with_extends.
  - destruct Hc as (Hb & Hl & He). split_and!; [done..|]. by eapply ends_with_extends.
Qed.

Lemma part_000_alive_means_login_attempted_witness :
  (process_status (run part_000 world_with_discordjs) = Alive ∧
   logins (trace (run part_000 world_with_discordjs)) = [EvLogin "abc123"]) ∧
  (process_status (run part_000 world_without_login) = Alive ∧
   logins (trace (run part_000 world_without_login)) = []).
Proof.
  split; (split; [reflexivity|]).
  - destruct (part_000_alive_means_login_attempted world_with_discordjs eq_refl)
      as (_ & c & tok & Hc & Ht & _ & H).
    vm_compute in Hc. vm_compute in Ht. simplify_eq. by destruct H as (_ & H & _).
  - destruct (part_000_alive_means_login_attempted world_without_login eq_refl)
      as (_ & c & tok & Hc & _ & _ & H).
    vm_compute in Hc. simplify_eq. by destruct H as (H & _).
Defined.

(** ** [bot.js]: loaders that fail *)

Lemma calls_app t1 t2 : calls (t1 ++ t2) = calls t1 ++ calls t2.
Proof. apply omap_app. Qed.

Lemma logger_call_returns c m args :
  logger_method_returns c m = true →
  outcome_of (logger_call c m args) = Done () ∧ calls (trace (logger_call c m args)) = [].
Proof.
  unfold logger_method_returns, logger_call.
  destruct (cl_logger c) as [lg|]; [|done].
  by destruct (logger_slot lg m) as [| |[|]].
Qed.

(** One guarded loader of [bot.js]: it is called when it is a function,
    and its failure is handed to the logger. *)
Lemma load_with_returns c what m msg :
  logger_method_returns c LError = true →
  outcome_of (BotJs.load_with c what m msg) = Done () ∧
  calls (trace (BotJs.load_with c what m msg)) = (if is_function m then [what] else []).
Proof.
  intros Hl. unfold BotJs.load_with. destruct m as [| |[v|e]]; [done..|].
  destruct (logger_call_returns c LError [Str msg; ErrArg e] Hl) as [Ho Hc].
  cbn [is_function]. rewrite outcome_try_catch, trace_try_catch, calls_app.
  change (outcome_of (call what "client method" (Callable (Throws e));; mret ()))
    with (@Thrown () e).
  change (trace (call what "client method" (Callable (Throws e));; mret ()))
    with [EvCall what].
  cbv beta iota. by rewrite Ho, Hc.
Qed.

Lemma trace_bind_done {A B} (m : prog A) (f : A → prog B) a :
  outcome_of m = Done a → trace (m ≫= f) = trace m ++ trace (f a).
Proof. intros H. by rewrite trace_bind, H. Qed.

Lemma outcome_bind_done {A B} (m : prog A) (f : A → prog B) a :
  outcome_of m = Done a → outcome_of (m ≫= f) = outcome_of (f a).
Proof. intros H. by rewrite outcome_bind, H. Qed.

(** X6.  In [bot.js] a loader that throws does not stop the startup.
    With a validator that returns and a logger whose [error] does not
    throw, every run of the function calls the validator, constructs the
    client, calls each of [loadCommands], [loadCommandTests] and
    [loadEvents] that is a function, once and in that order, installs
    the listener and enters the startup flow, whether the loaders return
    or throw.  (The loaders are called without [await]: what the [catch]
    sees is what the call itself throws.) *)
Theorem bot_js_loader_failures_are_not_fatal
    (w : world) (cfu im : slot behaviour) (c : client) (b : bool) :
  logger_method_returns c LError = true →
  ∃ pre,
    trace (BotJs.main w cfu im (Callable (Constructs c)) (Callable (Returns b))) =
      pre ++ EvProcessOn UnhandledRejection :: trace (BotJs.startup_flow w c cfu im) ∧
    outcome_of (BotJs.main w cfu im (Callable (Constructs c)) (Callable (Returns b))) =
      outcome_of (BotJs.startup_flow w c cfu im) ∧
    calls pre = ValidateConfiguration :: loaders c ∧
    Forall silent pre.
Proof.
  intros Hl.
  destruct (load_with_returns c LoadCommands (cl_loadCommands c)
              "Failed to load commands:" Hl) as [O1 C1].
  destruct (load_with_returns c LoadCommandTests (cl_loadCommandTests c)
              "Failed to load command tests:" Hl) as [O2 C2].
  destruct (load_with_returns c LoadEvents (cl_loadEvents c)
              "Failed to load events:" Hl) as [O3 C3].
  exists (trace (BotJs.printStartupBanner w) ++ [EvCall ValidateConfiguration; EvNew] ++
          trace (BotJs.load_with c LoadCommands (cl_loadCommands c)
                   "Failed to load commands:") ++
          trace (BotJs.load_with c LoadCommandTests (cl_loadCommandTests c)
                   "Failed to load command tests:") ++
          trace (BotJs.load_with c LoadEvents (cl_loadEvents c) "Failed to load events:")).
  assert (Ob : outcome_of (BotJs.printStartupBanner w) = Done ()) by done.
  assert (Ov : ∀ h, outcome_of (try_catch
    (call ValidateConfiguration "validateConfiguration" (Callable (Returns b));; mret ()) h)
    = Done ()) by done.
  unfold BotJs.main. split_and!.
  - rewrite (trace_bind_done _ _ _ Ob), (trace_bind_done _ _ _ (Ov _)), new_constructs.
    cbn [trace]. rewrite (trace_bind_done _ _ _ O1), (trace_bind_done _ _ _ O2),
      (trace_bind_done _ _ _ O3). by rewrite <- !app_assoc.
  - rewrite (outcome_bind_done _ _ _ Ob), (outcome_bind_done _ _ _ (Ov _)), new_constructs.
    cbn [outcome_of]. by rewrite (outcome_bind_done _ _ _ O1), (outcome_bind_done _ _ _ O2),
      (outcome_bind_done _ _ _ O3).
  - rewrite !calls_app, C1, C2, C3. unfold BotJs.printStartupBanner. by cbn.
  - repeat (apply Forall_app; split); [by events; silent_leaf| |by events; silent_leaf..].
    repeat constructor; by intros [].
Qed.

Lemma bot_js_loader_failures_are_not_fatal_witness :
  loaders client_with_failing_loaders = [LoadCommands; LoadCommandTests; LoadEvents] ∧
  ∃ pre,
    trace (BotJs.main world_with_token noop noop
             (Callable (Constructs client_with_failing_loaders)) (Callable (Returns false))) =
      pre ++ EvProcessOn UnhandledRejection ::
        trace (BotJs.startup_flow world_with_token client_with_failing_loaders noop noop) ∧
    outcome_of (BotJs.main world_with_token noop noop
                  (Callable (Constructs client_with_failing_loaders))
                  (Callable (Returns false))) =
      outcome_of (BotJs.startup_flow world_with_token client_with_failing_loaders noop noop) ∧
    calls pre = ValidateConfiguration :: loaders client_with_failing_loaders ∧
    Forall silent pre.
Proof.
  split; [reflexivity|].
  apply (bot_js_loader_failures_are_not_fatal world_with_token noop noop
           client_with_failing_loaders false).
  reflexivity.
Defined.

(** X7.  The report of a failed loader is itself unguarded in [bot.js]:
    when a loader throws and [client.logger.error] throws in turn, the
    second exception leaves the asynchronous function before the
    listener is installed.  The process ends with status 1; no later
    loader is called and nothing of the startup flow is run. *)
Theorem bot_js_loader_failure_with_failing_logger
    (w : world) (cfu im : slot behaviour) (c : client) (b : bool) (e e' : jserror) :
  cl_loadCommands c = Callable (Throws e) →
  logger_error_function (Some c) = Some (Throws e') →
  outcome_of (BotJs.main w cfu im (Callable (Constructs c)) (Callable (Returns b))) =
    Thrown e' ∧
  process_status (BotJs.main w cfu im (Callable (Constructs c)) (Callable (Returns b))) =
    Terminated 1 ∧
  calls (trace (BotJs.main w cfu im (Callable (Constructs c)) (Callable (Returns b)))) =
    [ValidateConfiguration; LoadCommands] ∧
  ends_with (EvLogger LError [Str "Failed to load commands:"; ErrArg e])
    (BotJs.main w cfu im (Callable (Constructs c)) (Callable (Returns b))).
Proof.
  intros Hc Hl.
  assert (E : BotJs.main w cfu im (Callable (Constructs c)) (Callable (Returns b)) =
    Prog [EvConsole CLog [Str BotJs.STATIC_ASCII_BANNER]; EvCall ValidateConfiguration;
          EvNew; EvCall LoadCommands;
          EvLogger LError [Str "Failed to load commands:"; ErrArg e]]
         (Thrown e')).
  { destruct c as [d [[l1 l2 [| |[|]]]|] lc lt le re lo cm on]; by simplify_eq/=. }
  by rewrite E.
Qed.

Lemma bot_js_loader_failure_with_failing_logger_witness :
  process_status (BotJs.main world_with_token noop noop
                    (Callable (Constructs client_with_failing_logger))
                    (Callable (Returns false))) = Terminated 1.
Proof.
  eapply (bot_js_loader_failure_with_failing_logger world_with_token noop noop
            client_with_failing_logger false); reflexivity.
Defined.

(** ** [bot.js]: the startup flow *)

Lemma logger_returns_method c m : logger_returns c = true → logger_method_returns c m = true.
Proof.
  unfold logger_returns. intros [[H1 H2]%andb_true_iff H3]%andb_true_iff. by destruct m.
Qed.

Lemma logger_call_done c m args :
  logger_returns c = true → outcome_of (logger_call c m args) = Done ().
Proof. intros H. by apply logger_call_returns, logger_returns_method. Qed.

Ltac case_outcome :=
  match goal with
  | |- context [match outcome_of ?m with Done _ => _ | _ => _ end] =>
      destruct (outcome_of m)
  end.

Lemma trace_ret_bind {A B} (a : A) (f : A → prog B) : trace (mret a ≫= f) = trace (f a).
Proof. done. Qed.

Lemma bot_js_dashboard_or_database_done w c im :
  logger_returns c = true →
  outcome_of (BotJs.dashboard_or_database w c im) = Done ().
Proof.
  intros Hl.
  assert (H : may_end (λ x, x = ENormal) (BotJs.dashboard_or_database w c im)).
  { assert (Hlog : ∀ m args, may_end (λ x, x = ENormal) (logger_call c m args)).
    { intros m args. unfold may_end, ending_of. by rewrite logger_call_done. }
    unfold BotJs.dashboard_or_database, BotJs.launch_dashboard, BotJs.initialize_database.
    destruct (cl_dashboard_enabled c); cbv zeta.
    - apply may_end_try_catch; [|intros ?; apply Hlog].
      apply may_end_bind; [by ends|intros [| |x]].
      + eapply may_end_weaken; [apply Hlog|naive_solver].
      + eapply may_end_weaken; [apply Hlog|naive_solver].
      + destruct (is_function (ex_launch x)).
        * apply may_end_bind; [eapply may_end_weaken; [apply Hlog|naive_solver]|intros ?].
          by ends.
        * eapply may_end_weaken; [apply Hlog|naive_solver].
    - apply may_end_try_catch; [by ends|intros ?; apply Hlog]. }
  apply completes_value in H as [[] H]. done.
Qed.

(** X8.  In [bot.js] neither the dashboard nor the database can keep the
    bot from logging in.  With a logger whose methods do not throw, the
    step completes whatever the launcher or [initializeMongoose] does
    (missing, not a function, throwing); so with an update check that
    returns, a token and a [login] function, [client.login] is called,
    once and with the token. *)
Theorem bot_js_login_follows_dashboard_or_database
    (w : world) (c : client) (im : slot behaviour) (b : bool)
    (tok : string) (f : string → behaviour) :
  logger_returns c = true →
  getenv w "BOT_TOKEN" = Some tok → tok ≠ "" →
  cl_login c = Callable f →
  outcome_of (BotJs.dashboard_or_database w c im) = Done () ∧
  logins (trace (BotJs.startup_flow w c (Callable (Returns b)) im)) = [EvLogin tok].
Proof.
  intros Hl Ht Hne Hf. pose proof (bot_js_dashboard_or_database_done w c im Hl) as Hd.
  split; [done|]. unfold BotJs.startup_flow.
  assert (Hcall : outcome_of (call CheckForUpdates "checkForUpdates" (Callable (Returns b)))
                  = Done b) by done.
  assert (Hlogin : logins (trace (BotJs.login w c)) = [EvLogin tok]).
  { unfold BotJs.login. cbv zeta. rewrite Ht, Hf.
    assert (Htr : truthy (Some tok) = true).
    { simpl. destruct (String.eqb_spec tok ""); by simplify_eq. }
    rewrite Htr. change (default "" (Some tok)) with tok.
    rewrite trace_ret_bind, trace_bind, logins_app, trace_emit_bind.
    rewrite logins_cons_login, (logins_none (trace (perform (f tok);; mret ()))) by events.
    rewrite (logins_none (match outcome_of _ with Done _ => _ | _ => [] end)); [done|].
    case_outcome; by events. }
  rewrite trace_try_catch, logins_app.
  rewrite (trace_bind_done _ _ _ Hcall), (trace_bind_done _ _ _ Hd), !logins_app, Hlogin.
  rewrite (logins_none (trace (call _ _ _))) by (by events).
  rewrite (logins_none (trace (BotJs.dashboard_or_database w c im))) by (by events).
  rewrite (logins_none (match outcome_of _ with Thrown _ => _ | _ => [] end)); [done|].
  case_outcome; by events.
Qed.

Lemma bot_js_login_follows_dashboard_or_database_witness :
  logins (trace (BotJs.startup_flow world_with_token BotJs.MinimalBotClient
                   (Callable (Returns false)) (Callable (Throws (Failure "no database")))))
    = [EvLogin "abc123"].
Proof.
  apply (bot_js_login_follows_dashboard_or_database world_with_token
           BotJs.MinimalBotClient (Callable (Throws (Failure "no database"))) false "abc123"
           (λ token, if truthy (Some token) then Returns false
                     else Throws (Failure "Missing token")));
    [reflexivity|reflexivity|discriminate|reflexivity].
Defined.

(** X9.  In [bot.js] the update check must return for the bot to start:
    when [checkForUpdates] throws or is not a function (its module
    exists but does not export it), the startup flow ends the process
    with status 1 right after the call.  Neither the dashboard nor the
    database is attempted, nothing is required and [client.login] is not
    called. *)
Theorem bot_js_update_check_must_return
    (w : world) (c : client) (cfu im : slot behaviour) :
  (∀ b, cfu ≠ Callable (Returns b)) →
  outcome_of (BotJs.startup_flow w c cfu im) = Exited 1 ∧
  calls (trace (BotJs.startup_flow w c cfu im)) = [CheckForUpdates] ∧
  required (trace (BotJs.startup_flow w c cfu im)) = [] ∧
  logins (trace (BotJs.startup_flow w c cfu im)) = [].
Proof.
  intros Hcfu.
  destruct c as [d [[l1 l2 [| |[|]]]|] lc lt le re lo cm on];
    destruct cfu as [| |[b|err]]; try done; by destruct (Hcfu b).
Qed.

Lemma bot_js_update_check_must_return_witness :
  outcome_of (BotJs.startup_flow world_with_token BotJs.MinimalBotClient Absent noop)
    = Exited 1 ∧
  calls (trace (BotJs.startup_flow world_with_token BotJs.MinimalBotClient Absent noop))
    = [CheckForUpdates].
Proof.
  destruct (bot_js_update_check_must_return world_with_token BotJs.MinimalBotClient
              Absent noop) as (H1 & H2 & _); [discriminate|by split].
Defined.

(** ** [bot.js]: a module without the expected export *)

Lemma calls_before_validation t : Forall before_validation t → calls t = [].
Proof.
  induction 1 as [|ev t Hev _ IH]; [done|]. destruct ev; try done; exact IH.
Qed.

Lemma bot_js_validator_of_module w x :
  modules w "@root/utils/validateConfiguration" = Exports x →
  value_of (BotJs.resolve_validateConfiguration w) = Some (ex_validateConfiguration x).
Proof.
  intros H. unfold BotJs.resolve_validateConfiguration, require. rewrite H. done.
Qed.

(** X10.  The fallbacks of [bot.js] only cover a module that cannot be
    required.  When the validator module exists but does not export a
    function [validateConfiguration], the call of the missing function
    is taken for a failed validation: the script logs the [TypeError]
    and ends the process with status 1, before the client is
    constructed. *)
Theorem bot_js_validator_export_missing (w : world) (x : exports) :
  modules w "@root/utils/validateConfiguration" = Exports x →
  is_function (ex_validateConfiguration x) = false →
  outcome_of (run bot_js w) = Exited 1 ∧
  ends_with
    (EvConsole CError
       [Str "Configuration validation failed:";
        ErrArg (TypeError "validateConfiguration is not a function")])
    (run bot_js w) ∧
  calls (trace (run bot_js w)) = [ValidateConfiguration] ∧
  EvNew ∉ trace (run bot_js w).
Proof.
  intros Hm Hf. simpl run.
  destruct (bot_js_reaches_main w) as (cfu & im & B & vc & _ & _ & _ & Hvc & Hext).
  rewrite (bot_js_validator_of_module w x Hm) in Hvc. simplify_eq.
  assert (E : BotJs.main w cfu im B (ex_validateConfiguration x) =
    Prog [EvConsole CLog [Str BotJs.STATIC_ASCII_BANNER]; EvCall ValidateConfiguration;
          EvConsole CError
            [Str "Configuration validation failed:";
             ErrArg (TypeError "validateConfiguration is not a function")]]
         (Exited 1)).
  { by destruct (ex_validateConfiguration x). }
  rewrite E in Hext. split_and!.
  - destruct Hext as (pre & _ & _ & ->). done.
  - by eapply ends_with_extends.
  - destruct Hext as (pre & Hpre & -> & _).
    by rewrite calls_app, (calls_before_validation pre).
  - destruct Hext as (pre & Hpre & -> & _). intros [Hin|Hin]%elem_of_app.
    + rewrite Forall_forall in Hpre. by apply Hpre in Hin.
    + apply list_elem_of_In in Hin. repeat (destruct Hin as [?|Hin]; [done|]). done.
Qed.

Lemma bot_js_validator_export_missing_witness :
  outcome_of (run bot_js world_validator_not_exported) = Exited 1 ∧
  calls (trace (run bot_js world_validator_not_exported)) = [ValidateConfiguration].
Proof.
  destruct (bot_js_validator_export_missing world_validator_not_exported
              (exports_handler (Some "validate") noop) eq_refl eq_refl) as (H1 & _ & H2 & _).
  by split.
Defined.

(** X11.  In [bot.js] every message of the startup flow goes through
    the client's logger, under the guard [client.logger && ...]: with a
    client that has no logger the flow writes nothing at all, neither to
    a logger nor to the console.  A missing token, a failed update check
    or a rejected login then ends the process with status 1 without a
    word. *)
Theorem bot_js_startup_flow_without_logger_is_silent
    (w : world) (c : client) (cfu im : slot behaviour) :
  cl_logger c = None →
  existsb is_output (trace (BotJs.startup_flow w c cfu im)) = false ∧
  (outcome_of (BotJs.startup_flow w c cfu im) = Done () ∨
   outcome_of (BotJs.startup_flow w c cfu im) = Exited 1).
Proof.
  intros Hl. split.
  - apply existsb_false_Forall.
    destruct c as [d lg lc lt le re lo cm on]. simpl in Hl. subst lg.
    unfold BotJs.startup_flow. rewrite trace_try_catch. apply Forall_app. split.
    + unfold BotJs.login. by events.
    + by case_outcome.
  - assert (H : may_end (λ x, x = ENormal ∨ x = EExit 1) (BotJs.startup_flow w c cfu im)).
    { unfold BotJs.startup_flow, BotJs.login. by ends. }
    unfold may_end, ending_of in H.
    destruct (outcome_of (BotJs.startup_flow w c cfu im)) as [[]|e|z].
    + by left.
    + by destruct H.
    + right. destruct H as [H|H]; by simplify_eq.
Qed.

Lemma bot_js_startup_flow_without_logger_is_silent_witness :
  BotJs.startup_flow world_without_token plain_client noop noop =
    Prog [EvCall CheckForUpdates; EvCall InitializeMongoose] (Exited 1) ∧
  existsb is_output
    (trace (BotJs.startup_flow world_without_token plain_client noop noop)) = false.
Proof.
  split; [reflexivity|].
  apply (bot_js_startup_flow_without_logger_is_silent world_without_token plain_client
           noop noop eq_refl).
Defined.

(** ** [part_000]: the chains of [require] *)

(** A chain [require(p).f || require(q).f || ...] whose first module
    cannot be required throws at once. *)
Lemma first_truthy_not_found {A} w (field : exports → slot A) what p rest :
  modules w p = NotFound →
  Part000.first_truthy w field what (p :: rest) =
    Prog [EvRequire p] (Thrown (ModuleNotFound p)).
Proof.
  intros H. destruct rest as [|q rest]; [rewrite first_truthy_one|rewrite first_truthy_more];
    unfold require; by rewrite H.
Qed.

Lemma not_called_bind {A B} (g : callee) (m : prog A) (f : A → prog B) :
  g ∉ calls (trace m) → (∀ a, g ∉ calls (trace (f a))) → g ∉ calls (trace (m ≫= f)).
Proof.
  intros Hm Hf. rewrite trace_bind, calls_app. intros [H|H]%elem_of_app; [done|].
  destruct (outcome_of m) as [a| |]; [by apply (Hf a)|by apply elem_of_nil in H..].
Qed.

Lemma not_called_Forall (g : callee) t :
  Forall (λ ev, ev ≠ EvCall g) t → g ∉ calls t.
Proof.
  induction 1 as [|ev t Hev _ IH]; [apply not_elem_of_nil|].
  destruct ev as [| | | |f| | | | |]; try exact IH.
  change (calls (EvCall f :: t)) with (f :: calls t).
  apply not_elem_of_cons. split; [|done]. intros ->. by apply Hev.
Qed.

(** The part of [part_000] that follows the [require]s of the optional
    collaborators calls none that was not found. *)
Lemma part_000_steps_without (w : world) (cfu im vc : slot behaviour) (g : callee) :
  match g with
  | CheckForUpdates => cfu = Absent
  | InitializeMongoose => im = Absent
  | ValidateConfiguration => vc = Absent
  | _ => False
  end →
  g ∉ calls (trace (BotClient ← Part000.resolve_BotClient w;
                    Part000.validate_step vc;;
                    Part000.update_step cfu;;
                    Part000.mongoose_step im;;
                    client ← new "BotClient" BotClient;
                    Part000.after_construction w client)).
Proof.
  intros Hg. apply not_called_Forall.
  apply Forall_trace_bind; [by events; destruct g|intros B].
  apply Forall_trace_bind; [|intros ?].
  { destruct g; try done; subst; by events. }
  apply Forall_trace_bind; [|intros ?].
  { destruct g; try done; subst; by events. }
  apply Forall_trace_bind; [|intros ?].
  { destruct g; try done; subst; by events. }
  unfold Part000.login. by events; destruct g.
Qed.

Lemma not_called_value {A B} (g : callee) (m : prog A) (f : A → prog B) a :
  value_of m = Some a → g ∉ calls (trace m) → g ∉ calls (trace (f a)) →
  g ∉ calls (trace (m ≫= f)).
Proof.
  intros Ha Hm Hf. rewrite (bind_value m f a Ha). cbn [trace]. rewrite calls_app.
  by intros [H|H]%elem_of_app.
Qed.

Lemma part_000_resolver_stops w :
  (modules w "./dashboard/utils/checkForUpdates" = NotFound →
   Part000.resolve_checkForUpdates w =
     Prog [EvRequire "./dashboard/utils/checkForUpdates"] (Done Absent)) ∧
  (modules w "./src/database/mongoose" = NotFound →
   Part000.resolve_initializeMongoose w =
     Prog [EvRequire "./src/database/mongoose"] (Done Absent)) ∧
  (modules w "./config" = NotFound →
   Part000.resolve_validateConfiguration w = Prog [EvRequire "./config"] (Done Absent)).
Proof.
  split_and!; intros H.
  - unfold Part000.resolve_checkForUpdates. by rewrite first_truthy_not_found.
  - unfold Part000.resolve_initializeMongoose. by rewrite first_truthy_not_found.
  - unfold Part000.resolve_validateConfiguration. by rewrite first_truthy_not_found.
Qed.

Lemma required_discordjs_fallback w :
  required (trace (Part000.discordjs_fallback w)) = ["discord.js"].
Proof.
  destruct (discordjs_Client w) as [[k flags]|] eqn:E.
  - by rewrite (discordjs_fallback_some w k flags E).
  - by rewrite (discordjs_fallback_none w E).
Qed.

(** X12.  In [part_000] the second path of a chain
    [require(p).f || require(q).f] is no fallback for a missing module:
    [require(p)] throws, the [catch] sets the collaborator to [null],
    and [q] is never required.  So when the first module of a chain is
    not installed, the update check, the database initialisation or the
    validation is never called in the whole run, whatever the second
    module exports; and for [BotClient] the script goes straight to the
    [discord.js] fallback. *)
Theorem part_000_alternative_needs_first_module (w : world) :
  (modules w "./dashboard/utils/checkForUpdates" = NotFound →
   value_of (Part000.resolve_checkForUpdates w) = Some Absent ∧
   required (trace (Part000.resolve_checkForUpdates w)) =
     ["./dashboard/utils/checkForUpdates"] ∧
   CheckForUpdates ∉ calls (trace (run part_000 w))) ∧
  (modules w "./src/database/mongoose" = NotFound →
   value_of (Part000.resolve_initializeMongoose w) = Some Absent ∧
   required (trace (Part000.resolve_initializeMongoose w)) = ["./src/database/mongoose"] ∧
   InitializeMongoose ∉ calls (trace (run part_000 w))) ∧
  (modules w "./config" = NotFound →
   value_of (Part000.resolve_validateConfiguration w) = Some Absent ∧
   required (trace (Part000.resolve_validateConfiguration w)) = ["./config"] ∧
   ValidateConfiguration ∉ calls (trace (run part_000 w))) ∧
  (modules w "./src/client/BotClient" = NotFound →
   required (trace (Part000.resolve_BotClient w)) = ["./src/client/BotClient"; "discord.js"]).
Proof.
  destruct (part_000_resolver_stops w) as (Hcfu & Him & Hvc).
  assert (Hres : ∀ g, Forall (λ ev, ev ≠ EvCall g)
                        (trace (Part000.resolve_checkForUpdates w)) ∧
                      Forall (λ ev, ev ≠ EvCall g)
                        (trace (Part000.resolve_initializeMongoose w)) ∧
                      Forall (λ ev, ev ≠ EvCall g)
                        (trace (Part000.resolve_validateConfiguration w))).
  { intros g. split_and!; by events. }
  split_and!; intros H.
  - rewrite (Hcfu H). split; [done|]. split; [done|]. simpl run. unfold Part000.script, Part000.main.
    do 3 (apply not_called_bind; [apply not_called_Forall; by events|intros ?]).
    eapply not_called_value; [by rewrite (Hcfu H)|apply not_called_Forall, Hres|].
    do 2 (apply not_called_bind; [apply not_called_Forall, Hres|intros ?]).
    by apply part_000_steps_without.
  - rewrite (Him H). split; [done|]. split; [done|]. simpl run. unfold Part000.script, Part000.main.
    do 4 (apply not_called_bind; [apply not_called_Forall; by events|intros ?]).
    eapply not_called_value; [by rewrite (Him H)|apply not_called_Forall, Hres|].
    apply not_called_bind; [apply not_called_Forall, Hres|intros ?].
    by apply part_000_steps_without.
  - rewrite (Hvc H). split; [done|]. split; [done|]. simpl run. unfold Part000.script, Part000.main.
    do 5 (apply not_called_bind; [apply not_called_Forall; by events|intros ?]).
    eapply not_called_value; [by rewrite (Hvc H)|apply not_called_Forall, Hres|].
    by apply part_000_steps_without.
  - unfold Part000.resolve_BotClient, Part000.require_BotClient.
    rewrite first_truthy_not_found by done.
    transitivity ("./src/client/BotClient" ::
                  required (trace (Part000.discordjs_fallback w))); [done|].
    by rewrite required_discordjs_fallback.
Qed.

Lemma part_000_alternative_needs_first_module_witness :
  ((CheckForUpdates ∉ calls (trace (run part_000 world_aliases_only))) ∧
   (InitializeMongoose ∉ calls (trace (run part_000 world_aliases_only))) ∧
   (ValidateConfiguration ∉ calls (trace (run part_000 world_aliases_only)))) ∧
  required (trace (Part000.resolve_BotClient world_aliases_only)) =
    ["./src/client/BotClient"; "discord.js"].
Proof.
  destruct (part_000_alternative_needs_first_module world_aliases_only)
    as (H1 & H2 & H3 & H4).
  split; [split_and!|].
  - exact (proj2 (proj2 (H1 eq_refl))).
  - exact (proj2 (proj2 (H2 eq_refl))).
  - exact (proj2 (proj2 (H3 eq_refl))).
  - exact (H4 eq_refl).
Defined.

(** ** [part_000]: what the listeners do *)

(** X13.  The listeners of [part_000] are the expression
    [client?.logger?.error?.(...) || log.error(...)], and unlike the
    listener of [bot.js] they are not total.  When [client.logger.error]
    returns a falsy value, as a function without [return] does, the
    event is reported twice, by the logger and on the console; when it
    throws, the listener throws; when it is neither missing nor a
    function, the listener throws a [TypeError] and reports nothing. *)
Theorem part_000_listeners_report_twice_or_throw (client : option client) (err : jserror) :
  Part000.unhandledRejection_handler client err =
    match logger_error_slot client with
    | Absent =>
        Prog [EvConsole CError [Str "[ERROR]"; Str "Unhandled Rejection:"; ErrArg err]]
             (Done ())
    | NotCallable =>
        Prog [] (Thrown (TypeError "client?.logger?.error is not a function"))
    | Callable (Returns true) =>
        Prog [EvLogger LError [Str "Unhandled Rejection:"; ErrArg err]] (Done ())
    | Callable (Returns false) =>
        Prog [EvLogger LError [Str "Unhandled Rejection:"; ErrArg err];
              EvConsole CError [Str "[ERROR]"; Str "Unhandled Rejection:"; ErrArg err]]
             (Done ())
    | Callable (Throws e) =>
        Prog [EvLogger LError [Str "Unhandled Rejection:"; ErrArg err]] (Thrown e)
    end ∧
  Part000.uncaughtException_handler client err =
    match logger_error_slot client with
    | Absent =>
        Prog [EvConsole CError [Str "[ERROR]"; Str "Uncaught Exception:"; ErrArg err]]
             (Done ())
    | NotCallable =>
        Prog [] (Thrown (TypeError "client?.logger?.error is not a function"))
    | Callable (Returns true) =>
        Prog [EvLogger LError [Str "Uncaught Exception:"; ErrArg err]] (Done ())
    | Callable (Returns false) =>
        Prog [EvLogger LError [Str "Uncaught Exception:"; ErrArg err];
              EvConsole CError [Str "[ERROR]"; Str "Uncaught Exception:"; ErrArg err]]
             (Done ())
    | Callable (Throws e) =>
        Prog [EvLogger LError [Str "Uncaught Exception:"; ErrArg err]] (Thrown e)
    end.
Proof.
  destruct client as [[? [[? ? [| |[[]|]]]|]]|]; done.
Qed.

(** ** [part_000]: the client's loader and the directory scan *)

(** X14.  [tryLoadCommands] and [tryLoadEvents] prefer the loader of the
    client.  When [client.loadCommands] (or [loadEvents]) is a function
    that returns, the directory is not looked at: nothing is required
    and the function logs the load.  When it throws, a warning is
    logged and the function goes on exactly as for a client without
    loader: the directory scan is the fallback. *)
Theorem client_loader_before_directory_scan (w : world) (c : client) :
  (∀ b, cl_loadCommands c = Callable (Returns b) →
     Part000.tryLoadCommands w c =
       Prog [EvCall LoadCommands;
             EvConsole CLog [Str "[INFO]"; Str "Commands loaded via client.loadCommands()."]]
            (Done ())) ∧
  (∀ e, cl_loadCommands c = Callable (Throws e) →
     trace (Part000.tryLoadCommands w c) =
       [EvCall LoadCommands;
        EvConsole CWarn [Str "[WARN]"; Str "client.loadCommands() threw an error:"; ErrArg e]]
       ++ trace (Part000.tryLoadCommands w (without_loaders c)) ∧
     outcome_of (Part000.tryLoadCommands w c) =
       outcome_of (Part000.tryLoadCommands w (without_loaders c))) ∧
  (∀ b, cl_loadEvents c = Callable (Returns b) →
     Part000.tryLoadEvents w c =
       Prog [EvCall LoadEvents;
             EvConsole CLog [Str "[INFO]"; Str "Events loaded via client.loadEvents()."]]
            (Done ())) ∧
  (∀ e, cl_loadEvents c = Callable (Throws e) →
     trace (Part000.tryLoadEvents w c) =
       [EvCall LoadEvents;
        EvConsole CWarn [Str "[WARN]"; Str "client.loadEvents() threw an error:"; ErrArg e]]
       ++ trace (Part000.tryLoadEvents w (without_loaders c)) ∧
     outcome_of (Part000.tryLoadEvents w c) =
       outcome_of (Part000.tryLoadEvents w (without_loaders c))).
Proof.
  split_and!.
  - intros b H. unfold Part000.tryLoadCommands. by rewrite H.
  - intros e H. unfold Part000.tryLoadCommands at 1 3. rewrite H. by split.
  - intros b H. unfold Part000.tryLoadEvents. by rewrite H.
  - intros e H. unfold Part000.tryLoadEvents at 1 3. rewrite H. by split.
Qed.

Lemma client_loader_before_directory_scan_witness :
  Part000.tryLoadCommands world_commands loading_client =
    Prog [EvCall LoadCommands;
          EvConsole CLog [Str "[INFO]"; Str "Commands loaded via client.loadCommands()."]]
         (Done ()) ∧
  required (trace (Part000.tryLoadCommands world_commands client_with_failing_scan_loaders))
    = ["src/commands/ping.js"; "src/commands/broken.js"; "src/commands/anonymous.js"].
Proof.
  destruct (client_loader_before_directory_scan world_commands loading_client)
    as (H1 & _).
  destruct (client_loader_before_directory_scan world_commands
              client_with_failing_scan_loaders) as (_ & H2 & _).
  split; [exact (H1 false eq_refl)|].
  destruct (H2 (Failure "no commands") eq_refl) as [-> _]. reflexivity.
Defined.

(** ** [part_000]: the files a scan requires *)

Lemma substring_full s : substring 0 (String.length s) s = s.
Proof. induction s as [|a s IH]; simpl; by rewrite ?IH. Qed.

Lemma substring_split s n :
  (n ≤ String.length s)%nat →
  s = substring 0 n s +:+ substring n (String.length s - n) s.
Proof.
  revert n. induction s as [|a s IH]; intros [|n] Hn; simpl in *; try lia; try done.
  - by rewrite substring_full.
  - unfold String.app. simpl. f_equal. apply IH. lia.
Qed.

(** [s.endsWith(suffix)] holds only of a string that ends with
    [suffix]. *)
Lemma endsWith_suffix s suffix :
  endsWith s suffix = true → ∃ stem, s = stem +:+ suffix.
Proof.
  unfold endsWith. set (k := String.length suffix). set (n := String.length s).
  intros [Hk%Nat.leb_le Hs%String.eqb_eq]%andb_true_iff.
  pose proof (substring_split s (n - k)) as H.
  replace (String.length s - (n - k))%nat with k in H by (unfold n; lia).
  exists (substring 0 (n - k) s). rewrite <- Hs. apply H. unfold n. lia.
Qed.

Lemma Forall_trace_for_each_elem {A} (φ : event → Prop) (body : A → prog unit) l :
  (∀ x, In x l → Forall φ (trace (body x))) → Forall φ (trace (for_each body l)).
Proof.
  induction l as [|x l IH]; intros Hb; [constructor|]. rewrite for_each_cons.
  apply Forall_trace_bind; [apply Hb; by left|]. intros _. apply IH.
  intros y Hy. apply Hb. by right.
Qed.

Lemma completes_or_not {A} (m : prog A) :
  (∃ a, value_of m = Some a) ∨ value_of m = None.
Proof. destruct (value_of m) as [a|]; [left; by exists a|by right]. Qed.

Lemma Forall_required (P : string → Prop) t :
  Forall (λ ev, match ev with EvRequire p => P p | _ => True end) t →
  Forall P (required t).
Proof.
  induction 1 as [|ev t Hev _ IH]; [constructor|].
  destruct ev; try exact IH. by constructor.
Qed.

Lemma js_files_end_with_js w dir x files :
  value_of (Part000.js_files w dir) = Some files → In x files →
  ∃ stem, x = stem +:+ ".js".
Proof.
  unfold Part000.js_files, value_of. destruct (readdirSync w dir) as [all|]; [|done].
  intros [= <-] [_ H]%filter_In. by apply endsWith_suffix.
Qed.

Lemma tryLoadCommands_requires_js (w : world) (c : client) :
  Forall (λ ev, match ev with EvRequire p => js_file_in "src/commands" p | _ => True end)
    (trace (Part000.tryLoadCommands w c)).
Proof.
  unfold Part000.tryLoadCommands.
  apply Forall_trace_bind; [by events|intros [|]; [constructor|]].
  change (path_resolve ["src"; "commands"]) with "src/commands". cbv zeta.
  destruct (existsSync w "src/commands"); [|by events].
  destruct (completes_or_not (Part000.js_files w "src/commands")) as [[files Hv]|Hv].
  - rewrite (bind_value _ _ files Hv). cbn [trace]. apply Forall_app. split; [by events|].
    apply Forall_trace_bind; [|intros ?; by events].
    apply Forall_trace_for_each_elem. intros x Hx.
    destruct (js_files_end_with_js w "src/commands" x files Hv Hx) as [stem ->].
    unfold Part000.load_command. events; try done. by exists stem.
  - rewrite trace_bind_stop by done. by events.
Qed.

Lemma tryLoadEvents_requires_js (w : world) (c : client) :
  Forall (λ ev, match ev with EvRequire p => js_file_in "src/events" p | _ => True end)
    (trace (Part000.tryLoadEvents w c)).
Proof.
  unfold Part000.tryLoadEvents.
  apply Forall_trace_bind; [by events|intros [|]; [constructor|]].
  change (path_resolve ["src"; "events"]) with "src/events". cbv zeta.
  destruct (existsSync w "src/events"); [|by events].
  destruct (completes_or_not (Part000.js_files w "src/events")) as [[files Hv]|Hv].
  - rewrite (bind_value _ _ files Hv). cbn [trace]. apply Forall_app. split; [by events|].
    apply Forall_trace_bind; [|intros ?; by events].
    apply Forall_trace_for_each_elem. intros x Hx.
    destruct (js_files_end_with_js w "src/events" x files Hv Hx) as [stem ->].
    unfold Part000.load_event. events; try done. by exists stem.
  - rewrite trace_bind_stop by done. by events.
Qed.

(** X15.  The directory scans of [part_000] require nothing but files of
    their own directory whose name ends with [.js]: whatever the
    directory holds, every module that [tryLoadCommands] requires is
    [src/commands/<stem>.js] and every module that [tryLoadEvents]
    requires is [src/events/<stem>.js]. *)
Theorem scan_requires_only_js_files (w : world) (c : client) :
  Forall (js_file_in "src/commands") (required (trace (Part000.tryLoadCommands w c))) ∧
  Forall (js_file_in "src/events") (required (trace (Part000.tryLoadEvents w c))).
Proof.
  split; apply Forall_required;
    [apply tryLoadCommands_requires_js|apply tryLoadEvents_requires_js].
Qed.

(** ** [part_000]: from the construction of the client to the token *)

(** X16.  Once the client is constructed, nothing can keep [part_000]
    from the login step.  It installs its two listeners first; then,
    whatever the loaders of the client, the directory scans,
    [registerEvents] and the dashboard launchers do, whether they throw
    or a directory cannot be read, it gets to the check of the token
    without having called [client.login], and it ends as the login step
    ends: normally or with status 1, never by an exception. *)
Theorem part_000_always_reaches_the_token_check (w : world) (c : client) :
  ∃ pre,
    trace (Part000.after_construction w c) =
      EvProcessOn UnhandledRejection :: EvProcessOn UncaughtException :: pre
      ++ trace (Part000.login w c) ∧
    Forall silent pre ∧
    outcome_of (Part000.after_construction w c) = outcome_of (Part000.login w c) ∧
    (outcome_of (Part000.login w c) = Done () ∨ outcome_of (Part000.login w c) = Exited 1).
Proof.
  assert (Hext : extends silent
    (try_catch (Part000.tryLoadCommands w c)
       (λ err, Part000.log_warn [Str "Error while trying to load commands:"; ErrArg err]);;
     try_catch (Part000.tryLoadEvents w c)
       (λ err, Part000.log_warn [Str "Error while trying to load events:"; ErrArg err]);;
     Part000.registerEvents_step w c;;
     try_catch (Part000.tryLaunchDashboard w c;; mret ())
       (λ err, Part000.log_warn
          [Str "Error while attempting to launch dashboard (continuing):"; ErrArg err]);;
     Part000.login w c)
    (Part000.login w c)).
  { do 4 (apply extends_bind; [by ends | by events; silent_leaf | intros ? _]).
    apply extends_refl. }
  destruct Hext as (pre & Hpre & E & O). exists pre. split_and!; [|done| |].
  - unfold Part000.after_construction. by rewrite !trace_emit_bind, E.
  - exact O.
  - assert (H : may_end (λ x, x = ENormal ∨ x = EExit 1) (Part000.login w c)).
    { unfold Part000.login. by ends. }
    unfold may_end, ending_of in H. destruct (outcome_of (Part000.login w c)) as [[]|e|z].
    + by left.
    + by destruct H.
    + right. destruct H as [H|H]; by simplify_eq.
Qed.

(** ** [part_000]: the name an event handler is bound under *)

Lemma length_app_string a b :
  String.length (a +:+ b) = (String.length a + String.length b)%nat.
Proof. induction a as [|x a IH]; [done|]. unfold String.app in *. simpl. by rewrite IH. Qed.

Lemma substring_app_prefix a b : substring 0 (String.length a) (a +:+ b) = a.
Proof.
  induction a as [|x a IH]; [by destruct b|]. unfold String.app in *. simpl. by rewrite IH.
Qed.

Lemma substring_app_suffix a b :
  substring (String.length a) (String.length b) (a +:+ b) = b.
Proof. induction a as [|x a IH]; [apply substring_full|]. exact IH. Qed.

Lemma endsWith_app a b : endsWith (a +:+ b) b = true.
Proof.
  unfold endsWith. rewrite length_app_string. apply andb_true_iff. split.
  - apply Nat.leb_le. lia.
  - replace (String.length a + String.length b - String.length b)%nat
      with (String.length a) by lia.
    rewrite substring_app_suffix. apply String.eqb_refl.
Qed.

(** [path.basename(file, '.js')] takes the extension off. *)
Lemma basename_js stem : basename (stem +:+ ".js") ".js" = stem.
Proof.
  unfold basename. rewrite endsWith_app, length_app_string.
  replace (String.length stem + String.length ".js" - String.length ".js")%nat
    with (String.length stem) by lia.
  apply substring_app_prefix.
Qed.

(** X17.  In the scan of the events directory a file [<stem>.js] that
    loads is bound by [client.on] under the [name] property of its
    module when that is a non-empty string, and under [<stem>], the file
    name without its extension, when it is not.  What is bound is the
    module itself when it is a function, else its [execute] when that
    is a function; a module with neither is skipped. *)
Theorem event_named_after_its_file
    (w : world) (c : client) (dir stem : string) (x : exports) :
  modules w (path_join dir (stem +:+ ".js")) = Exports x →
  cl_on c = true →
  bindings (trace (Part000.load_event w c dir (stem +:+ ".js"))) =
    (let eventName := if truthy (ex_name x) then default "" (ex_name x) else stem in
     if is_Some_bool (ex_call x)
     then [(eventName, path_join dir (stem +:+ ".js"), BindModule)]
     else if is_function (ex_execute x)
     then [(eventName, path_join dir (stem +:+ ".js"), BindExecute)]
     else []) ∧
  outcome_of (Part000.load_event w c dir (stem +:+ ".js")) = Done ().
Proof.
  intros Hm Hon.
  destruct (load_event_spec w c dir (stem +:+ ".js")) as (Ho & _ & _ & Hb).
  split; [|done]. rewrite Hb. unfold event_bound. rewrite Hm, Hon, basename_js.
  cbv zeta. by destruct (is_Some_bool (ex_call x)), (is_function (ex_execute x)).
Qed.

Lemma event_named_after_its_file_witness :
  bindings (trace (Part000.load_event world_events scanning_client "src/events" "ready.js"))
    = [("ready", "src/events/ready.js", BindExecute)] ∧
  bindings (trace (Part000.load_event world_events scanning_client "src/events" "message.js"))
    = [("messageCreate", "src/events/message.js", BindExecute)].
Proof.
  split.
  - exact (proj1 (event_named_after_its_file world_events scanning_client "src/events"
                    "ready" (exports_handler None noop) eq_refl eq_refl)).
  - exact (proj1 (event_named_after_its_file world_events scanning_client "src/events"
                    "message" (exports_handler (Some "messageCreate") noop)
                    eq_refl eq_refl)).
Defined.

(** ** [part_000]: the launch of the dashboard *)

Lemma launches_app t1 t2 : launches (t1 ++ t2) = (launches t1 + launches t2)%nat.
Proof. unfold launches. by rewrite filter_app, length_app. Qed.

(** One round of the loop over the launcher paths: it completes, it
    requires its file when that exists, and it reports a launch exactly
    when it returns [true], as the last thing it does. *)
Lemma launch_from_spec w p :
  ∃ launched, outcome_of (Part000.launch_from w p) = Done launched ∧
    required (trace (Part000.launch_from w p)) = (if existsSync w p then [p] else []) ∧
    launches (trace (Part000.launch_from w p)) = (if launched then 1 else 0)%nat ∧
    (launched = true →
     ∃ ev, last (trace (Part000.launch_from w p)) = Some ev ∧ is_launched_log ev = true).
Proof.
  unfold Part000.launch_from, require.
  destruct (existsSync w p); [|by exists false].
  destruct (modules w p) as [| |x]; [by exists false..|].
  destruct (ex_launch x) as [| |[v|e]] eqn:El.
  - destruct (ex_call x) as [[v|e]|] eqn:Ec; run_prog; rewrite El, ?Ec; cbn.
    + exists true. split_and!; [done..|]. intros _. by eexists.
    + by exists false.
    + by exists false.
  - destruct (ex_call x) as [[v|e]|] eqn:Ec; run_prog; rewrite El, ?Ec; cbn.
    + exists true. split_and!; [done..|]. intros _. by eexists.
    + by exists false.
    + by exists false.
  - run_prog. rewrite El. cbn. exists true. split_and!; [done..|]. intros _. by eexists.
  - run_prog. rewrite El. cbn. by exists false.
Qed.

Lemma last_app_Some {A} (l1 l2 : list A) x : last l2 = Some x → last (l1 ++ l2) = Some x.
Proof. intros H. rewrite last_app, H. done. Qed.

Lemma launch_first_spec w paths :
  ∃ launched, outcome_of (Part000.launch_first w paths) = Done launched ∧
    required (trace (Part000.launch_first w paths)) `prefix_of`
      List.filter (existsSync w) paths ∧
    (launched = false →
     required (trace (Part000.launch_first w paths)) = List.filter (existsSync w) paths) ∧
    launches (trace (Part000.launch_first w paths)) = (if launched then 1 else 0)%nat ∧
    (launched = true →
     ∃ ev, last (trace (Part000.launch_first w paths)) = Some ev ∧
           is_launched_log ev = true).
Proof.
  induction paths as [|p rest IH].
  - exists false. split_and!; done.
  - rewrite launch_first_cons.
    destruct (launch_from_spec w p) as (b & Ho & Hr & Hn & Hl).
    rewrite trace_bind, outcome_bind, Ho. simpl List.filter.
    destruct b.
    + exists true. cbn [trace outcome_of mret prog_ret]. rewrite app_nil_r.
      split_and!; [done| |done|done|done].
      rewrite Hr. destruct (existsSync w p); [|apply prefix_nil].
      by apply prefix_cons, prefix_nil.
    + destruct IH as (b' & Ho' & Hp' & He' & Hn' & Hl'). exists b'.
      rewrite required_app, launches_app, Hr, Hn.
      split_and!; [done| | |done|].
      * destruct (existsSync w p); [by apply prefix_cons|done].
      * intros Hb. rewrite (He' Hb). by destruct (existsSync w p).
      * intros Hb. destruct (Hl' Hb) as (ev & Hev & Hlog). exists ev.
        split; [by apply last_app_Some|done].
Qed.

(** X18.  [tryLaunchDashboard] never throws and never ends the process:
    it returns [true] or [false], so the [catch] around its call is
    never entered.  It reports at most one launch: it returns [true]
    exactly when one launcher was called and returned, the report of
    that launch is then the last thing it does, and no further candidate
    is tried.  When it returns [false] nothing was launched and the last
    thing it does is log that it skips the dashboard. *)
Theorem tryLaunchDashboard_launches_at_most_once (w : world) (c : client) :
  ∃ launched, outcome_of (Part000.tryLaunchDashboard w c) = Done launched ∧
    launches (trace (Part000.tryLaunchDashboard w c)) = (if launched then 1 else 0)%nat ∧
    if launched
    then ∃ ev, last (trace (Part000.tryLaunchDashboard w c)) = Some ev ∧
               is_launched_log ev = true
    else ends_with
           (EvConsole CLog
              [Str "[INFO]";
               Str "No dashboard detected or launcher failed; skipping dashboard start."])
           (Part000.tryLaunchDashboard w c).
Proof.
  unfold Part000.tryLaunchDashboard, ends_with.
  destruct (launch_first_spec w Part000.dashboardLauncherPaths)
    as (b & Ho & _ & _ & Hn & Hl).
  rewrite trace_bind, outcome_bind, Ho. destruct b.
  - exists true. cbn [trace outcome_of mret prog_ret]. rewrite app_nil_r.
    split_and!; [done..|]. by apply Hl.
  - rewrite launches_app, Hn. unfold require.
    destruct (modules w "./dashboard") as [| |x].
    + exists false. split_and!; [done..|]. by apply last_app_Some.
    + exists false. split_and!; [done..|]. by apply last_app_Some.
    + destruct (ex_launch x) as [| |[v|e]] eqn:El; run_prog; rewrite El; cbn.
      * exists false. split_and!; [done..|]. by apply last_app_Some.
      * exists false. split_and!; [done..|]. by apply last_app_Some.
      * exists true. split_and!; [done..|]. eexists. split; [by apply last_app_Some|done].
      * exists false. split_and!; [done..|]. by apply last_app_Some.
Qed.

(** X19.  [tryLaunchDashboard] tries its candidates in a fixed order:
    the four launcher files, each only when it exists, then the module
    ['./dashboard'].  The modules it requires are always an initial
    part of that sequence, and the whole of it when nothing could be
    launched: a failing or unusable candidate never keeps the later
    ones from being tried. *)
Theorem dashboard_candidates_are_tried_in_order (w : world) (c : client) :
  required (trace (Part000.tryLaunchDashboard w c)) `prefix_of` dashboard_candidates w ∧
  (value_of (Part000.tryLaunchDashboard w c) = Some false →
   required (trace (Part000.tryLaunchDashboard w c)) = dashboard_candidates w).
Proof.
  unfold Part000.tryLaunchDashboard, dashboard_candidates, value_of.
  destruct (launch_first_spec w Part000.dashboardLauncherPaths)
    as (b & Ho & Hp & He & _ & _).
  rewrite trace_bind, outcome_bind, Ho. destruct b.
  - cbn [trace outcome_of mret prog_ret]. rewrite app_nil_r. split; [|done].
    by apply prefix_app_r.
  - rewrite required_app, (He eq_refl).
    assert (Hd : ∀ (k : bool → prog bool),
      required (trace (launched ←
        try_catch
          (maybe ← require w "./dashboard";
           match maybe with
           | Exports x =>
               if is_function (ex_launch x) then
                 call (Launch "./dashboard") "maybe.launch" (ex_launch x);;
                 Part000.log_info [Str "Dashboard launched via ./dashboard export."];;
                 mret true
               else mret false
           | _ => mret false
           end)
          (λ _, mret false); k launched)) =
      "./dashboard" :: required (trace (k false)) ∨
      required (trace (launched ←
        try_catch
          (maybe ← require w "./dashboard";
           match maybe with
           | Exports x =>
               if is_function (ex_launch x) then
                 call (Launch "./dashboard") "maybe.launch" (ex_launch x);;
                 Part000.log_info [Str "Dashboard launched via ./dashboard export."];;
                 mret true
               else mret false
           | _ => mret false
           end)
          (λ _, mret false); k launched)) =
      "./dashboard" :: required (trace (k true))).
    { intros k. unfold require. destruct (modules w "./dashboard") as [| |x]; [by left..|].
      destruct (ex_launch x) as [| |[v|e]] eqn:El; run_prog; rewrite El; cbn;
        [by left|by left|by right|by left]. }
    split; [|intros _]; by destruct (Hd (λ launched : bool,
      if launched then mret true
      else Part000.log_info
             [Str "No dashboard detected or launcher failed; skipping dashboard start."];;
           mret false)) as [-> | ->].
Qed.

Lemma dashboard_candidates_are_tried_in_order_witness :
  (dashboard_candidates world_two_launchers =
     ["dashboard/index.js"; "dashboard/server.js"; "./dashboard"] ∧
   required (trace (Part000.tryLaunchDashboard world_two_launchers plain_client)) =
     ["dashboard/index.js"; "dashboard/server.js"]) ∧
  required (trace (Part000.tryLaunchDashboard world_with_token plain_client)) =
    dashboard_candidates world_with_token.
Proof.
  split; [split; reflexivity|].
  exact (proj2 (dashboard_candidates_are_tried_in_order world_with_token plain_client)
           eq_refl).
Defined.

(** ** [part_000]: the fallback client *)

Lemma no_registration_Forall t :
  Forall (λ ev, match ev with EvCommandsSet _ _ | EvOn _ _ _ => False | _ => True end) t →
  registrations t = [] ∧ bindings t = [].
Proof.
  induction 1 as [|ev t Hev _ [IH1 IH2]]; [done|].
  destruct ev; try done.
Qed.

(** X20.  The client that [part_000] falls back on when it cannot
    require [BotClient] never gets a command or an event handler.  Its
    [loadCommands] and [loadEvents] do nothing and return, which
    [tryLoadCommands] and [tryLoadEvents] take for a successful load:
    they log it and skip the scan of [src/commands] and [src/events], so
    that from the construction of this client on nothing is registered
    and nothing is bound. *)
Theorem fallback_client_loads_nothing
    (w : world) (Client : construction) (flags : bool) (c : client) :
  Part000.FallbackClient Client flags = Constructs c →
  Part000.tryLoadCommands w c =
    Prog [EvCall LoadCommands;
          EvConsole CLog [Str "[INFO]"; Str "Commands loaded via client.loadCommands()."]]
         (Done ()) ∧
  Part000.tryLoadEvents w c =
    Prog [EvCall LoadEvents;
          EvConsole CLog [Str "[INFO]"; Str "Events loaded via client.loadEvents()."]]
         (Done ()) ∧
  registrations (trace (Part000.after_construction w c)) = [] ∧
  bindings (trace (Part000.after_construction w c)) = [].
Proof.
  intros Hc. unfold Part000.FallbackClient in Hc.
  destruct flags; [|done]. destruct Client as [c0|]; [|done]. simplify_eq.
  set (c := {| cl_dashboard_enabled := cl_dashboard_enabled c0;
               cl_logger := cl_logger c0; cl_loadCommands := noop;
               cl_loadCommandTests := cl_loadCommandTests c0; cl_loadEvents := noop;
               cl_registerEvents := cl_registerEvents c0; cl_login := cl_login c0;
               cl_commands := cl_commands c0; cl_on := cl_on c0 |}).
  assert (Hcmd : Part000.tryLoadCommands w c =
    Prog [EvCall LoadCommands;
          EvConsole CLog [Str "[INFO]"; Str "Commands loaded via client.loadCommands()."]]
         (Done ())) by done.
  assert (Hev : Part000.tryLoadEvents w c =
    Prog [EvCall LoadEvents;
          EvConsole CLog [Str "[INFO]"; Str "Events loaded via client.loadEvents()."]]
         (Done ())) by done.
  split; [done|]. split; [done|]. apply no_registration_Forall.
  unfold Part000.after_construction. rewrite Hcmd, Hev.
  unfold Part000.login. by events.
Qed.

Lemma fallback_client_loads_nothing_witness :
  ∃ c, client_class part_000 world_with_discordjs = Some (Callable (Constructs c)) ∧
       registrations (trace (Part000.after_construction world_commands c)) = [] ∧
       bindings (trace (Part000.after_construction world_commands c)) = [].
Proof.
  eexists. split; [reflexivity|].
  eapply (fallback_client_loads_nothing world_commands (Constructs plain_client) true).
  reflexivity.
Defined.

(** ** [part_000]: two command files of the same name *)

Lemma lookup_after_registrations (m : gmap string string) regs name :
  foldl (λ m (nf : string * string), <[nf.1 := nf.2]> m) m regs !! name =
  match last_file_named name regs with
  | Some file => Some file
  | None => m !! name
  end.
Proof.
  revert m. induction regs as [|[n f] regs IH]; intros m; [done|].
  simpl foldl. rewrite IH. unfold last_file_named. rewrite omap_cons_list. cbn [fst snd].
  destruct (String.eqb_spec n name) as [->|Hne].
  - change (option_list (Some f) ++ ?l) with (f :: l).
    rewrite last_cons, lookup_insert_eq. by destruct (last _).
  - change (option_list None ++ ?l) with l. by rewrite lookup_insert_ne.
Qed.

(** X21.  The scan of [src/commands] registers with [client.commands.set],
    which replaces an entry of the same name.  After the scan the map
    holds, for every name, the last file in directory order that loaded
    with that name, and for a name no file has, the entry it held
    before: of two command files with the same name the later one
    wins. *)
Theorem later_command_file_replaces_earlier
    (w : world) (c : client) (dir : string) (files : list string)
    (m : gmap string string) :
  cl_commands c = Some m →
  ∃ m', commands_after c (trace (for_each (Part000.load_command w c dir) files)) = Some m' ∧
    ∀ name,
      m' !! name =
      match last_file_named name (omap (command_registered w c dir) files) with
      | Some file => Some file
      | None => m !! name
      end.
Proof.
  intros Hm. unfold commands_after. rewrite Hm. eexists. split; [done|]. intros name.
  destruct (for_each_load_command w c dir files) as (_ & _ & _ & Hr).
  by rewrite lookup_after_registrations, Hr.
Qed.

Lemma later_command_file_replaces_earlier_witness :
  ∃ m', commands_after scanning_client
          (trace (for_each (Part000.load_command world_duplicate_commands scanning_client
                              "src/commands") ["ping.js"; "ping2.js"])) = Some m' ∧
        m' !! "ping" = Some "src/commands/ping2.js".
Proof.
  destruct (later_command_file_replaces_earlier world_duplicate_commands scanning_client
              "src/commands" ["ping.js"; "ping2.js"] ∅ eq_refl) as (m' & Hm' & Hl).
  exists m'. split; [exact Hm'|]. exact (Hl "ping").
Defined.

(** ** [bot.js]: the login of the built-in client *)

Lemma substring_prefix n s : ∃ rest, s = substring 0 n s +:+ rest.
Proof.
  revert n. induction s as [|a s IH]; intros [|n].
  - by exists "".
  - by exists "".
  - by exists (String a s).
  - destruct (IH n) as [rest Hr]. exists rest. simpl. unfold String.app in *. simpl.
    by rewrite <- Hr.
Qed.

Lemma substring_length_min n s :
  String.length (substring 0 n s) = Nat.min n (String.length s).
Proof.
  revert n. induction s as [|a s IH]; intros [|n]; simpl; try done.
  by rewrite IH.
Qed.

(** X22.  The [login] of the [MinimalBotClient] of [bot.js] shows no
    more than the first six characters of the token.  It rejects an
    empty token with "Missing token"; for any other it prints one line
    with the initial part of the token, six characters long or the whole
    token when that is shorter, followed by three dots.  It returns or
    throws as the embedding of the class says. *)
Theorem MinimalBotClient_login_shows_six_characters (token : string) :
  (token = "" →
   MinimalBotClient_login token = Prog [] (Thrown (Failure "Missing token"))) ∧
  (token ≠ "" →
   ∃ shown rest,
     token = shown +:+ rest ∧
     String.length shown = Nat.min 6 (String.length token) ∧
     MinimalBotClient_login token =
       Prog [EvConsole CLog [Str "Pretend login with token:"; Str (shown +:+ "...")]]
            (Done ())) ∧
  match cl_login BotJs.MinimalBotClient with
  | Callable f => ending_of (perform (f token)) = ending_of (MinimalBotClient_login token)
  | _ => False
  end.
Proof.
  unfold MinimalBotClient_login. split_and!.
  - by intros ->.
  - intros Hne. destruct (substring_prefix 6 token) as [rest Hr].
    exists (substring 0 6 token), rest. split_and!; [done|apply substring_length_min|].
    simpl. destruct (String.eqb_spec token ""); done.
  - simpl. by destruct (String.eqb token "").
Qed.

Lemma MinimalBotClient_login_shows_six_characters_witness :
  MinimalBotClient_login "" = Prog [] (Thrown (Failure "Missing token")) ∧
  ∃ shown rest,
    "abc123-secret" = shown +:+ rest ∧ String.length shown = 6%nat ∧
    MinimalBotClient_login "abc123-secret" =
      Prog [EvConsole CLog [Str "Pretend login with token:"; Str (shown +:+ "...")]]
           (Done ()).
Proof.
  destruct (MinimalBotClient_login_shows_six_characters "") as (H1 & _).
  destruct (MinimalBotClient_login_shows_six_characters "abc123-secret") as (_ & H2 & _).
  split; [exact (H1 eq_refl)|]. apply H2. discriminate.
Defined.

(** ** [part_000]: [client.registerEvents] *)

(** X23.  The call of [client.registerEvents] in [part_000] fails
    silently.  The method is called exactly when the client has one and
    [src/events] exists; when the call throws, or the property is not a
    function, the exception is dropped without any message, and the
    step completes in every case. *)
Theorem registerEvents_failure_is_silent (w : world) (c : client) :
  outcome_of (Part000.registerEvents_step w c) = Done () ∧
  calls (trace (Part000.registerEvents_step w c)) =
    (if slot_truthy (cl_registerEvents c) && existsSync w "src/events"
     then [RegisterEvents] else []) ∧
  existsb is_output (trace (Part000.registerEvents_step w c)) =
    match cl_registerEvents c with
    | Callable (Returns _) => existsSync w "src/events"
    | _ => false
    end.
Proof.
  unfold Part000.registerEvents_step.
  change (path_resolve ["src"; "events"]) with "src/events". cbv zeta.
  destruct (cl_registerEvents c) as [| |[v|e]], (existsSync w "src/events"); done.
Qed.

(** ** [bot.js]: the built-in client and the dashboard *)

Lemma bot_js_fallback_class w :
  ending_of (BotJs.require_BotClient w) = EThrow →
  value_of (BotJs.resolve_BotClient w) = Some (Callable (Constructs BotJs.MinimalBotClient)).
Proof.
  intros [e He]%thrown_of_ending. unfold value_of, BotJs.resolve_BotClient.
  by rewrite outcome_try_catch, He.
Qed.

Lemma bot_js_minimal_flow_without_dashboard w cfu im :
  Forall (λ ev, is_dashboard ev = false)
    (trace (BotJs.startup_flow w BotJs.MinimalBotClient cfu im)).
Proof.
  unfold BotJs.startup_flow, BotJs.dashboard_or_database.
  change (cl_dashboard_enabled BotJs.MinimalBotClient) with false. cbv zeta iota.
  unfold BotJs.login. by events.
Qed.

(** X24.  The [MinimalBotClient] that [bot.js] falls back on has its
    dashboard disabled: when [BotClient] cannot be required, no run of
    [bot.js] requires the dashboard launcher or calls it, and a run that
    logs in has called [initializeMongoose] before. *)
Theorem bot_js_fallback_client_never_launches_the_dashboard (w : world) :
  ending_of (BotJs.require_BotClient w) = EThrow →
  dashboard_attempted (trace (run bot_js w)) = false ∧
  (login_invoked (trace (run bot_js w)) = true →
   database_attempted (trace (run bot_js w)) = true).
Proof.
  intros HB%bot_js_fallback_class. split.
  - apply existsb_false_Forall. simpl run. unfold BotJs.script.
    do 3 (apply Forall_trace_bind; [by events|intros ?]).
    rewrite (bind_value _ _ _ HB). cbn [trace]. apply Forall_app. split; [by events|].
    apply Forall_trace_bind; [by events|intros ?]. unfold BotJs.main.
    do 2 (apply Forall_trace_bind; [by events|intros ?]).
    rewrite new_constructs. cbn [trace]. constructor; [done|].
    do 4 (apply Forall_trace_bind; [by events|intros ?]).
    apply bot_js_minimal_flow_without_dashboard.
  - intros Hl. by destruct (bot_js_login_after_branch w _ HB Hl).
Qed.

Lemma bot_js_fallback_client_never_launches_the_dashboard_witness :
  dashboard_attempted (trace (run bot_js world_with_token)) = false ∧
  database_attempted (trace (run bot_js world_with_token)) = true.
Proof.
  destruct (bot_js_fallback_client_never_launches_the_dashboard world_with_token eq_refl)
    as [H1 H2].
  split; [exact H1|]. apply H2. reflexivity.
Defined.


(** ** The modules [bot.js] requires *)

Lemma required_none t : Forall no_require t → required t = [].
Proof.
  induction 1 as [|ev t Hev _ IH]; [done|]. destruct ev; try done; exact IH.
Qed.

Lemma at_most_the_launcher_bind {A B} (m : prog A) (f : A → prog B) :
  Forall no_require (trace m) → (∀ a, at_most_the_launcher (trace (f a))) →
  at_most_the_launcher (trace (m ≫= f)).
Proof.
  intros Hm%required_none Hf. unfold at_most_the_launcher in *.
  rewrite trace_bind, required_app, Hm. simpl.
  destruct (outcome_of m); [apply Hf|by left..].
Qed.

Lemma at_most_the_launcher_bind_l {A B} (m : prog A) (f : A → prog B) :
  at_most_the_launcher (trace m) → (∀ a, Forall no_require (trace (f a))) →
  at_most_the_launcher (trace (m ≫= f)).
Proof.
  intros Hm Hf. unfold at_most_the_launcher in *. rewrite trace_bind, required_app.
  destruct (outcome_of m) as [a| |]; rewrite ?(required_none _ (Hf _)), ?app_nil_r; done.
Qed.

Lemma at_most_the_launcher_try_catch {A} (m : prog A) (h : jserror → prog A) :
  at_most_the_launcher (trace m) → (∀ e, Forall no_require (trace (h e))) →
  at_most_the_launcher (trace (try_catch m h)).
Proof.
  intros Hm Hh. unfold at_most_the_launcher in *. rewrite trace_try_catch, required_app.
  destruct (outcome_of m) as [|e|]; rewrite ?(required_none _ (Hh _)), ?app_nil_r; done.
Qed.

Lemma required_require w p : required (trace (require w p)) = [p].
Proof. unfold require. by destruct (modules w p). Qed.

Lemma bot_js_branch_requires w c im :
  at_most_the_launcher (trace (BotJs.dashboard_or_database w c im)).
Proof.
  unfold BotJs.dashboard_or_database. cbv zeta. destruct (cl_dashboard_enabled c).
  - right. unfold BotJs.launch_dashboard.
    rewrite trace_try_catch, required_app.
    assert (Hh : ∀ e, required (trace (logger_call c LError
                        [Str "Failed to launch dashboard"; ErrArg e])) = []).
    { intros e. apply required_none. by events. }
    assert (Hb : required (trace (
      dashboardLauncher ← require w "@root/dashboard/launch";
      match dashboardLauncher with
      | Exports x =>
          if is_function (ex_launch x) then
            logger_call c LLog [Str "Launching dashboard..."];;
            call (Launch "@root/dashboard/launch") "dashboardLauncher.launch" (ex_launch x);;
            mret ()
          else logger_call c LWarn [Str "Dashboard launch module not found or invalid."]
      | _ => logger_call c LWarn [Str "Dashboard launch module not found or invalid."]
      end)) = ["@root/dashboard/launch"]).
    { rewrite trace_bind, required_app.
      rewrite required_require.
      rewrite (required_none (match outcome_of _ with Done _ => _ | _ => [] end)); [done|].
      case_outcome; [|done..]. by events. }
    rewrite Hb. case_outcome; rewrite ?Hh; done.
  - left. apply required_none. by events.
Qed.

Lemma bot_js_main_requires w cfu im B vc :
  at_most_the_launcher (trace (BotJs.main w cfu im B vc)).
Proof.
  unfold BotJs.main.
  do 7 (apply at_most_the_launcher_bind; [by events|intros ?]).
  unfold BotJs.startup_flow.
  apply at_most_the_launcher_try_catch; [|intros ?; by events].
  apply at_most_the_launcher_bind; [by events|intros ?].
  apply at_most_the_launcher_bind_l; [apply bot_js_branch_requires|intros ?].
  unfold BotJs.login. by events.
Qed.

Lemma bot_js_resolvers_require w :
  (∃ v, value_of (BotJs.resolve_checkForUpdates w) = Some v) ∧
  required (trace (BotJs.resolve_checkForUpdates w)) = ["@root/utils/botUtils"] ∧
  (∃ v, value_of (BotJs.resolve_initializeMongoose w) = Some v) ∧
  required (trace (BotJs.resolve_initializeMongoose w)) = ["@root/utils/database/mongoose"] ∧
  (∃ v, value_of (BotJs.resolve_BotClient w) = Some v) ∧
  required (trace (BotJs.resolve_BotClient w)) = ["@src/core/BotClient"] ∧
  (∃ v, value_of (BotJs.resolve_validateConfiguration w) = Some v) ∧
  required (trace (BotJs.resolve_validateConfiguration w)) =
    ["@root/utils/validateConfiguration"].
Proof.
  unfold BotJs.resolve_checkForUpdates, BotJs.resolve_initializeMongoose,
    BotJs.resolve_BotClient, BotJs.require_BotClient, BotJs.resolve_validateConfiguration,
    require.
  split_and!.
  - destruct (modules w "@root/utils/botUtils"); by eexists.
  - by destruct (modules w "@root/utils/botUtils").
  - destruct (modules w "@root/utils/database/mongoose"); by eexists.
  - by destruct (modules w "@root/utils/database/mongoose").
  - destruct (modules w "@src/core/BotClient"); by eexists.
  - by destruct (modules w "@src/core/BotClient").
  - destruct (modules w "@root/utils/validateConfiguration"); by eexists.
  - by destruct (modules w "@root/utils/validateConfiguration").
Qed.

(** X25.  Apart from [dotenv], whose load is the event [EvEnvLoad], and
    from the built-in module [path], which are required without
    condition at the top of the file and are no part of [required]:
    whatever is installed, [bot.js] requires its four optional
    collaborators, once each and in the same order, and nothing else
    but, at most once and only after them, the launcher of the
    dashboard.  In particular it never requires [figlet], and a
    collaborator that is missing or broken never keeps the later ones
    from being required. *)
Theorem bot_js_requires_its_four_modules (w : world) :
  ∃ rest,
    required (trace (run bot_js w)) = bot_js_modules ++ rest ∧
    (rest = [] ∨ rest = ["@root/dashboard/launch"]).
Proof.
  destruct (bot_js_resolvers_require w)
    as ([cfu H1] & R1 & [im H2] & R2 & [B H3] & R3 & [vc H4] & R4).
  exists (required (trace (BotJs.main w cfu im B vc))).
  split; [|apply bot_js_main_requires].
  simpl run. unfold BotJs.script. rewrite trace_emit_bind.
  rewrite (bind_value _ _ _ H1). cbn [trace].
  rewrite (bind_value _ _ _ H2). cbn [trace].
  rewrite (bind_value _ _ _ H3). cbn [trace].
  rewrite (bind_value _ _ _ H4). cbn [trace].
  change (required (EvEnvLoad :: ?t)) with (required t).
  by rewrite !required_app, R1, R2, R3, R4.
Qed.

(** ** The modules [part_000] requires *)

(** Closes a goal about one event: it is no [require], or it requires a
    module of the list. *)
Ltac known_module :=
  first [ done | left; apply list_elem_of_In; vm_compute; tauto ].

Lemma part_000_resolvers_require w :
  Forall (λ ev, match ev with EvRequire p => part_000_may_require p | _ => True end)
    (trace (Part000.resolve_checkForUpdates w)) ∧
  Forall (λ ev, match ev with EvRequire p => part_000_may_require p | _ => True end)
    (trace (Part000.resolve_initializeMongoose w)) ∧
  Forall (λ ev, match ev with EvRequire p => part_000_may_require p | _ => True end)
    (trace (Part000.resolve_validateConfiguration w)) ∧
  Forall (λ ev, match ev with EvRequire p => part_000_may_require p | _ => True end)
    (trace (Part000.resolve_BotClient w)).
Proof.
  unfold Part000.resolve_checkForUpdates, Part000.resolve_initializeMongoose,
    Part000.resolve_validateConfiguration, Part000.resolve_BotClient,
    Part000.require_BotClient.
  rewrite !first_truthy_more, !first_truthy_one.
  split_and!; trace_forall_go; known_module.
Qed.

Lemma part_000_launchers_require w c :
  Forall (λ ev, match ev with EvRequire p => part_000_may_require p | _ => True end)
    (trace (Part000.tryLaunchDashboard w c)).
Proof.
  unfold Part000.tryLaunchDashboard, Part000.dashboardLauncherPaths.
  rewrite !launch_first_cons. trace_forall_go; known_module.
Qed.

(** X26.  Apart from [dotenv], whose load is the event [EvEnvLoad], and
    from the built-in modules [fs] and [path], which are required
    without condition at the top of the file and are no part of
    [required]: every other [require] of a run of [part_000] is of one
    of the eleven modules of its chains and fallbacks, of one of the
    four launcher files, of ['./dashboard'], or of a file [<stem>.js] of
    [src/commands] or [src/events]. *)
Theorem part_000_requires_only_known_modules (w : world) :
  Forall part_000_may_require (required (trace (run part_000 w))).
Proof.
  destruct (part_000_resolvers_require w) as (H1 & H2 & H3 & H4).
  apply Forall_required. simpl run.
  unfold Part000.script, Part000.main, Part000.after_construction.
  apply Forall_trace_bind; [trace_forall_go; known_module|intros ?].
  apply Forall_trace_bind; [trace_forall_go; known_module|intros ?].
  apply Forall_trace_bind; [trace_forall_go; known_module|intros ?].
  apply Forall_trace_bind; [exact H1|intros ?].
  apply Forall_trace_bind; [exact H2|intros ?].
  apply Forall_trace_bind; [exact H3|intros ?].
  apply Forall_trace_bind; [exact H4|intros ?].
  do 6 (apply Forall_trace_bind; [trace_forall_go; known_module|intros ?]).
  apply Forall_trace_bind; [|intros ?].
  { apply Forall_trace_try_catch; [|intros ?; trace_forall_go; known_module].
    eapply Forall_impl; [apply tryLoadCommands_requires_js|].
    intros [] H; try done. by right; left. }
  apply Forall_trace_bind; [|intros ?].
  { apply Forall_trace_try_catch; [|intros ?; trace_forall_go; known_module].
    eapply Forall_impl; [apply tryLoadEvents_requires_js|].
    intros [] H; try done. by right; right. }
  apply Forall_trace_bind; [trace_forall_go; known_module|intros ?].
  apply Forall_trace_bind; [|intros ?].
  { apply Forall_trace_try_catch; [|intros ?; trace_forall_go; known_module].
    apply Forall_trace_bind; [apply part_000_launchers_require|intros ?]. constructor. }
  unfold Part000.login. trace_forall_go; known_module.
Qed.
